(** * PackHero sample intake: [scripts/organize_samples.py]

    A shallow embedding of the [SampleOrganizer] class (structural
    validation, content hashing, duplicate suppression, renaming, metadata
    emission) together with the properties of the intake pipeline. *)

From Stdlib Require Import ZArith List Ascii String.
From Stdlib.Strings Require Import Byte.
From stdpp Require Import gmap strings list fin_maps pretty.
Import ListNotations.
Set Warnings "-clear-no-such-hyp".
Local Open Scope string_scope.
Local Open Scope list_scope.
Local Open Scope Z_scope.

(** ** [hashlib.sha256]

    FIPS 180-4 SHA-256 over a list of bytes.  32-bit words are [Z] values
    reduced modulo [2^32]. *)
Module SHA256.

Definition w32 (x : Z) : Z := x mod 2 ^ 32.
Definition add32 (x y : Z) : Z := w32 (x + y).
Definition rotr (n x : Z) : Z := Z.lor (Z.shiftr x n) (w32 (Z.shiftl x (32 - n))).
Definition not32 (x : Z) : Z := Z.lxor x (2 ^ 32 - 1).

Definition Ch (x y z : Z) : Z := Z.lxor (Z.land x y) (Z.land (not32 x) z).
Definition Maj (x y z : Z) : Z :=
  Z.lxor (Z.lxor (Z.land x y) (Z.land x z)) (Z.land y z).
Definition Sigma0 (x : Z) : Z := Z.lxor (Z.lxor (rotr 2 x) (rotr 13 x)) (rotr 22 x).
Definition Sigma1 (x : Z) : Z := Z.lxor (Z.lxor (rotr 6 x) (rotr 11 x)) (rotr 25 x).
Definition sigma0 (x : Z) : Z := Z.lxor (Z.lxor (rotr 7 x) (rotr 18 x)) (Z.shiftr x 3).
Definition sigma1 (x : Z) : Z := Z.lxor (Z.lxor (rotr 17 x) (rotr 19 x)) (Z.shiftr x 10).

(** The round constants are the first 32 bits of the fractional parts of
    the cube roots of the first 64 primes; the initial hash value comes
    from the square roots of the first 8. *)
Fixpoint is_prime_go (fuel : nat) (d n : Z) : bool :=
  match fuel with
  | O => true
  | S fuel' =>
      if n <? d * d then true
      else if n mod d =? 0 then false
      else is_prime_go fuel' (d + 1) n
  end.
Definition is_prime (n : Z) : bool := (2 <=? n) && is_prime_go 32 2 n.

Fixpoint primes_go (fuel : nat) (n : Z) (count : nat) : list Z :=
  match fuel, count with
  | _, O => []
  | O, _ => []
  | S fuel', S count' =>
      if is_prime n then n :: primes_go fuel' (n + 1) count'
      else primes_go fuel' (n + 1) count
  end.
Definition primes (count : nat) : list Z := primes_go 400 2 count.

Fixpoint icbrt_go (bits : nat) (r n : Z) : Z :=
  match bits with
  | O => r
  | S b =>
      let r' := r + 2 ^ Z.of_nat b in
      icbrt_go b (if r' * r' * r' <=? n then r' else r) n
  end.
Definition icbrt (n : Z) : Z := icbrt_go 40 0 n.

Definition K : list Z :=
  Eval vm_compute in map (fun p => w32 (icbrt (p * 2 ^ 96))) (primes 64).
Definition H0 : list Z :=
  Eval vm_compute in map (fun p => w32 (Z.sqrt (p * 2 ^ 64))) (primes 8).

Definition byte_Z (b : byte) : Z := Z.of_N (Byte.to_N b).

(** Big-endian encoding of [n] on [k] bytes. *)
Fixpoint be_bytes (k : nat) (n : Z) : list Z :=
  match k with
  | O => []
  | S k' => (Z.shiftr n (8 * Z.of_nat k')) mod 256 :: be_bytes k' n
  end.

Definition pad (msg : list Z) : list Z :=
  let len := Z.of_nat (length msg) in
  let zeros := Z.to_nat ((55 - len) mod 64) in
  msg ++ [128] ++ repeat 0 zeros ++ be_bytes 8 (8 * len).

Fixpoint words (fuel : nat) (bs : list Z) : list Z :=
  match fuel, bs with
  | S fuel', b0 :: b1 :: b2 :: b3 :: rest =>
      (((b0 * 256 + b1) * 256 + b2) * 256 + b3) :: words fuel' rest
  | _, _ => []
  end.

Definition nthZ (l : list Z) (i : nat) : Z := nth i l 0.

Fixpoint schedule (n : nat) (w : list Z) : list Z :=
  match n with
  | O => w
  | S n' =>
      let t := length w in
      let x := add32 (add32 (sigma1 (nthZ w (t - 2))) (nthZ w (t - 7)))
                     (add32 (sigma0 (nthZ w (t - 15))) (nthZ w (t - 16))) in
      schedule n' (w ++ [x])
  end.

Record regs := Regs { ra : Z; rb : Z; rc : Z; rd : Z; re : Z; rf : Z; rg : Z; rh : Z }.

Definition round (s : regs) (kw : Z * Z) : regs :=
  let t1 := add32 (add32 (add32 (rh s) (Sigma1 (re s))) (Ch (re s) (rf s) (rg s)))
                  (add32 (fst kw) (snd kw)) in
  let t2 := add32 (Sigma0 (ra s)) (Maj (ra s) (rb s) (rc s)) in
  Regs (add32 t1 t2) (ra s) (rb s) (rc s) (add32 (rd s) t1) (re s) (rf s) (rg s).

Definition compress (h : regs) (block : list Z) : regs :=
  let w := schedule 48 block in
  let s := fold_left round (combine K w) h in
  Regs (add32 (ra h) (ra s)) (add32 (rb h) (rb s)) (add32 (rc h) (rc s))
       (add32 (rd h) (rd s)) (add32 (re h) (re s)) (add32 (rf h) (rf s))
       (add32 (rg h) (rg s)) (add32 (rh h) (rh s)).

Fixpoint blocks (fuel : nat) (ws : list Z) : list (list Z) :=
  match fuel, ws with
  | O, _ => []
  | _, [] => []
  | S fuel', _ => firstn 16 ws :: blocks fuel' (skipn 16 ws)
  end.

Definition init : regs :=
  Regs (nthZ H0 0) (nthZ H0 1) (nthZ H0 2) (nthZ H0 3)
       (nthZ H0 4) (nthZ H0 5) (nthZ H0 6) (nthZ H0 7).

Definition digest (msg : list byte) : regs :=
  let bs := pad (map byte_Z msg) in
  let ws := words (length bs) bs in
  fold_left compress (blocks (length ws) ws) init.

Definition hex_digit (n : Z) : ascii :=
  nth (Z.to_nat (n mod 16)) (list_ascii_of_string "0123456789abcdef") "0"%char.

Definition hex8 (w : Z) : string :=
  String (hex_digit (Z.shiftr w 28)) (String (hex_digit (Z.shiftr w 24))
  (String (hex_digit (Z.shiftr w 20)) (String (hex_digit (Z.shiftr w 16))
  (String (hex_digit (Z.shiftr w 12)) (String (hex_digit (Z.shiftr w 8))
  (String (hex_digit (Z.shiftr w 4)) (String (hex_digit w) EmptyString))))))).

(** [hashlib.sha256(msg).hexdigest()]: 64 lowercase hex characters. *)
Definition hexdigest (msg : list byte) : string :=
  let r := digest msg in
  (hex8 (ra r) ++ hex8 (rb r) ++ hex8 (rc r) ++ hex8 (rd r) ++
   hex8 (re r) ++ hex8 (rf r) ++ hex8 (rg r) ++ hex8 (rh r))%string.

End SHA256.

Arguments SHA256.hexdigest : simpl never.

(** ** Python values and exceptions *)

Definition bytes_of (s : string) : list byte := list_byte_of_string s.

#[global] Instance byte_eq_dec : EqDecision byte := Byte.byte_eq_dec.

Definition ENOENT : Z := 2.
Definition EIO : Z := 5.
Definition EBADF : Z := 9.
Definition EACCES : Z := 13.
Definition ENOTDIR : Z := 20.
Definition ENOSPC : Z := 28.
Definition ENAMETOOLONG : Z := 36.
Definition ELOOP : Z := 40.

(** [OSError] stands for the whole family ([FileNotFoundError],
    [PermissionError], [IsADirectoryError], ...), told apart by [errno].
    [UnicodeEncodeError] is what [print] raises for a text the standard
    output cannot encode.  [SystemExit] derives from [BaseException]
    only. *)
Inductive exn : Type :=
| OSError (errno : Z)
| SameFileError
| KeyError (key : string)
| UnicodeEncodeError
| SystemExit (code : Z).

(** [isinstance(e, Exception)] *)
Definition is_Exception (e : exn) : bool :=
  match e with
  | SystemExit _ => false
  | _ => true
  end.

(** ** The file system

    A directory is the list of its entries in the order the operating
    system enumerates them; the file system maps the path of a directory to
    its entries.  A path [(d, n)] is the entry [n] of directory [d].  Of
    the stat data of a file, [f_stat] keeps the permission bits: what a
    later [open] depends on and what [shutil.copystat] carries over. *)
Record file := File { f_data : list byte; f_stat : Z }.

Abbreviation path := (string * string)%type.
Abbreviation directory := (list (string * file)).

(** What [print] writes, one constructor per message of the script. *)
Inductive line : Type :=
| P_creating_dirs
| P_dirs_created
| P_source_not_found (source : string)
| P_organizing (sample_type source : string)
| P_no_exe_files (source : string)
| P_not_pe (idx total : nat) (name : string)
| P_duplicate (idx total : nat) (name : string)
| P_copied (idx total : nat) (new_name : string)
| P_error (idx total : nat) (name : string) (e : exn)
| P_metadata_saved (file : path)
| P_summary (malware benign duplicates errors : Z) (verdict : nat)
| P_location (base_dir : string).

(** The environment of a run, fixed for the run: the faults of the
    devices, whether the process overrides permission bits, and its
    umask. *)
Record device := Device {
  open_rd_err : path -> option Z;   (* open(p, 'rb') raises OSError(errno) *)
  read_err : path -> option nat;    (* first offset whose read raises EIO *)
  open_wr_err : path -> option Z;   (* open(p, 'wb') raises OSError(errno) *)
  write_err : path -> option nat;   (* bytes accepted before ENOSPC *)
  copystat_err : path -> option Z;  (* copystat(_, p) raises OSError(errno) *)
  mkdir_err : string -> option Z;   (* mkdir raises OSError(errno) *)
  stat_err : string -> option Z;    (* os.stat raises OSError(errno) *)
  print_err : line -> option exn;   (* print raises *)
  privileged : bool;                (* permission bits do not bind the process *)
  umask : Z
}.

Definition no_faults : device :=
  Device (fun _ => None) (fun _ => None) (fun _ => None) (fun _ => None) (fun _ => None)
         (fun _ => None) (fun _ => None) (fun _ => None) false 18.

Fixpoint assoc {A : Type} (n : string) (l : list (string * A)) : option A :=
  match l with
  | [] => None
  | (k, v) :: l' => if String.eqb k n then Some v else assoc n l'
  end.

(** Replace the entry in place, or append a new one. *)
Fixpoint put_entry {A : Type} (n : string) (v : A) (l : list (string * A)) : list (string * A) :=
  match l with
  | [] => [(n, v)]
  | (k, w) :: l' => if String.eqb k n then (k, v) :: l' else (k, w) :: put_entry n v l'
  end.

Definition lookup_file (fs : gmap string directory) (p : path) : option file :=
  match fs !! p.1 with
  | Some entries => assoc p.2 entries
  | None => None
  end.

Definition store_file (fs : gmap string directory) (p : path) (f : file) : gmap string directory :=
  match fs !! p.1 with
  | Some entries => <[p.1 := put_entry p.2 f entries]> fs
  | None => fs
  end.

(** An open binary reader: content, position, and the bad offset if any. *)
Record reader := Reader { r_data : list byte; r_pos : nat; r_bad : option nat }.

Definition open_rb (dev : device) (fs : gmap string directory) (p : path) : exn + reader :=
  match open_rd_err dev p with
  | Some e => inl (OSError e)
  | None =>
      match lookup_file fs p with
      | None => inl (OSError ENOENT)
      | Some f => inr (Reader (f_data f) 0 (read_err dev p))
      end
  end.

(** [f.read(n)]: up to [n] bytes from the current position; raises when a
    requested byte lies at or beyond the bad offset. *)
Definition read (r : reader) (n : nat) : exn + (list byte * reader) :=
  let chunk := take n (drop (r_pos r) (r_data r)) in
  let pos' := (r_pos r + length chunk)%nat in
  match r_bad r with
  | Some k =>
      if (k <? pos')%nat then inl (OSError EIO)
      else inr (chunk, Reader (r_data r) pos' (r_bad r))
  | None => inr (chunk, Reader (r_data r) pos' (r_bad r))
  end.

(** ** [SampleOrganizer.is_pe_file] *)

Definition MZ : list byte := ["M"%byte; "Z"%byte].

(** The body of the [try]. *)
Definition is_pe_file_body (dev : device) (fs : gmap string directory) (filepath : path)
  : exn + bool :=
  match open_rb dev fs filepath with
  | inl e => inl e
  | inr f =>
      match read f 2 with
      | inl e => inl e
      | inr (header, _) => inr (bool_decide (header = MZ))
      end
  end.

(** The bare [except:] catches every exception and returns [False]. *)
Definition is_pe_file (dev : device) (fs : gmap string directory) (filepath : path)
  : exn + bool :=
  match is_pe_file_body dev fs filepath with
  | inl _ => inr false
  | inr b => inr b
  end.

(** ** [SampleOrganizer.get_file_hash] *)

(** A [hashlib] object: the bytes fed so far. *)
Definition hasher : Type := list byte.
Definition sha256_new : hasher := [].
Definition sha256_update (h : hasher) (chunk : list byte) : hasher := h ++ chunk.
Definition sha256_hexdigest (h : hasher) : string := SHA256.hexdigest h.

(** [for chunk in iter(lambda: f.read(4096), b""): sha256.update(chunk)].
    Every non-empty chunk advances the reader, so [fuel] above the number
    of unread bytes is never exhausted (see [hash_chunks_sound]). *)
Fixpoint hash_chunks (fuel : nat) (f : reader) (sha256 : hasher) : exn + hasher :=
  match fuel with
  | O => inr sha256
  | S fuel' =>
      match read f 4096 with
      | inl e => inl e
      | inr ([], _) => inr sha256
      | inr (chunk, f') => hash_chunks fuel' f' (sha256_update sha256 chunk)
      end
  end.

Definition get_file_hash (dev : device) (fs : gmap string directory) (filepath : path)
  : exn + string :=
  match open_rb dev fs filepath with
  | inl e => inl e
  | inr f =>
      match hash_chunks (S (length (r_data f))) f sha256_new with
      | inl e => inl e
      | inr sha256 => inr (sha256_hexdigest sha256)
      end
  end.

(** ** Statements that mutate state and may raise

    A raised exception leaves every mutation made before it in place. *)
Definition M (St A : Type) : Type := St -> St * (exn + A).

Definition ret {St A : Type} (a : A) : M St A := fun s => (s, inr a).
Definition raise {St A : Type} (e : exn) : M St A := fun s => (s, inl e).
Definition bind {St A B : Type} (m : M St A) (k : A -> M St B) : M St B :=
  fun s =>
    match m s with
    | (s', inl e) => (s', inl e)
    | (s', inr a) => k a s'
    end.

(** [try: m  except <catches> as e: handler e] *)
Definition try_except {St A : Type} (m : M St A) (catches : exn -> bool) (handler : exn -> M St A)
  : M St A :=
  fun s =>
    match m s with
    | (s', inl e) => if catches e then handler e s' else (s', inl e)
    | (s', inr a) => (s', inr a)
    end.

(** An expression that reads the state without changing it. *)
Definition eval {St A : Type} (f : St -> exn + A) : M St A := fun s => (s, f s).
Definition modify {St : Type} (f : St -> St) : M St unit := fun s => (f s, inr tt).

Notation "'let!' x ':=' m 'in' k" := (bind m (fun x => k))
  (at level 10, x name, m at level 100, k at level 200).
Notation "m ;;; k" := (bind m (fun _ => k))
  (at level 100, k at level 200, right associativity).

(** [for idx, x in enumerate(l, start): body idx x] *)
Fixpoint for_enumerate {St A : Type} (body : nat -> A -> M St unit) (start : nat) (l : list A)
  : M St unit :=
  match l with
  | [] => ret tt
  | x :: l' => body start x ;;; for_enumerate body (S start) l'
  end.

(** ** Program state *)

(** The organizer's [stats] dictionary, the file system and standard
    output. *)
Record state := State {
  fs : gmap string directory;
  stats : gmap string Z;
  out : list line
}.

(** The activation of [organize_samples]: the state plus the local
    [seen_hashes]. *)
Record frame := Frame { world : state; seen_hashes : gset string }.

(** [print]: the line reaches the standard output, or the output raises
    for it and nothing is written. *)
Definition print (dev : device) (l : line) : M state unit :=
  fun s =>
    match print_err dev l with
    | Some e => (s, inl e)
    | None => (State (fs s) (stats s) (out s ++ [l]), inr tt)
    end.

(** [self.stats[key] += 1] *)
Definition stats_incr (key : string) : M state unit :=
  fun s =>
    match stats s !! key with
    | None => (s, inl (KeyError key))
    | Some n => (State (fs s) (<[key := n + 1]> (stats s)) (out s), inr tt)
    end.

(** Run a statement on the organizer state inside the activation. *)
Definition in_world {A : Type} (m : M state A) : M frame A :=
  fun fr => let (s', r) := m (world fr) in (Frame s' (seen_hashes fr), r).

(** ** [shutil.copy2]

    Opens the source for reading and the destination for writing (which
    creates or truncates it), streams the content, then copies the stat
    information.  A fault while streaming leaves the bytes written so far
    in the destination. *)

(** Permission bit [0o200]: the owner may write. *)
Definition owner_writable (st : Z) : bool := Z.testbit st 7.

(** The permission bits of a file that [open] creates: [0o666] less the
    umask. *)
Definition fresh_stat (dev : device) : Z := Z.ldiff 438 (umask dev).

(** The errno with which [open(p, 'w')] or [open(p, 'wb')] fails, if it
    does: a fault of the device, a missing directory, or an existing file
    whose permission bits deny writing to a process they bind. *)
Definition open_w (dev : device) (fs : gmap string directory) (p : path) : option Z :=
  match open_wr_err dev p with
  | Some e => Some e
  | None =>
      if bool_decide (is_Some (fs !! p.1)) then
        match lookup_file fs p with
        | Some g => if privileged dev || owner_writable (f_stat g) then None else Some EACCES
        | None => None
        end
      else Some ENOENT
  end.

(** The permission bits of [p] once it is open for writing: those of the
    file that was there, or those of a new file. *)
Definition created_stat (dev : device) (fs : gmap string directory) (p : path) : Z :=
  match lookup_file fs p with
  | Some g => f_stat g
  | None => fresh_stat dev
  end.

(** Offset at which streaming [len] bytes from [src] to [dst] stops. *)
Definition stream_fault (dev : device) (src dst : path) (len : nat) : option (nat * Z) :=
  match read_err dev src, write_err dev dst with
  | Some r, Some w =>
      if (r <? len)%nat && (r <=? w)%nat then Some (r, EIO)
      else if (w <? len)%nat then Some (w, ENOSPC) else None
  | Some r, None => if (r <? len)%nat then Some (r, EIO) else None
  | None, Some w => if (w <? len)%nat then Some (w, ENOSPC) else None
  | None, None => None
  end.

Definition copy2 (dev : device) (src dst : path) : M state unit :=
  fun s =>
    if bool_decide (src = dst) then (s, inl SameFileError)
    else
      match open_rd_err dev src, lookup_file (fs s) src with
      | Some e, _ => (s, inl (OSError e))
      | None, None => (s, inl (OSError ENOENT))
      | None, Some f =>
          match open_w dev (fs s) dst with
          | Some e => (s, inl (OSError e))
          | None =>
              let st := created_stat dev (fs s) dst in
              match stream_fault dev src dst (length (f_data f)) with
              | Some (k, e) =>
                  (State (store_file (fs s) dst (File (take k (f_data f)) st))
                         (stats s) (out s),
                   inl (OSError e))
              | None =>
                  match copystat_err dev dst with
                  | Some e =>
                      (State (store_file (fs s) dst (File (f_data f) st)) (stats s) (out s),
                       inl (OSError e))
                  | None =>
                      (State (store_file (fs s) dst (File (f_data f) (f_stat f)))
                             (stats s) (out s),
                       inr tt)
                  end
              end
          end
      end.

(** ** [SampleOrganizer.organize_samples] *)

(** [Path.glob('*.exe')]: the entries whose name ends in [.exe], in
    enumeration order. *)
Definition ends_with (suffix s : string) : bool :=
  let n := String.length s in
  let k := String.length suffix in
  (k <=? n)%nat && String.eqb (String.substring (n - k) k s) suffix.

Definition glob_exe (entries : directory) : list string :=
  filter (fun n => ends_with ".exe" n = true) (fst <$> entries).

(** [list(Path(source_dir).glob('*.exe'))]: nothing when the path is not
    a directory. *)
Definition exe_files_of (s : state) (source_dir : string) : list string :=
  match fs s !! source_dir with
  | Some entries => glob_exe entries
  | None => []
  end.

(** [os.stat] errors that [Path.exists] turns into [False]; it re-raises
    the others. *)
Definition ignored_errno (e : Z) : bool :=
  bool_decide (e ∈ [ENOENT; ENOTDIR; EBADF; ELOOP]).

(** The path names an entry of a directory, a regular file. *)
Definition names_file (fs : gmap string directory) (d : string) : bool :=
  existsb (fun de : string * directory =>
             existsb (fun e : string * file => String.eqb (de.1 +:+ "/" +:+ e.1) d) de.2)
          (map_to_list fs).

(** [Path(d).exists()] *)
Definition path_exists (dev : device) (fs : gmap string directory) (d : string) : exn + bool :=
  match stat_err dev d with
  | Some e => if ignored_errno e then inr false else inl (OSError e)
  | None => inr (bool_decide (is_Some (fs !! d)) || names_file fs d)
  end.

Definition dest_path (base_dir sample_type : string) : string :=
  base_dir +:+ "/original/" +:+ sample_type.

(** [f"{sample_type}_{file_hash[:16]}_{file_path.name}"] *)
Definition new_name (sample_type file_hash name : string) : string :=
  sample_type +:+ "_" +:+ String.substring 0 16 file_hash +:+ "_" +:+ name.

Section Intake.
Variable dev : device.
Variable base_dir : string.

(** The body of the [try] for one candidate. *)
Definition process_body (source_dir sample_type : string) (total idx : nat) (name : string)
  : M frame unit :=
  let file_path := (source_dir, name) in
  let! valid := eval (fun fr => is_pe_file dev (fs (world fr)) file_path) in
  if negb valid then
    in_world (print dev (P_not_pe idx total name)) ;;;
    in_world (stats_incr "errors")
  else
    let! file_hash := eval (fun fr => get_file_hash dev (fs (world fr)) file_path) in
    let! seen := eval (fun fr => inr (seen_hashes fr)) in
    if bool_decide (file_hash ∈ seen) then
      in_world (print dev (P_duplicate idx total name)) ;;;
      in_world (stats_incr "duplicates")
    else
      modify (fun fr => Frame (world fr) ({[file_hash]} ∪ seen_hashes fr)) ;;;
      let dest_file := (dest_path base_dir sample_type, new_name sample_type file_hash name) in
      in_world (copy2 dev file_path dest_file) ;;;
      in_world (print dev (P_copied idx total (new_name sample_type file_hash name))) ;;;
      in_world (stats_incr sample_type).

(** One iteration: the [try] with its [except Exception as e] handler. *)
Definition process_file (source_dir sample_type : string) (total idx : nat) (name : string)
  : M frame unit :=
  try_except (process_body source_dir sample_type total idx name) is_Exception
    (fun e => in_world (print dev (P_error idx total name e)) ;;;
              in_world (stats_incr "errors")).

Definition process_all (source_dir sample_type : string) (exe_files : list string)
  : M frame unit :=
  for_enumerate (process_file source_dir sample_type (length exe_files)) 1%nat exe_files.

Definition organize_samples (source_dir sample_type : string) : M state unit :=
  let! present := eval (fun s => path_exists dev (fs s) source_dir) in
  if negb present then print dev (P_source_not_found source_dir)
  else
    print dev (P_organizing sample_type source_dir) ;;;
    let seen_hashes := (∅ : gset string) in
    let! exe_files := eval (fun s => inr (exe_files_of s source_dir)) in
    match exe_files with
    | [] => print dev (P_no_exe_files source_dir)
    | _ =>
        fun s =>
          let (fr, r) := process_all source_dir sample_type exe_files (Frame s seen_hashes) in
          (world fr, r)
    end.

End Intake.

(** ** [SampleOrganizer.__init__] and [setup_directories] *)

Definition init_stats : gmap string Z :=
  <["errors" := 0]> (<["duplicates" := 0]> (<["benign" := 0]> (<["malware" := 0]> ∅))).

(** [Path.mkdir(parents=True, exist_ok=True)] on [base_dir / c1 / ... / cn];
    the ancestors of [base_dir] itself lie outside the model. *)
Definition mkdir (dev : device) (d : string) : M state unit :=
  fun s =>
    match mkdir_err dev d with
    | Some e => (s, inl (OSError e))
    | None =>
        match fs s !! d with
        | Some _ => (s, inr tt)
        | None => (State (<[d := []]> (fs s)) (stats s) (out s), inr tt)
        end
    end.

Fixpoint mkdir_parents (dev : device) (d : string) (components : list string) : M state unit :=
  match components with
  | [] => mkdir dev d
  | c :: cs => mkdir dev d ;;; mkdir_parents dev (d +:+ "/" +:+ c) cs
  end.

Fixpoint for_each {St A : Type} (body : A -> M St unit) (l : list A) : M St unit :=
  match l with
  | [] => ret tt
  | x :: l' => body x ;;; for_each body l'
  end.

Definition dataset_dirs : list (list string) :=
  [ ["original"; "malware"]; ["original"; "benign"];
    ["packed"; "upx"; "malware"]; ["packed"; "upx"; "benign"];
    ["packed"; "upx_best"; "malware"]; ["packed"; "upx_best"; "benign"];
    ["packed"; "upx_ultra"; "malware"]; ["packed"; "upx_ultra"; "benign"];
    ["labels"]; ["metadata"] ].

Definition setup_directories (dev : device) (base_dir : string) : M state unit :=
  print dev P_creating_dirs ;;;
  for_each (mkdir_parents dev base_dir) dataset_dirs ;;;
  print dev P_dirs_created.

(** ** [json.dump(metadata, f, indent=2)] *)

#[warnings="-register-all"]
Inductive json : Type :=
| JInt (n : Z)
| JStr (s : string)
| JObj (items : list (string * json)).

Definition nl : string := String (ascii_of_nat 10) EmptyString.
Definition dquote : string := String (ascii_of_nat 34) EmptyString.
Definition backslash : string := String (ascii_of_nat 92) EmptyString.

(** Quoting escapes the double quote and the backslash; the strings of the
    script (fixed keys, an ISO-8601 timestamp) hold no control or
    non-ASCII character. *)
Fixpoint json_escape (s : string) : string :=
  match s with
  | EmptyString => EmptyString
  | String c s' =>
      (if Ascii.eqb c (ascii_of_nat 34) then backslash +:+ dquote
       else if Ascii.eqb c (ascii_of_nat 92) then backslash +:+ backslash
       else String c EmptyString) +:+ json_escape s'
  end.

Definition json_quote (s : string) : string := dquote +:+ json_escape s +:+ dquote.

Fixpoint spaces (n : nat) : string :=
  match n with
  | O => EmptyString
  | S n' => String " "%char (spaces n')
  end.

Fixpoint json_dumps (level : nat) (j : json) : string :=
  match j with
  | JInt n => pretty n
  | JStr s => json_quote s
  | JObj [] => "{}"
  | JObj ((k0, v0) :: rest) =>
      let item k v := spaces (2 * S level) +:+ json_quote k +:+ ": " +:+ v in
      "{" +:+ nl +:+ item k0 (json_dumps (S level) v0) +:+
      (fix items (l : list (string * json)) : string :=
         match l with
         | [] => EmptyString
         | (k, v) :: l' => "," +:+ nl +:+ item k (json_dumps (S level) v) +:+ items l'
         end) rest +:+
      nl +:+ spaces (2 * level) +:+ "}"
  end.

(** ** [SampleOrganizer.generate_metadata] *)

(** [open(p, 'w')] creates or truncates the file; writing [data] then
    stops at the write fault of the device, if it has one below the
    length. *)
Definition write_text (dev : device) (p : path) (data : list byte) : M state unit :=
  fun s =>
    match open_w dev (fs s) p with
    | Some e => (s, inl (OSError e))
    | None =>
        let st := created_stat dev (fs s) p in
        match write_err dev p with
        | Some k =>
            if (k <? length data)%nat then
              (State (store_file (fs s) p (File (take k data) st)) (stats s) (out s),
               inl (OSError ENOSPC))
            else (State (store_file (fs s) p (File data st)) (stats s) (out s), inr tt)
        | None => (State (store_file (fs s) p (File data st)) (stats s) (out s), inr tt)
        end
    end.

(** [self.stats.copy()], with the keys in the order [__init__] inserts
    them. *)
Definition stats_items (st : gmap string Z) : list (string * json) :=
  omap (fun k => (fun n => (k, JInt n)) <$> st !! k) ["malware"; "benign"; "duplicates"; "errors"].

(** [if orig_path.exists(): metadata[f'{sample_type}_count'] =
    len(list(orig_path.glob('*.exe')))] *)
Definition count_item (dev : device) (base_dir : string) (s : state) (sample_type : string)
  : exn + list (string * json) :=
  match path_exists dev (fs s) (dest_path base_dir sample_type) with
  | inl e => inl e
  | inr true =>
      inr [(sample_type +:+ "_count",
            JInt (Z.of_nat (length (exe_files_of s (dest_path base_dir sample_type)))))]
  | inr false => inr []
  end.

(** The record, or the exception an [exists()] raises while it is
    built. *)
Definition metadata (dev : device) (base_dir now : string) (s : state) : exn + json :=
  match count_item dev base_dir s "malware" with
  | inl e => inl e
  | inr malware_count =>
      match count_item dev base_dir s "benign" with
      | inl e => inl e
      | inr benign_count =>
          inr (JObj ([("created", JStr now); ("structure", JStr "PackHero dataset");
                      ("statistics", JObj (stats_items (stats s)))]
                     ++ malware_count ++ benign_count))
      end
  end.

Definition metadata_file (base_dir : string) : path :=
  (base_dir +:+ "/metadata", "dataset_info.json").

Definition generate_metadata (dev : device) (base_dir now : string) : M state json :=
  let! md := eval (fun s => metadata dev base_dir now s) in
  write_text dev (metadata_file base_dir) (bytes_of (json_dumps 0 md)) ;;;
  print dev (P_metadata_saved (metadata_file base_dir)) ;;;
  ret md.

(** ** [print_summary] and [main] *)

Definition stats_get (key : string) : M state Z :=
  eval (fun s => match stats s !! key with
                 | Some n => inr n
                 | None => inl (KeyError key)
                 end).

(** The counters and the verdict on their total, then the location of
    the dataset and the next steps. *)
Definition print_summary (dev : device) (base_dir : string) : M state unit :=
  let! m := stats_get "malware" in
  let! b := stats_get "benign" in
  let! d := stats_get "duplicates" in
  let! e := stats_get "errors" in
  print dev
    (P_summary m b d e (if m + b <? 10 then 0%nat else if m + b <? 50 then 1%nat else 2%nat)) ;;;
  print dev (P_location base_dir).

Record args := Args { a_malware : option string; a_benign : option string; a_output : string }.

(** Truthiness of an optional command-line string. *)
Definition given (o : option string) : option string :=
  match o with
  | Some EmptyString => None
  | _ => o
  end.

Definition main (dev : device) (now : string) (a : args) : M state unit :=
  match given (a_malware a), given (a_benign a) with
  | None, None => raise (SystemExit 2)
  | m, b =>
      modify (fun s => State (fs s) init_stats (out s)) ;;;
      setup_directories dev (a_output a) ;;;
      match m with
      | Some d => organize_samples dev (a_output a) d "malware"
      | None => ret tt
      end ;;;
      match b with
      | Some d => organize_samples dev (a_output a) d "benign"
      | None => ret tt
      end ;;;
      generate_metadata dev (a_output a) now ;;;
      print_summary dev (a_output a)
  end.

(** * Vocabulary of the properties *)

(** No byte of the file lies at or beyond a bad offset. *)
Definition sound (r : reader) : Prop :=
  (r_pos r <= length (r_data r))%nat /\
  match r_bad r with
  | Some k => (length (r_data r) <= k)%nat
  | None => True
  end.

(** The validator, as a total boolean function of the file. *)
Definition valid_pe (dev : device) (fs0 : gmap string directory) (p : path) : bool :=
  match open_rd_err dev p, lookup_file fs0 p with
  | None, Some f =>
      match read_err dev p with
      | Some k => negb (k <? length (take 2 (f_data f)))%nat
      | None => true
      end && bool_decide (take 2 (f_data f) = MZ)
  | _, _ => false
  end.

(** The copy of [src] to [dst] runs to completion. *)
Definition copy_clean (dev : device) (fs0 : gmap string directory) (src dst : path) : bool :=
  match lookup_file fs0 src with
  | Some f =>
      negb (bool_decide (src = dst))
      && bool_decide (open_rd_err dev src = None)
      && bool_decide (open_w dev fs0 dst = None)
      && bool_decide (stream_fault dev src dst (length (f_data f)) = None)
      && bool_decide (copystat_err dev dst = None)
  | None => false
  end.

(** The standard output accepts every line. *)
Definition prints_ok (dev : device) : Prop := forall l, print_err dev l = None.


Definition say (l : line) (s : state) : state := State (fs s) (stats s) (out s ++ [l]).

Definition count (key : string) (s : state) : state :=
  match stats s !! key with
  | Some n => State (fs s) (<[key := n + 1]> (stats s)) (out s)
  | None => s
  end.

(** The counter [key], zero when absent. *)
Definition counter (key : string) (s : state) : Z := default 0 (stats s !! key).

(** The organizer carries the two counters every iteration may touch, and
    the one of the label. *)
Definition has_counters (sample_type : string) (s : state) : Prop :=
  is_Some (stats s !! "errors") /\ is_Some (stats s !! "duplicates") /\
  is_Some (stats s !! sample_type).

Section StepDefs.
Variable dev : device.
Variables base_dir source_dir sample_type : string.
Variable total : nat.

Definition dest_file (file_hash name : string) : path :=
  (dest_path base_dir sample_type, new_name sample_type file_hash name).

(** What [process_file] does to the activation when the counters exist
    and the standard output accepts its lines. *)
Definition step (idx : nat) (name : string) (fr : frame) : frame :=
  let w := world fr in
  let file_path := (source_dir, name) in
  if negb (valid_pe dev (fs w) file_path) then
    Frame (count "errors" (say (P_not_pe idx total name) w)) (seen_hashes fr)
  else
    match get_file_hash dev (fs w) file_path with
    | inl e => Frame (count "errors" (say (P_error idx total name e) w)) (seen_hashes fr)
    | inr file_hash =>
        if bool_decide (file_hash ∈ seen_hashes fr) then
          Frame (count "duplicates" (say (P_duplicate idx total name) w)) (seen_hashes fr)
        else
          match copy2 dev file_path (dest_file file_hash name) w with
          | (w', inl e) =>
              Frame (count "errors" (say (P_error idx total name e) w'))
                    ({[file_hash]} ∪ seen_hashes fr)
          | (w', inr _) =>
              Frame (count sample_type
                       (say (P_copied idx total (new_name sample_type file_hash name)) w'))
                    ({[file_hash]} ∪ seen_hashes fr)
          end
    end.

(** The loop as an iteration of [step]. *)
Fixpoint steps (idx : nat) (names : list string) (fr : frame) : frame :=
  match names with
  | [] => fr
  | name :: names' => steps (S idx) names' (step idx name fr)
  end.

End StepDefs.

Section LoopDefs.
Variable dev : device.
Variables base_dir source_dir sample_type : string.
Variable fs0 : gmap string directory.
Local Abbreviation dest := (dest_path base_dir sample_type).
Local Abbreviation dfile := (dest_file base_dir sample_type).

(** The digest under which a candidate reaches the duplicate check, if
    it does. *)
Definition hashed (name : string) : option string :=
  if valid_pe dev fs0 (source_dir, name) then
    match get_file_hash dev fs0 (source_dir, name) with
    | inr h => Some h
    | inl _ => None
    end
  else None.

(** The activation still sees the source directory and the destination
    directory as they were when the call began. *)
Definition stable (fr : frame) : Prop :=
  fs (world fr) !! source_dir = fs0 !! source_dir /\
  (is_Some (fs (world fr) !! dest) <-> is_Some (fs0 !! dest)) /\
  has_counters sample_type (world fr).

(** The four outcomes of an iteration. *)
Inductive outcome : Type := Rejected | Failed | Duplicate | Accepted.

Definition outcome_of (seen : gset string) (name : string) : outcome :=
  match hashed name with
  | None => if valid_pe dev fs0 (source_dir, name) then Failed else Rejected
  | Some h =>
      if bool_decide (h ∈ seen) then Duplicate
      else if copy_clean dev fs0 (source_dir, name) (dfile h name) then Accepted
      else Failed
  end.

End LoopDefs.

Definition first_frame (source_dir sample_type : string) (s : state) : frame :=
  Frame (say (P_organizing sample_type source_dir) s) ∅.

Definition frame_before (dev : device) (base_dir source_dir sample_type : string)
    (s : state) (i : nat) : frame :=
  let exe_files := exe_files_of s source_dir in
  (for_enumerate (process_file dev base_dir source_dir sample_type (length exe_files)) 1%nat
     (take i exe_files) (first_frame source_dir sample_type s)).1.

(** An exception is raised while hashing the candidate, or while copying
    it once it has passed the duplicate check. *)
Definition raises_in (dev : device) (base_dir source_dir sample_type name : string)
    (fr : frame) (e : exn) : Prop :=
  is_pe_file dev (fs (world fr)) (source_dir, name) = inr true /\
  (get_file_hash dev (fs (world fr)) (source_dir, name) = inl e \/
   exists h, get_file_hash dev (fs (world fr)) (source_dir, name) = inr h /\
             (h ∉ seen_hashes fr) /\
             (copy2 dev (source_dir, name) (dest_file base_dir sample_type h name) (world fr)).2
             = inl e).


Definition delta (key : string) (fr fr' : frame) : Z :=
  counter key (world fr') - counter key (world fr).

Section OutcomesDefs.
Variable dev : device.
Variables base_dir source_dir sample_type : string.

(** Rejected: the signature check fails; counted as an error, nothing
    copied. *)
Definition is_rejected (name : string) (fr fr' : frame) : Prop :=
  is_pe_file dev (fs (world fr)) (source_dir, name) = inr false /\
  delta "errors" fr fr' = 1 /\ delta "duplicates" fr fr' = 0 /\
  delta sample_type fr fr' = 0 /\ fs (world fr') = fs (world fr).

(** Duplicate: the digest was already seen in this call; counted as a
    duplicate, nothing copied. *)
Definition is_duplicate (name : string) (fr fr' : frame) : Prop :=
  (exists h, is_pe_file dev (fs (world fr)) (source_dir, name) = inr true /\
             get_file_hash dev (fs (world fr)) (source_dir, name) = inr h /\
             h ∈ seen_hashes fr) /\
  delta "duplicates" fr fr' = 1 /\ delta "errors" fr fr' = 0 /\
  delta sample_type fr fr' = 0 /\ fs (world fr') = fs (world fr).

(** Accepted: the file is in the destination under its new name, with
    its content and stat; counted under the label. *)
Definition is_accepted (name : string) (fr fr' : frame) : Prop :=
  (exists h f, is_pe_file dev (fs (world fr)) (source_dir, name) = inr true /\
               get_file_hash dev (fs (world fr)) (source_dir, name) = inr h /\
               (h ∉ seen_hashes fr) /\
               lookup_file (fs (world fr)) (source_dir, name) = Some f /\
               lookup_file (fs (world fr')) (dest_file base_dir sample_type h name)
               = Some (File (f_data f) (f_stat f))) /\
  delta sample_type fr fr' = 1 /\ delta "errors" fr fr' = 0 /\
  delta "duplicates" fr fr' = 0.

(** Failed: hashing or copying raised; counted as an error. *)
Definition is_failed (name : string) (fr fr' : frame) : Prop :=
  (exists e, raises_in dev base_dir source_dir sample_type name fr e) /\
  delta "errors" fr fr' = 1 /\ delta "duplicates" fr fr' = 0 /\
  delta sample_type fr fr' = 0.

Definition holds (o : outcome) (name : string) (fr fr' : frame) : Prop :=
  match o with
  | Rejected => is_rejected name fr fr'
  | Duplicate => is_duplicate name fr fr'
  | Accepted => is_accepted name fr fr'
  | Failed => is_failed name fr fr'
  end.

End OutcomesDefs.

(** The bytes of a file that opens and reads to its end. *)
Definition content (dev : device) (fs0 : gmap string directory) (p : path)
  : option (list byte) :=
  match open_rd_err dev p, lookup_file fs0 p with
  | None, Some f =>
      match read_err dev p with
      | Some k => if (k <? length (f_data f))%nat then None else Some (f_data f)
      | None => Some (f_data f)
      end
  | _, _ => None
  end.

(** The candidate [name] of the source directory reads as [c]. *)
Definition carries (dev : device) (s : state) (source_dir : string) (c : list byte)
    (name : string) : Prop :=
  content dev (fs s) (source_dir, name) = Some c.

(** Exactly one candidate reading as [c] is accepted, the others are
    duplicates. *)
Definition accepted_once (dev : device) (base_dir source_dir sample_type : string)
    (s : state) (c : list byte) : Prop :=
  exists i n,
    exe_files_of s source_dir !! i = Some n /\ carries dev s source_dir c n /\
    is_accepted dev base_dir source_dir sample_type n
      (frame_before dev base_dir source_dir sample_type s i)
      (frame_before dev base_dir source_dir sample_type s (S i)) /\
    forall j n', exe_files_of s source_dir !! j = Some n' -> carries dev s source_dir c n' ->
                 j <> i ->
                 is_duplicate dev source_dir sample_type n'
                   (frame_before dev base_dir source_dir sample_type s j)
                   (frame_before dev base_dir source_dir sample_type s (S j)).

(** The digests of the files a destination directory holds. *)
Definition dest_entries (base_dir sample_type : string) (s : state) : directory :=
  default [] (fs s !! dest_path base_dir sample_type).

Definition dest_digests (base_dir sample_type : string) (s : state) : gset string :=
  list_to_set ((fun e => SHA256.hexdigest (f_data e.2)) <$> dest_entries base_dir sample_type s).

Section TallyDefs.
Variable dev : device.
Variables base_dir source_dir sample_type : string.
Variable fs0 : gmap string directory.
Local Abbreviation hashed' := (hashed dev source_dir fs0).

(** Every candidate that reaches the copy -- one that is hashed and is
    the first of its digest in the enumeration, the digest not being
    among those [seen] before -- is copied cleanly. *)
Definition reaching_clean (seen : gset string) (names : list string) : Prop :=
  forall i n h, names !! i = Some n -> hashed' n = Some h -> h ∉ seen ->
    (forall j n', (j < i)%nat -> names !! j = Some n' -> hashed' n' <> Some h) ->
    copy_clean dev fs0 (source_dir, n) (dest_file base_dir sample_type h n) = true.

(** The destination holds exactly the digests seen, each under a name
    built from a candidate with that digest. *)
Definition dest_tracks_seen (fr : frame) : Prop :=
  dest_digests base_dir sample_type (world fr) = seen_hashes fr /\
  forall k f, (k, f) ∈ dest_entries base_dir sample_type (world fr) ->
    exists n, k = new_name sample_type (SHA256.hexdigest (f_data f)) n /\
              hashed' n = Some (SHA256.hexdigest (f_data f)).

(** The counters, the seen set and the destination after an iteration. *)
Definition tally (fr fr' : frame) (names : list string) : Prop :=
  let hs := omap hashed' names in
  let fresh_digests := Z.of_nat (size (seen_hashes fr')) - Z.of_nat (size (seen_hashes fr)) in
  seen_hashes fr' = seen_hashes fr ∪ list_to_set hs /\
  delta "errors" fr fr' = Z.of_nat (length names) - Z.of_nat (length hs) /\
  delta "duplicates" fr fr' = Z.of_nat (length hs) - fresh_digests /\
  delta sample_type fr fr' = fresh_digests /\
  (forall k, k <> "errors" -> k <> "duplicates" -> k <> sample_type ->
             stats (world fr') !! k = stats (world fr) !! k) /\
  stable base_dir source_dir sample_type fs0 fr' /\
  dest_tracks_seen fr'.

End TallyDefs.

(** * Fixtures *)

Definition mkfile (content : string) : file := File (bytes_of content) 420.

Fixpoint replicate_char (n : nat) (c : ascii) : string :=
  match n with
  | O => EmptyString
  | S n' => String c (replicate_char n' c)
  end.

(** A legal file name of 244 characters: prefixed with the label and the
    digest it exceeds the 255 characters a name may have on Linux. *)
Definition long_name : string := replicate_char 240 "a" +:+ ".exe".

(** A device with the given faults of files and directories, for an
    unprivileged process with the umask [0o022] and a standard output that
    accepts every line. *)
Definition faults (open_rd : path -> option Z) (read : path -> option nat)
    (open_wr : path -> option Z) (write : path -> option nat) (mkdir : string -> option Z)
  : device :=
  Device open_rd read open_wr write (fun _ => None) mkdir (fun _ => None) (fun _ => None)
         false 18.






(** A device that refuses to create names above [NAME_MAX]. *)
Definition name_max_dev : device :=
  faults (fun _ => None) (fun _ => None)
         (fun p => if (255 <? String.length p.2)%nat then Some ENAMETOOLONG else None)
         (fun _ => None) (fun _ => None).

(** A device whose medium fails from offset 4 of [in/a.exe] on. *)
Definition bad_sector_dev : device :=
  faults (fun _ => None)
         (fun p => if bool_decide (p = ("in", "a.exe")) then Some 4%nat else None)
         (fun _ => None) (fun _ => None) (fun _ => None).

Definition fresh (files : gmap string directory) : state := State files init_stats [].





(** Three candidates: the first cannot be read to its end, the second has
    a name too long for the destination, the third is fine. *)
Definition c5_fs : gmap string directory :=
  {[ "in" := [("a.exe", mkfile "MZ-first"); (long_name, mkfile "MZ-second");
              ("b.exe", mkfile "MZ-third")];
     "out/original/malware" := [] ]}.

Definition c5_dev : device :=
  faults (fun _ => None)
         (fun p => if bool_decide (p = ("in", "a.exe")) then Some 4%nat else None)
         (fun p => if (255 <? String.length p.2)%nat then Some ENAMETOOLONG else None)
         (fun _ => None) (fun _ => None).





(** A valid executable whose name is too long for the destination. *)
Definition c2_fs : gmap string directory :=
  {[ "in" := [(long_name, mkfile "MZ-payload")]; "out/original/malware" := [] ]}.

Definition c1_fs : gmap string directory :=
  {[ "in" := [("a.exe", mkfile "MZ-payload"); ("c.exe", mkfile "ELF");
              ("b.exe", mkfile "MZ-payload"); ("readme.txt", mkfile "MZ")];
     "out/original/malware" := [] ]}.



(** The long-named file first, then two more files of the same content. *)
Definition c10_fs : gmap string directory :=
  {[ "in" := [(long_name, mkfile "MZ-payload"); ("b.exe", mkfile "MZ-payload");
              ("c.exe", mkfile "MZ-payload")];
     "out/original/malware" := [] ]}.

Definition c6_fs : gmap string directory :=
  {[ "mal" := [("a.exe", mkfile "MZ-payload"); ("c.exe", mkfile "ELF")];
     "ben" := [("x.exe", mkfile "MZ-payload"); ("y.exe", mkfile "MZ-payload")];
     "out/original/malware" := []; "out/original/benign" := [] ]}.

(** The content sits in the malware directory under the long name only:
    its copy fails there, and no malware file is produced. *)
Definition c6x_fs : gmap string directory :=
  {[ "mal" := [(long_name, mkfile "MZ-payload")];
     "ben" := [("b.exe", mkfile "MZ-payload")] ]}.

Definition c6x_args : args := Args (Some "mal") (Some "ben") "out".

Definition c9_a : string * file := ("a.exe", mkfile "MZ-payload").

Definition c9_b : string * file := ("b.exe", mkfile "MZ-payload").

Definition c9_c : string * file := ("c.exe", mkfile "ELF").

Definition c9_fs (entries : directory) : gmap string directory :=
  {[ "in" := entries; "out/original/malware" := [] ]}.

(** The long-named file enumerated first or last. *)
Definition c9x_long : string * file := (long_name, mkfile "MZ-payload").

Definition c8_now : string := "2024-01-01T00:00:00".

Definition c8_old_record : list byte :=
  bytes_of (json_dumps 0 (JObj [("created", JStr "2023-12-31T00:00:00");
                                ("structure", JStr "PackHero dataset")])).

Definition c8_fs : gmap string directory :=
  {[ "out/metadata" := [("dataset_info.json", File c8_old_record 420)];
     "out/original/malware" := []; "out/original/benign" := [] ]}.

(** The disk fills up after twenty bytes of the record. *)
Definition c8_dev : device :=
  faults (fun _ => None) (fun _ => None) (fun _ => None)
         (fun p => if bool_decide (p = metadata_file "out") then Some 20%nat else None)
         (fun _ => None).

(** * Vocabulary of the further properties *)

(** [base_dir / c1 / ... / cn] *)
Definition join_path (d : string) (components : list string) : string :=
  foldl (fun d c => d +:+ "/" +:+ c) d components.

(** The file system [fs1] is [fs0] with, possibly, more directories, all
    of them empty. *)
Definition adds_empty_dirs (fs0 fs1 : gmap string directory) : Prop :=
  (forall d entries, fs0 !! d = Some entries -> fs1 !! d = Some entries) /\
  (forall d entries, fs1 !! d = Some entries -> fs0 !! d = Some entries \/ entries = []).

(** What a statement of [setup_directories] may do: add empty
    directories, and raise nothing but an [OSError]. *)
Definition mkdir_like (m : M state unit) : Prop :=
  forall s, stats (m s).1 = stats s /\ out (m s).1 = out s /\
            adds_empty_dirs (fs s) (fs (m s).1) /\
            (forall e, (m s).2 = inl e -> exists errno, e = OSError errno).

(** The four counters of [__init__] are present. *)
Definition all_counters (s : state) : Prop :=
  has_counters "malware" s /\ has_counters "benign" s.

(** The candidates of an optional source directory. *)
Definition candidates (s : state) (o : option string) : list string :=
  match o with
  | Some d => exe_files_of s d
  | None => []
  end.

(** The optional call of [main] for one label. *)
Definition optional_call (dev : device) (base_dir sample_type : string) (o : option string)
  : M state unit :=
  match o with
  | Some d => organize_samples dev base_dir d sample_type
  | None => ret tt
  end.

(** The statements of [main] after the parsing of the arguments. *)
Definition main_body (dev : device) (now base_dir : string) (m b : option string)
  : M state unit :=
  modify (fun s => State (fs s) init_stats (out s)) ;;;
  setup_directories dev base_dir ;;;
  optional_call dev base_dir "malware" m ;;;
  optional_call dev base_dir "benign" b ;;;
  generate_metadata dev base_dir now ;;;
  print_summary dev base_dir.

(** * Fixtures of the further properties *)

(** A file of 5000 bytes: two chunks for [get_file_hash]. *)
Definition x_big_fs : gmap string directory :=
  {[ "in" := [("big.exe", File (repeat "a"%byte 5000) 420)] ]}.

Definition x_short_fs : gmap string directory :=
  {[ "in" := [("empty.exe", File [] 420); ("m.exe", mkfile "M"); ("mz.exe", mkfile "MZ")] ]}.



(** A label the organizer has no counter for. *)
Definition x_label_fs : gmap string directory :=
  {[ "in" := [("a.exe", mkfile "MZ-payload")]; "out/original/other" := [] ]}.

(** Only a malware directory is given. *)
Definition x_args : args := Args (Some "in") None "out".

(** * Properties *)

(** ** The digest *)

Lemma hex8_length (w : Z) : String.length (SHA256.hex8 w) = 8%nat.
Proof. reflexivity. Qed.

Lemma string_app_length (a b : string) :
  String.length (a +:+ b) = (String.length a + String.length b)%nat.
Proof. induction a as [|c a IH]; simpl; [done | by rewrite IH]. Qed.

Lemma hexdigest_length (msg : list byte) : String.length (SHA256.hexdigest msg) = 64%nat.
Proof.
  unfold SHA256.hexdigest. cbv zeta.
  rewrite !string_app_length, !hex8_length. reflexivity.
Qed.

Opaque SHA256.hexdigest.

(** ** Readers *)

Lemma read_sound (r : reader) (n : nat) :
  sound r ->
  read r n = inr (take n (drop (r_pos r) (r_data r)),
                  Reader (r_data r) (r_pos r + length (take n (drop (r_pos r) (r_data r)))) (r_bad r)).
Proof.
  unfold sound, read. destruct (r_bad r) as [k|]; [|done].
  intros [Hpos Hk]. case_eq (k <? r_pos r + length (take n (drop (r_pos r) (r_data r))))%nat; [|done].
  intros Hlt%Nat.ltb_lt. rewrite length_take, length_drop in Hlt. lia.
Qed.

Lemma take_chunk_drop {A : Type} (n : nat) (l : list A) :
  drop (length (take n l)) l = drop n l.
Proof.
  rewrite length_take. destruct (decide (n <= length l)%nat) as [Hle|Hgt].
  - by rewrite Nat.min_l.
  - rewrite Nat.min_r by lia. rewrite !drop_ge; [done | lia | lia].
Qed.

Lemma hash_chunks_sound (fuel : nat) (r : reader) (h : hasher) :
  sound r ->
  (length (r_data r) - r_pos r < fuel)%nat ->
  hash_chunks fuel r h = inr (h ++ drop (r_pos r) (r_data r)).
Proof.
  revert r h. induction fuel as [|fuel IH]; intros r h Hs Hfuel; [lia|].
  simpl. rewrite (read_sound r 4096 Hs).
  destruct (take 4096 (drop (r_pos r) (r_data r))) as [|b chunk] eqn:Hchunk.
  - destruct (drop (r_pos r) (r_data r)) as [|? ?]; [by rewrite app_nil_r | discriminate].
  - assert (Hlen : (length (b :: chunk) <= length (r_data r) - r_pos r)%nat).
    { rewrite <- Hchunk, length_take, length_drop. lia. }
    simpl in Hlen.
    rewrite IH; simpl; [| |].
    + unfold sha256_update. rewrite <- (drop_drop (r_data r)), <- app_assoc.
      change (S (length chunk)) with (length (b :: chunk)).
      rewrite <- Hchunk, take_chunk_drop, take_drop. done.
    + destruct Hs as [Hpos Hbad]. split; [simpl; lia | exact Hbad].
    + lia.
Qed.

Lemma hash_chunks_bad (fuel : nat) (r : reader) (h : hasher) (k : nat) :
  r_bad r = Some k ->
  (r_pos r <= k < length (r_data r))%nat ->
  (length (r_data r) - r_pos r < fuel)%nat ->
  hash_chunks fuel r h = inl (OSError EIO).
Proof.
  revert r h. induction fuel as [|fuel IH]; intros r h Hbad Hk Hfuel; [lia|].
  simpl. unfold read. rewrite Hbad.
  destruct (k <? r_pos r + length (take 4096 (drop (r_pos r) (r_data r))))%nat eqn:Hlt; [done|].
  apply Nat.ltb_ge in Hlt.
  destruct (take 4096 (drop (r_pos r) (r_data r))) as [|b chunk] eqn:Hchunk.
  - assert (Hlen : length (take 4096 (drop (r_pos r) (r_data r))) = 0%nat) by by rewrite Hchunk.
    rewrite length_take, length_drop in Hlen. lia.
  - apply IH; simpl; [done | |].
    + assert (Hlen : length (take 4096 (drop (r_pos r) (r_data r))) = S (length chunk))
        by by rewrite Hchunk.
      simpl in Hlt. lia.
    + lia.
Qed.

(** [get_file_hash] returns the SHA-256 of the whole content whatever the
    chunking, and raises exactly when the file cannot be opened or a byte
    of it cannot be read. *)
Lemma get_file_hash_spec (dev : device) (fs0 : gmap string directory) (p : path) :
  get_file_hash dev fs0 p =
    match open_rd_err dev p, lookup_file fs0 p with
    | Some e, _ => inl (OSError e)
    | None, None => inl (OSError ENOENT)
    | None, Some f =>
        match read_err dev p with
        | Some k =>
            if (k <? length (f_data f))%nat then inl (OSError EIO)
            else inr (SHA256.hexdigest (f_data f))
        | None => inr (SHA256.hexdigest (f_data f))
        end
    end.
Proof.
  unfold get_file_hash, open_rb.
  destruct (open_rd_err dev p) as [e|]; [done|].
  destruct (lookup_file fs0 p) as [f|]; [|done].
  cbn [r_data].
  destruct (read_err dev p) as [k|] eqn:Hk.
  - destruct (k <? length (f_data f))%nat eqn:Hlt.
    + apply Nat.ltb_lt in Hlt.
      rewrite (hash_chunks_bad _ _ _ k); simpl; [done | done | lia | lia].
    + apply Nat.ltb_ge in Hlt.
      rewrite hash_chunks_sound; simpl; [done | split; simpl; [lia | exact Hlt] | lia].
  - rewrite hash_chunks_sound; simpl; [done | split; simpl; [lia | done] | lia].
Qed.

Lemma is_pe_file_spec (dev : device) (fs0 : gmap string directory) (p : path) :
  is_pe_file dev fs0 p = inr (valid_pe dev fs0 p).
Proof.
  unfold is_pe_file, is_pe_file_body, valid_pe, open_rb.
  destruct (open_rd_err dev p) as [e|]; [done|].
  destruct (lookup_file fs0 p) as [f|]; [|done].
  unfold read. cbn [r_data r_pos r_bad]. rewrite drop_0. simpl Nat.add.
  destruct (read_err dev p) as [k|]; [|done].
  by destruct (k <? length (take 2 (f_data f)))%nat.
Qed.

Lemma lookup_file_ext (fs1 fs2 : gmap string directory) (p : path) :
  fs1 !! p.1 = fs2 !! p.1 -> lookup_file fs1 p = lookup_file fs2 p.
Proof. unfold lookup_file. by intros ->. Qed.

Lemma valid_pe_ext (dev : device) (fs1 fs2 : gmap string directory) (p : path) :
  fs1 !! p.1 = fs2 !! p.1 -> valid_pe dev fs1 p = valid_pe dev fs2 p.
Proof. intros H. unfold valid_pe. by rewrite (lookup_file_ext _ _ _ H). Qed.

Lemma get_file_hash_ext (dev : device) (fs1 fs2 : gmap string directory) (p : path) :
  fs1 !! p.1 = fs2 !! p.1 -> get_file_hash dev fs1 p = get_file_hash dev fs2 p.
Proof. intros H. rewrite !get_file_hash_spec. by rewrite (lookup_file_ext _ _ _ H). Qed.

Lemma get_file_hash_Exception (dev : device) (fs0 : gmap string directory) (p : path) (e : exn) :
  get_file_hash dev fs0 p = inl e -> is_Exception e = true.
Proof.
  rewrite get_file_hash_spec. intros H.
  repeat match type of H with
         | match ?x with _ => _ end = _ => destruct x
         | (if ?b then _ else _) = _ => destruct b
         end; by simplify_eq.
Qed.

(** A validated file that hashes holds the digest of its content. *)
Lemma get_file_hash_content (dev : device) (fs0 : gmap string directory) (p : path) (h : string) :
  get_file_hash dev fs0 p = inr h ->
  exists f, lookup_file fs0 p = Some f /\ h = SHA256.hexdigest (f_data f).
Proof.
  rewrite get_file_hash_spec. intros H.
  repeat match type of H with
         | match ?x with _ => _ end = _ => destruct x eqn:?
         | (if ?b then _ else _) = _ => destruct b eqn:?
         end; simplify_eq; eauto.
Qed.

(** ** The copy *)

Lemma open_w_dir (dev : device) (fs0 : gmap string directory) (p : path) :
  open_w dev fs0 p = None -> is_Some (fs0 !! p.1).
Proof.
  unfold open_w. destruct (open_wr_err dev p); [done|].
  case_bool_decide; [done | discriminate].
Qed.

(** Opening for writing depends on the directory and on the entry that
    is there. *)
Lemma open_w_ext (dev : device) (fs1 fs2 : gmap string directory) (p : path) :
  (is_Some (fs1 !! p.1) <-> is_Some (fs2 !! p.1)) ->
  lookup_file fs1 p = lookup_file fs2 p ->
  open_w dev fs1 p = open_w dev fs2 p.
Proof.
  intros Hd Hf. unfold open_w. by rewrite (bool_decide_ext _ _ Hd), Hf.
Qed.

Lemma copy_clean_dir (dev : device) (fs0 : gmap string directory) (src dst : path) :
  copy_clean dev fs0 src dst = true -> is_Some (fs0 !! dst.1).
Proof.
  unfold copy_clean. destruct (lookup_file fs0 src); [|done]. intros H.
  repeat (apply andb_prop in H as [H ?]).
  apply (open_w_dir dev).
  match goal with H : bool_decide (open_w _ _ _ = None) = true |- _ =>
    by apply bool_decide_eq_true in H end.
Qed.

Lemma copy2_clean (dev : device) (src dst : path) (s : state) (f : file) :
  copy_clean dev (fs s) src dst = true ->
  lookup_file (fs s) src = Some f ->
  copy2 dev src dst s =
    (State (store_file (fs s) dst (File (f_data f) (f_stat f))) (stats s) (out s), inr tt).
Proof.
  unfold copy_clean, copy2. intros H Hf. rewrite Hf in *.
  repeat (apply andb_prop in H as [H ?]).
  repeat match goal with
         | H : negb _ = true |- _ => apply negb_true_iff in H
         | H : bool_decide _ = true |- _ => apply bool_decide_eq_true in H
         | H : bool_decide _ = false |- _ => rewrite H
         end.
  match goal with H : open_rd_err _ _ = _ |- _ => rewrite H end.
  match goal with H : open_w _ _ _ = _ |- _ => rewrite H end.
  match goal with H : stream_fault _ _ _ _ = _ |- _ => rewrite H end.
  match goal with H : copystat_err _ _ = _ |- _ => rewrite H end.
  done.
Qed.

Lemma store_file_other (fs0 : gmap string directory) (p : path) (f : file) (d : string) :
  d <> p.1 -> store_file fs0 p f !! d = fs0 !! d.
Proof.
  intros Hne. unfold store_file. destruct (fs0 !! p.1); [|done].
  by rewrite lookup_insert_ne.
Qed.

Lemma store_file_is_Some (fs0 : gmap string directory) (p : path) (f : file) (d : string) :
  is_Some (store_file fs0 p f !! d) <-> is_Some (fs0 !! d).
Proof.
  unfold store_file. destruct (fs0 !! p.1) eqn:Hd; [|done].
  destruct (decide (p.1 = d)) as [<-|Hne].
  - rewrite lookup_insert_eq, Hd. split; eauto.
  - by rewrite lookup_insert_ne.
Qed.

Lemma copy2_raises (dev : device) (src dst : path) (s : state) :
  copy_clean dev (fs s) src dst = false ->
  exists s' e, copy2 dev src dst s = (s', inl e) /\ is_Exception e = true /\
               stats s' = stats s /\ out s' = out s /\
               (forall d, d <> dst.1 -> fs s' !! d = fs s !! d) /\
               (forall d, is_Some (fs s' !! d) <-> is_Some (fs s !! d)).
Proof.
  unfold copy_clean, copy2. intros H.
  destruct (bool_decide (src = dst)) eqn:Hsame; [by exists s, SameFileError|].
  destruct (open_rd_err dev src) as [e|] eqn:Hrd.
  { by exists s, (OSError e). }
  destruct (lookup_file (fs s) src) as [f|] eqn:Hf; [|by exists s, (OSError ENOENT)].
  destruct (open_w dev (fs s) dst) as [e|] eqn:Hwr; [by exists s, (OSError e)|].
  cbv zeta.
  destruct (stream_fault dev src dst (length (f_data f))) as [[k e]|] eqn:Hsf.
  - eexists _, (OSError e). split; [done|]. repeat split; try done; simpl.
    + intros d Hne. by apply store_file_other.
    + by intros ?%store_file_is_Some.
    + intros ?. by apply store_file_is_Some.
  - destruct (copystat_err dev dst) as [e|] eqn:Hcs.
    + eexists _, (OSError e). split; [done|]. repeat split; try done; simpl.
      * intros d Hne. by apply store_file_other.
      * by intros ?%store_file_is_Some.
      * intros ?. by apply store_file_is_Some.
    + exfalso. simpl in H.
      repeat (rewrite bool_decide_eq_true_2 in H by eauto). done.
Qed.

Lemma copy2_fs (dev : device) (src dst : path) (s : state) :
  fs (copy2 dev src dst s).1 = fs s \/
  exists f', fs (copy2 dev src dst s).1 = store_file (fs s) dst f'.
Proof.
  unfold copy2.
  destruct (bool_decide (src = dst)); [by left|].
  destruct (open_rd_err dev src); [by left|].
  destruct (lookup_file (fs s) src) as [f|]; [|by left].
  destruct (open_w dev (fs s) dst); [by left|]. cbv zeta.
  destruct (stream_fault dev src dst (length (f_data f))) as [[k e]|]; [right; by eexists|].
  destruct (copystat_err dev dst); right; by eexists.
Qed.

(** ** One iteration of the intake loop *)

(** [__init__] creates the counters of both labels. *)
Lemma init_has_counters (sample_type : string) (files : gmap string directory)
    (lines : list line) :
  sample_type = "malware" \/ sample_type = "benign" ->
  has_counters sample_type (State files init_stats lines).
Proof. intros [-> | ->]; repeat split; by eexists. Qed.

Lemma print_say (dev : device) (l : line) (s : state) :
  print_err dev l = None -> print dev l s = (say l s, inr tt).
Proof. intros H. unfold print. by rewrite H. Qed.

Lemma stats_incr_count (key : string) (s : state) :
  is_Some (stats s !! key) -> stats_incr key s = (count key s, inr tt).
Proof. intros [n Hn]. unfold stats_incr, count. by rewrite Hn. Qed.

Lemma has_counters_say (sample_type : string) (l : line) (s : state) :
  has_counters sample_type (say l s) <-> has_counters sample_type s.
Proof. done. Qed.

Lemma has_counters_count (sample_type key : string) (s : state) :
  has_counters sample_type s -> has_counters sample_type (count key s).
Proof.
  unfold has_counters, count. intros (He & Hd & Hl).
  destruct (stats s !! key) as [n|] eqn:Hk; [|done]. simpl.
  repeat split; (rewrite lookup_insert; case_decide; [by eexists | done]).
Qed.

Lemma counter_say (key : string) (l : line) (s : state) : counter key (say l s) = counter key s.
Proof. done. Qed.

Lemma counter_count (key key' : string) (s : state) :
  is_Some (stats s !! key) ->
  counter key' (count key s) = if decide (key = key') then counter key' s + 1 else counter key' s.
Proof.
  intros [n Hn]. unfold counter, count. rewrite Hn. simpl.
  rewrite lookup_insert. case_decide; [subst; by rewrite Hn | done].
Qed.

Lemma fs_count (key : string) (s : state) : fs (count key s) = fs s.
Proof. unfold count. by destruct (stats s !! key). Qed.


Section Step.
Variable dev : device.
Variables base_dir source_dir sample_type : string.
Variable total : nat.

Lemma copy2_stats (src dst : path) (s : state) :
  stats (copy2 dev src dst s).1 = stats s /\ out (copy2 dev src dst s).1 = out s.
Proof.
  unfold copy2.
  repeat match goal with
         | |- context [match ?x with _ => _ end] => destruct x
         end; done.
Qed.

Lemma copy2_Exception (src dst : path) (s : state) (e : exn) :
  (copy2 dev src dst s).2 = inl e -> is_Exception e = true.
Proof.
  unfold copy2.
  repeat match goal with
         | |- context [match ?x with _ => _ end] => destruct x
         end; simpl; intros; by simplify_eq.
Qed.

(** When the standard output accepts every line, an iteration returns
    normally and is the function [step] of the activation. *)
Lemma process_file_spec (idx : nat) (name : string) (fr : frame) :
  prints_ok dev ->
  has_counters sample_type (world fr) ->
  process_file dev base_dir source_dir sample_type total idx name fr = (step dev base_dir source_dir sample_type total idx name fr, inr tt).
Proof.
  intros Hq (He & Hd & Hl).
  unfold process_file, try_except, process_body, step, bind, eval, modify, in_world.
  rewrite is_pe_file_spec.
  destruct (valid_pe dev (fs (world fr)) (source_dir, name)); simpl.
  2: { rewrite print_say by apply Hq. rewrite stats_incr_count by done. done. }
  destruct (get_file_hash dev (fs (world fr)) (source_dir, name)) as [e|h] eqn:Hh.
  { rewrite (get_file_hash_Exception _ _ _ _ Hh). simpl.
    rewrite print_say by apply Hq. rewrite stats_incr_count by done. done. }
  destruct (bool_decide (h ∈ seen_hashes fr)); simpl.
  { rewrite print_say by apply Hq. rewrite stats_incr_count by done. done. }
  fold (dest_file base_dir sample_type h name).
  pose proof (copy2_stats (source_dir, name) (dest_file base_dir sample_type h name) (world fr)) as [Hst Hout].
  pose proof (copy2_Exception (source_dir, name) (dest_file base_dir sample_type h name) (world fr)) as Hex.
  destruct (copy2 dev (source_dir, name) (dest_file base_dir sample_type h name) (world fr)) as [w' [e|[]]]; simpl in *.
  - rewrite (Hex e eq_refl). simpl. rewrite print_say by apply Hq.
    rewrite stats_incr_count by (unfold say; simpl; by rewrite Hst). done.
  - rewrite print_say by apply Hq.
    rewrite stats_incr_count by (unfold say; simpl; by rewrite Hst). done.
Qed.

Lemma step_stats_dom (idx : nat) (name : string) (fr : frame) :
  has_counters sample_type (world fr) -> has_counters sample_type (world (step dev base_dir source_dir sample_type total idx name fr)).
Proof.
  intros H. unfold step.
  pose proof (has_counters_count sample_type) as Hc.
  repeat match goal with
         | |- context [if ?b then _ else _] => destruct b
         | |- context [match get_file_hash ?a ?b ?c with _ => _ end] =>
             destruct (get_file_hash a b c)
         end; simpl; try (apply Hc; apply has_counters_say; done).
  all: pose proof (copy2_stats (source_dir, name) (dest_file base_dir sample_type s name) (world fr)) as [Hst Hout].
  all: destruct (copy2 dev (source_dir, name) (dest_file base_dir sample_type s name) (world fr)) as [w' [e|[]]].
  all: simpl in *; apply Hc; unfold has_counters, say; simpl; rewrite Hst; exact H.
Qed.

Lemma for_enumerate_steps (idx : nat) (names : list string) (fr : frame) :
  prints_ok dev ->
  has_counters sample_type (world fr) ->
  for_enumerate (process_file dev base_dir source_dir sample_type total) idx names fr
  = (steps dev base_dir source_dir sample_type total idx names fr, inr tt).
Proof.
  intros Hq. revert idx fr. induction names as [|name names IH]; intros idx fr H; [done|].
  simpl. unfold bind. rewrite process_file_spec by done.
  apply IH. by apply step_stats_dom.
Qed.

Lemma steps_app (idx : nat) (l1 l2 : list string) (fr : frame) :
  steps dev base_dir source_dir sample_type total idx (l1 ++ l2) fr = steps dev base_dir source_dir sample_type total (idx + length l1) l2 (steps dev base_dir source_dir sample_type total idx l1 fr).
Proof.
  revert idx fr. induction l1 as [|n l1 IH]; intros idx fr; simpl.
  - by rewrite Nat.add_0_r.
  - rewrite IH. f_equal. lia.
Qed.

End Step.

(** ** The loop over a source directory that is not the destination *)

Section Loop.
Variable dev : device.
Variables base_dir source_dir sample_type : string.
Variable total : nat.
Variable fs0 : gmap string directory.
Hypothesis apart : source_dir <> dest_path base_dir sample_type.

Local Abbreviation dest := (dest_path base_dir sample_type).
Local Abbreviation dfile := (dest_file base_dir sample_type).
Local Abbreviation step' := (step dev base_dir source_dir sample_type total).
Local Abbreviation steps' := (steps dev base_dir source_dir sample_type total).

(** Whether a copy is clean depends on the source directory, on whether
    the destination directory exists, and on the entry the destination
    name has. *)
Lemma copy_clean_ext (fs1 fs2 : gmap string directory) (src dst : path) :
  fs1 !! src.1 = fs2 !! src.1 ->
  (is_Some (fs1 !! dst.1) <-> is_Some (fs2 !! dst.1)) ->
  lookup_file fs1 dst = lookup_file fs2 dst ->
  copy_clean dev fs1 src dst = copy_clean dev fs2 src dst.
Proof.
  intros Hsrc Hdst Hent. unfold copy_clean. rewrite (lookup_file_ext _ _ _ Hsrc).
  destruct (lookup_file fs2 src); [|done].
  by rewrite (open_w_ext dev fs1 fs2 dst Hdst Hent).
Qed.

Lemma step_unhashed (idx : nat) (name : string) (fr : frame) :
  stable base_dir source_dir sample_type fs0 fr -> hashed dev source_dir fs0 name = None ->
  exists l, step' idx name fr = Frame (count "errors" (say l (world fr))) (seen_hashes fr).
Proof.
  intros (Hsrc & _ & _). unfold hashed, step.
  rewrite (valid_pe_ext dev (fs (world fr)) fs0), (get_file_hash_ext dev (fs (world fr)) fs0) by done.
  destruct (valid_pe dev fs0 (source_dir, name)); simpl; [|eauto].
  destruct (get_file_hash dev fs0 (source_dir, name)); [eauto | done].
Qed.

Lemma step_duplicate (idx : nat) (name h : string) (fr : frame) :
  stable base_dir source_dir sample_type fs0 fr -> hashed dev source_dir fs0 name = Some h -> h ∈ seen_hashes fr ->
  step' idx name fr
  = Frame (count "duplicates" (say (P_duplicate idx total name) (world fr))) (seen_hashes fr).
Proof.
  intros (Hsrc & _ & _). unfold hashed, step.
  rewrite (valid_pe_ext dev (fs (world fr)) fs0), (get_file_hash_ext dev (fs (world fr)) fs0) by done.
  destruct (valid_pe dev fs0 (source_dir, name)); simpl; [|done].
  destruct (get_file_hash dev fs0 (source_dir, name)); [done|].
  intros [= ->] Hin. by rewrite bool_decide_eq_true_2.
Qed.

Lemma hashed_content (name h : string) :
  hashed dev source_dir fs0 name = Some h ->
  exists f, lookup_file fs0 (source_dir, name) = Some f /\ h = SHA256.hexdigest (f_data f).
Proof.
  unfold hashed. destruct (valid_pe dev fs0 (source_dir, name)); [|done].
  destruct (get_file_hash dev fs0 (source_dir, name)) eqn:Hh; [done|].
  intros [= ->]. by apply get_file_hash_content in Hh.
Qed.

Lemma step_accepted (idx : nat) (name h : string) (f : file) (fr : frame) :
  stable base_dir source_dir sample_type fs0 fr -> hashed dev source_dir fs0 name = Some h -> h ∉ seen_hashes fr ->
  lookup_file fs0 (source_dir, name) = Some f ->
  copy_clean dev (fs (world fr)) (source_dir, name) (dfile h name) = true ->
  step' idx name fr
  = Frame (count sample_type
             (say (P_copied idx total (new_name sample_type h name))
                  (State (store_file (fs (world fr)) (dfile h name) (File (f_data f) (f_stat f)))
                         (stats (world fr)) (out (world fr)))))
          ({[h]} ∪ seen_hashes fr).
Proof.
  intros (Hsrc & Hdst & _) Hh Hnew Hf Hclean. revert Hh. unfold hashed, step.
  rewrite (valid_pe_ext dev (fs (world fr)) fs0), (get_file_hash_ext dev (fs (world fr)) fs0) by done.
  destruct (valid_pe dev fs0 (source_dir, name)); simpl; [|done].
  destruct (get_file_hash dev fs0 (source_dir, name)); [done|].
  intros [= ->]. rewrite bool_decide_eq_false_2 by done.
  rewrite (copy2_clean dev _ _ _ f); [done | done |].
  by rewrite (lookup_file_ext _ fs0).
Qed.

Lemma step_copy_failed (idx : nat) (name h : string) (fr : frame) :
  stable base_dir source_dir sample_type fs0 fr -> hashed dev source_dir fs0 name = Some h -> h ∉ seen_hashes fr ->
  copy_clean dev (fs (world fr)) (source_dir, name) (dfile h name) = false ->
  exists w' e,
    step' idx name fr
    = Frame (count "errors" (say (P_error idx total name e) w')) ({[h]} ∪ seen_hashes fr) /\
    stats w' = stats (world fr) /\ out w' = out (world fr) /\
    (forall d, d <> dest -> fs w' !! d = fs (world fr) !! d) /\
    (forall d, is_Some (fs w' !! d) <-> is_Some (fs (world fr) !! d)).
Proof.
  intros (Hsrc & Hdst & _) Hh Hnew Hclean. revert Hh. unfold hashed, step.
  rewrite (valid_pe_ext dev (fs (world fr)) fs0), (get_file_hash_ext dev (fs (world fr)) fs0) by done.
  destruct (valid_pe dev fs0 (source_dir, name)); simpl; [|done].
  destruct (get_file_hash dev fs0 (source_dir, name)); [done|].
  intros [= ->]. rewrite bool_decide_eq_false_2 by done.
  destruct (copy2_raises dev (source_dir, name) (dfile h name) (world fr))
    as (w' & e & -> & _ & Hst & Hout & Hfs & Hsome); [done|].
  exists w', e. done.
Qed.

Lemma count_stable (key : string) (fr : frame) (w : state) (seen : gset string) :
  stable base_dir source_dir sample_type fs0 (Frame w seen) -> stable base_dir source_dir sample_type fs0 (Frame (count key w) seen).
Proof.
  intros (Hsrc & Hdst & Hc). unfold stable. simpl in *.
  assert (Hfs : fs (count key w) = fs w).
  { unfold count. by destruct (stats w !! key). }
  rewrite Hfs. split; [done|]. split; [done|]. by apply has_counters_count.
Qed.

Lemma step_stable (idx : nat) (name : string) (fr : frame) :
  stable base_dir source_dir sample_type fs0 fr -> stable base_dir source_dir sample_type fs0 (step' idx name fr).
Proof.
  intros Hst. destruct (hashed dev source_dir fs0 name) as [h|] eqn:Hh.
  - destruct (decide (h ∈ seen_hashes fr)) as [Hin|Hnin].
    + rewrite (step_duplicate _ _ h) by done.
      apply (count_stable _ fr). destruct Hst as (? & ? & ?). done.
    + destruct (copy_clean dev (fs (world fr)) (source_dir, name) (dfile h name)) eqn:Hc.
      * destruct (hashed_content _ _ Hh) as (f & Hf & _).
        rewrite (step_accepted _ _ h f) by done.
        apply (count_stable _ fr). destruct Hst as (Hsrc & Hdst & Hcnt).
        repeat split; simpl.
        -- rewrite store_file_other; [done | exact apart].
        -- intros ?%store_file_is_Some. by apply Hdst.
        -- intros ?. apply store_file_is_Some. by apply Hdst.
        -- apply Hcnt.
        -- apply Hcnt.
        -- apply Hcnt.
      * destruct (step_copy_failed idx _ _ _ Hst Hh Hnin Hc)
          as (w' & e & -> & Hs & Ho & Hfs & Hsome).
        apply (count_stable _ fr). destruct Hst as (Hsrc & Hdst & Hcnt).
        repeat split; simpl.
        -- rewrite Hfs; [done | exact apart].
        -- intros ?%Hsome. by apply Hdst.
        -- intros ?. apply Hsome. by apply Hdst.
        -- unfold say; simpl. rewrite Hs. apply Hcnt.
        -- unfold say; simpl. rewrite Hs. apply Hcnt.
        -- unfold say; simpl. rewrite Hs. apply Hcnt.
  - destruct (step_unhashed idx _ _ Hst Hh) as (l & ->).
    apply (count_stable _ fr). destruct Hst as (? & ? & ?). done.
Qed.

Lemma steps_stable (idx : nat) (names : list string) (fr : frame) :
  stable base_dir source_dir sample_type fs0 fr -> stable base_dir source_dir sample_type fs0 (steps' idx names fr).
Proof.
  revert idx fr. induction names as [|n names IH]; intros idx fr H; [done|].
  simpl. apply IH. by apply step_stable.
Qed.

(** The digests seen after an iteration: those seen before, and the one
    of the candidate if it was hashed, whether or not its copy worked. *)
Lemma step_seen (idx : nat) (name : string) (fr : frame) :
  stable base_dir source_dir sample_type fs0 fr ->
  seen_hashes (step' idx name fr) = seen_hashes fr ∪ list_to_set (option_list (hashed dev source_dir fs0 name)).
Proof.
  intros Hst. destruct (hashed dev source_dir fs0 name) as [h|] eqn:Hh; simpl.
  - destruct (decide (h ∈ seen_hashes fr)) as [Hin|Hnin].
    + rewrite (step_duplicate _ _ h) by done. simpl. set_solver.
    + destruct (copy_clean dev (fs (world fr)) (source_dir, name) (dfile h name)) eqn:Hc.
      * destruct (hashed_content _ _ Hh) as (f & Hf & _).
        rewrite (step_accepted _ _ h f) by done. simpl. set_solver.
      * destruct (step_copy_failed idx _ _ _ Hst Hh Hnin Hc) as (w' & e & -> & _).
        simpl. set_solver.
  - destruct (step_unhashed idx _ _ Hst Hh) as (l & ->). simpl. set_solver.
Qed.

Lemma steps_seen (idx : nat) (names : list string) (fr : frame) :
  stable base_dir source_dir sample_type fs0 fr ->
  seen_hashes (steps' idx names fr) = seen_hashes fr ∪ list_to_set (omap (hashed dev source_dir fs0) names).
Proof.
  revert idx fr. induction names as [|n names IH]; intros idx fr H; simpl.
  - set_solver.
  - rewrite IH by by apply step_stable. rewrite step_seen by done.
    destruct (hashed dev source_dir fs0 n); simpl; set_solver.
Qed.

End Loop.

(** ** The frames of a call

    [frame_before s i] is the activation of [organize_samples] on state [s]
    just before the candidate of rank [i] (from 0) is processed. *)

Section Frames.
Variable dev : device.
Variables base_dir source_dir sample_type : string.
Variable s : state.
Hypothesis counters : has_counters sample_type s.
Hypothesis quiet : prints_ok dev.

Local Abbreviation exe := (exe_files_of s source_dir).
Local Abbreviation before := (frame_before dev base_dir source_dir sample_type s).
Local Abbreviation steps' := (steps dev base_dir source_dir sample_type (length exe)).

Lemma frame_before_steps (i : nat) :
  before i = steps' 1%nat (take i exe) (first_frame source_dir sample_type s).
Proof. unfold frame_before. by rewrite for_enumerate_steps. Qed.

Lemma frame_before_counters (i : nat) : has_counters sample_type (world (before i)).
Proof.
  rewrite frame_before_steps. generalize (take i exe) 1%nat.
  assert (H : has_counters sample_type (world (first_frame source_dir sample_type s))) by done.
  revert H. generalize (first_frame source_dir sample_type s).
  intros fr H l. revert fr H. induction l as [|n l IH]; intros fr H idx; [done|].
  simpl. apply IH. by apply step_stats_dom.
Qed.

Lemma frame_before_S (i : nat) (name : string) :
  exe !! i = Some name ->
  before (S i)
  = (process_file dev base_dir source_dir sample_type (length exe) (S i) name (before i)).1.
Proof.
  intros Hi. rewrite process_file_spec; [|done|apply frame_before_counters].
  rewrite !frame_before_steps. rewrite (take_S_r _ _ _ Hi), steps_app. simpl.
  rewrite length_take_le; [done|]. apply lookup_lt_Some in Hi. lia.
Qed.

Lemma frame_before_S_step (i : nat) (name : string) :
  exe !! i = Some name ->
  before (S i) = step dev base_dir source_dir sample_type (length exe) (S i) name (before i).
Proof.
  intros Hi. rewrite (frame_before_S _ _ Hi).
  by rewrite process_file_spec; [|done|apply frame_before_counters].
Qed.

(** On a source directory that [exists()] finds, the call returns
    normally, with the file system and the counters of its last frame. *)
Lemma organize_samples_frames (entries : directory) :
  stat_err dev source_dir = None ->
  fs s !! source_dir = Some entries ->
  let r := organize_samples dev base_dir source_dir sample_type s in
  r.2 = inr tt /\
  fs r.1 = fs (world (before (length exe))) /\
  stats r.1 = stats (world (before (length exe))).
Proof.
  intros Hstat Hsrc.
  unfold organize_samples, bind, eval, path_exists. rewrite Hstat, Hsrc.
  rewrite bool_decide_eq_true_2 by by eexists. cbn [orb negb].
  rewrite print_say by apply quiet. cbv beta iota zeta.
  change (exe_files_of (say (P_organizing sample_type source_dir) s) source_dir) with exe.
  unfold frame_before, process_all, first_frame.
  destruct exe as [|n l] eqn:Hexe.
  { rewrite print_say by apply quiet. repeat split; reflexivity. }
  rewrite firstn_all, for_enumerate_steps by done. done.
Qed.

(** Without candidates the call only prints: that the source is not
    found when [exists()] is false, that it holds no [.exe] file
    otherwise. *)
Lemma organize_samples_no_candidates (present : bool) :
  exe = [] ->
  path_exists dev (fs s) source_dir = inr present ->
  organize_samples dev base_dir source_dir sample_type s
  = (if present
     then say (P_no_exe_files source_dir) (say (P_organizing sample_type source_dir) s)
     else say (P_source_not_found source_dir) s, inr tt).
Proof.
  intros Hexe Hp. unfold organize_samples, bind, eval. rewrite Hp.
  destruct present; cbn [negb].
  - rewrite print_say by apply quiet. cbv beta iota zeta.
    change (exe_files_of (say (P_organizing sample_type source_dir) s) source_dir) with exe.
    rewrite Hexe. by rewrite print_say by apply quiet.
  - by rewrite print_say by apply quiet.
Qed.

(** Whether or not the source directory exists, the call returns
    normally with the file system and the counters of its last frame. *)
Lemma organize_samples_last_frame :
  stat_err dev source_dir = None ->
  let r := organize_samples dev base_dir source_dir sample_type s in
  r.2 = inr tt /\
  fs r.1 = fs (world (before (length exe))) /\
  stats r.1 = stats (world (before (length exe))).
Proof.
  intros Hstat. destruct (fs s !! source_dir) as [entries|] eqn:Hsrc.
  { by apply (organize_samples_frames entries). }
  assert (Hexe : exe = []) by (unfold exe_files_of; by rewrite Hsrc).
  cbv zeta. rewrite (organize_samples_no_candidates (names_file (fs s) source_dir) Hexe).
  - rewrite Hexe. unfold frame_before. rewrite Hexe. by destruct (names_file (fs s) source_dir).
  - unfold path_exists. rewrite Hstat, Hsrc. by rewrite bool_decide_eq_false_2 by by intros [? ?].
Qed.

End Frames.

(** ** The validator never raises *)


(** C7: whatever the file system and the device, [is_pe_file] returns a
    boolean and never an exception; when opening the file fails (missing
    file, permission denial, any other fault) or reading its first two
    bytes fails, the value returned is [False]. *)
Theorem C7_is_pe_file_soft_fail (dev : device) (fs0 : gmap string directory) (p : path) :
  (exists b, is_pe_file dev fs0 p = inr b) /\
  (forall e, open_rb dev fs0 p = inl e -> is_pe_file dev fs0 p = inr false) /\
  (forall f e, open_rb dev fs0 p = inr f -> read f 2 = inl e ->
               is_pe_file dev fs0 p = inr false).
Proof.
  split; [|split].
  - rewrite is_pe_file_spec. eauto.
  - intros e He. unfold is_pe_file, is_pe_file_body. by rewrite He.
  - intros f e Hf He. unfold is_pe_file, is_pe_file_body. by rewrite Hf, He.
Qed.

Lemma C7_witness :
  is_pe_file no_faults ∅ ("in", "missing.exe") = inr false /\
  is_pe_file bad_sector_dev {["in" := [("a.exe", mkfile "MZ-payload")]]} ("in", "a.exe")
  = inr true /\
  is_pe_file (faults (fun _ => Some EACCES) (fun _ => None) (fun _ => None) (fun _ => None)
                (fun _ => None))
    {["in" := [("a.exe", mkfile "MZ-payload")]]} ("in", "a.exe") = inr false.
Proof.
  split; [|split].
  - apply (proj1 (proj2 (C7_is_pe_file_soft_fail no_faults ∅ ("in", "missing.exe")))
             (OSError ENOENT)).
    reflexivity.
  - reflexivity.
  - eapply (proj1 (proj2 (C7_is_pe_file_soft_fail _ _ _))). reflexivity.
Defined.

(** ** Rejection of invalid signatures *)




(** ** Names of accepted files *)

Lemma substring_app_skip (a b : string) (k n : nat) :
  String.substring (String.length a + k) n (a +:+ b) = String.substring k n b.
Proof. induction a as [|c a IH]; [done | exact IH]. Qed.


Lemma substring_0_length (n : nat) (s : string) :
  (n <= String.length s)%nat -> String.length (String.substring 0 n s) = n.
Proof.
  revert s. induction n as [|n IH]; intros s Hn.
  - by destruct s.
  - destruct s as [|c s]; simpl in *; [lia|]. rewrite IH; [done | lia].
Qed.

Lemma digest16_length (msg : list byte) :
  String.length (String.substring 0 16 (SHA256.hexdigest msg)) = 16%nat.
Proof. apply substring_0_length. rewrite hexdigest_length. lia. Qed.


Lemma assoc_put_entry {A : Type} (n : string) (v : A) (l : list (string * A)) :
  assoc n (put_entry n v l) = Some v.
Proof.
  induction l as [|[k w] l IH]; simpl.
  - by rewrite String.eqb_refl.
  - destruct (String.eqb k n) eqn:Hk; simpl; rewrite Hk; [done | exact IH].
Qed.

Lemma lookup_store_file (fs0 : gmap string directory) (p : path) (f : file) :
  is_Some (fs0 !! p.1) -> lookup_file (store_file fs0 p f) p = Some f.
Proof.
  intros [entries He]. unfold lookup_file, store_file. rewrite He.
  rewrite lookup_insert_eq. apply assoc_put_entry.
Qed.

Lemma string_app_inj_len (a a' b b' : string) :
  String.length a = String.length a' -> a +:+ b = a' +:+ b' -> a = a' /\ b = b'.
Proof.
  revert a'. induction a as [|x a IH]; intros [|x' a'] Hlen Heq; try discriminate Hlen.
  - done.
  - change (String x (a +:+ b) = String x' (a' +:+ b')) in Heq.
    injection Heq as -> Heq. injection Hlen as Hlen.
    destruct (IH a' Hlen Heq) as [-> ->]. done.
Qed.

Lemma new_name_inj (sample_type name name' : string) (c c' : list byte) :
  new_name sample_type (SHA256.hexdigest c) name
  = new_name sample_type (SHA256.hexdigest c') name' ->
  name = name'.
Proof.
  unfold new_name. intros H. apply (inj (String.app sample_type)) in H.
  apply (inj (String.app "_")) in H.
  apply string_app_inj_len in H as [_ H]; [|by rewrite !digest16_length].
  by apply (inj (String.app "_")) in H.
Qed.

Lemma assoc_put_entry_ne {A : Type} (n k : string) (v : A) (l : list (string * A)) :
  k <> n -> assoc k (put_entry n v l) = assoc k l.
Proof.
  intros Hne. induction l as [|[k' w] l IH]; simpl.
  - destruct (String.eqb_spec n k); [congruence | done].
  - destruct (String.eqb_spec k' n) as [->|Hk]; simpl.
    + destruct (String.eqb_spec n k); [congruence | done].
    + destruct (String.eqb_spec k' k); [done | exact IH].
Qed.

Lemma lookup_store_file_ne (fs0 : gmap string directory) (p q : path) (f : file) :
  p <> q -> lookup_file (store_file fs0 q f) p = lookup_file fs0 p.
Proof.
  intros Hne. unfold lookup_file, store_file.
  destruct (fs0 !! q.1) as [entries|] eqn:Hq; [|done].
  destruct (decide (q.1 = p.1)) as [Heq|Hd].
  - rewrite <- Heq, lookup_insert_eq, Hq. apply assoc_put_entry_ne.
    intros H2. apply Hne. destruct p, q; simpl in *; congruence.
  - by rewrite lookup_insert_ne.
Qed.







(** ** The outcomes of one iteration *)

Section Outcomes.
Variable dev : device.
Variables base_dir source_dir sample_type : string.

Lemma delta_count (key k : string) (l : line) (fr : frame) (w' : state) (seen : gset string) :
  is_Some (stats (world fr) !! key) -> stats w' = stats (world fr) ->
  delta k fr (Frame (count key (say l w')) seen) = if decide (key = k) then 1 else 0.
Proof.
  intros Hk Hst. unfold delta. simpl. rewrite counter_count by (simpl; by rewrite Hst).
  unfold counter. simpl. rewrite Hst. case_decide; lia.
Qed.

Hypothesis label : sample_type = "malware" \/ sample_type = "benign".

Lemma label_not_errors : "errors" <> sample_type.
Proof. by destruct label as [-> | ->]. Qed.

Lemma label_not_duplicates : "duplicates" <> sample_type.
Proof. by destruct label as [-> | ->]. Qed.

Lemma step_outcome (total idx : nat) (name : string) (fr : frame) :
  has_counters sample_type (world fr) ->
  let fr' := step dev base_dir source_dir sample_type total idx name fr in
  exists o, holds dev base_dir source_dir sample_type o name fr fr' /\
            o = outcome_of dev base_dir source_dir sample_type (fs (world fr))
                  (seen_hashes fr) name.
Proof.
  intros Hc fr'. subst fr'.
  pose proof label_not_errors as Hle. pose proof label_not_duplicates as Hld.
  assert (Hst : stable base_dir source_dir sample_type (fs (world fr)) fr) by done.
  destruct Hc as (He & Hd & Hl).
  unfold outcome_of.
  destruct (hashed dev source_dir (fs (world fr)) name) as [h|] eqn:Hh.
  - assert (Hv : valid_pe dev (fs (world fr)) (source_dir, name) = true
                 /\ get_file_hash dev (fs (world fr)) (source_dir, name) = inr h).
    { revert Hh. unfold hashed.
      destruct (valid_pe dev (fs (world fr)) (source_dir, name)); [|done].
      destruct (get_file_hash dev (fs (world fr)) (source_dir, name)); [done|].
      by intros [= ->]. }
    destruct Hv as [Hv Hhash].
    destruct (decide (h ∈ seen_hashes fr)) as [Hin|Hnin].
    + rewrite bool_decide_eq_true_2 by done. exists Duplicate. split; [|done].
      rewrite (step_duplicate dev base_dir source_dir sample_type total (fs (world fr)) idx name h)
        by done.
      split; [exists h; by rewrite is_pe_file_spec, Hv|].
      rewrite !delta_count by done. simpl. rewrite fs_count.
      repeat case_decide; done.
    + rewrite bool_decide_eq_false_2 by done.
      destruct (copy_clean dev (fs (world fr)) (source_dir, name)
                  (dest_file base_dir sample_type h name)) eqn:Hclean.
      * exists Accepted. split; [|done].
        destruct (hashed_content dev source_dir (fs (world fr)) name h Hh) as (f & Hf & _).
        rewrite (step_accepted dev base_dir source_dir sample_type total (fs (world fr)) idx name h f)
          by done.
        split.
        { exists h, f. rewrite is_pe_file_spec, Hv. simpl. rewrite fs_count. simpl.
          repeat split; try done.
          apply (lookup_store_file _ (dest_file base_dir sample_type h name)).
          by apply (copy_clean_dir dev _ (source_dir, name)). }
        rewrite !(delta_count _ _ _ fr) by done.
        repeat case_decide; done.
      * exists Failed. split; [|done].
        destruct (step_copy_failed dev base_dir source_dir sample_type total (fs (world fr))
                    idx name h fr Hst Hh Hnin Hclean)
          as (w' & e & Heq & Hs & Ho & Hfs & Hsome).
        split.
        { destruct (copy2_raises dev _ _ _ Hclean) as (w'' & e' & Hcopy & _).
          exists e'. split; [by rewrite is_pe_file_spec, Hv|]. right.
          exists h. by rewrite Hcopy. }
        rewrite Heq. rewrite !(delta_count _ _ _ fr) by done.
        repeat case_decide; done.
  - destruct (step_unhashed dev base_dir source_dir sample_type total (fs (world fr))
                idx name fr Hst Hh)
      as (l & Heq).
    revert Hh. unfold hashed.
    destruct (valid_pe dev (fs (world fr)) (source_dir, name)) eqn:Hv.
    + destruct (get_file_hash dev (fs (world fr)) (source_dir, name)) as [e|] eqn:Hhash;
        [|done].
      intros _. exists Failed. split; [|done]. split.
      { exists e. split; [by rewrite is_pe_file_spec, Hv|]. by left. }
      rewrite Heq. rewrite !(delta_count _ _ _ fr) by done.
      repeat case_decide; done.
    + intros _. exists Rejected. split; [|done].
      rewrite Heq. split; [by rewrite is_pe_file_spec, Hv|].
      rewrite !(delta_count _ _ _ fr) by done. simpl. rewrite fs_count.
      repeat case_decide; done.
Qed.

Lemma holds_exclusive (o1 o2 : outcome) (name : string) (fr fr' : frame) :
  holds dev base_dir source_dir sample_type o1 name fr fr' -> holds dev base_dir source_dir sample_type o2 name fr fr' -> o1 = o2.
Proof.
  destruct o1, o2; simpl; try done;
    unfold is_rejected, is_duplicate, is_accepted, is_failed, raises_in;
    intros H1 H2; exfalso;
    repeat match goal with
           | H : _ /\ _ |- _ => destruct H
           | H : exists _, _ |- _ => destruct H
           end; try congruence; try lia.
Qed.

End Outcomes.

(** C2, as amended: for a label [malware] or [benign], and provided the
    standard output accepts every line, every processed candidate ends in
    exactly one of four outcomes -- rejected, duplicate, accepted, or
    failed (an exception while hashing or copying, counted as an error) --
    and the iteration returns normally. *)
Theorem C2_exactly_one_of_four (dev : device) (base_dir source_dir sample_type : string)
    (total idx : nat) (name : string) (fr : frame) :
  sample_type = "malware" \/ sample_type = "benign" ->
  has_counters sample_type (world fr) ->
  prints_ok dev ->
  let r := process_file dev base_dir source_dir sample_type total idx name fr in
  r.2 = inr tt /\
  exists o, holds dev base_dir source_dir sample_type o name fr r.1 /\
            forall o', holds dev base_dir source_dir sample_type o' name fr r.1 -> o' = o.
Proof.
  intros Hl Hc Hq. rewrite process_file_spec by done. simpl. split; [done|].
  destruct (step_outcome dev base_dir source_dir sample_type Hl total idx name fr Hc)
    as (o & Ho & _).
  exists o. split; [exact Ho|].
  intros o' Ho'. eapply holds_exclusive; eassumption.
Qed.

Lemma C2_witness :
  let fr := Frame (fresh c2_fs) ∅ in
  let r := process_file name_max_dev "out" "in" "malware" 1 1 long_name fr in
  r.2 = inr tt /\
  exists o, holds name_max_dev "out" "in" "malware" o long_name fr r.1 /\
            forall o', holds name_max_dev "out" "in" "malware" o' long_name fr r.1 -> o' = o.
Proof.
  apply (C2_exactly_one_of_four name_max_dev "out" "in" "malware" 1 1 long_name
           (Frame (fresh c2_fs) ∅)).
  - left. reflexivity.
  - repeat split; by eexists.
  - intros l. reflexivity.
Defined.

(** The claim with three outcomes fails on that candidate: its signature
    is valid, its digest was not seen, and it is not copied. *)
Lemma C2_counterexample :
  let fr := Frame (fresh c2_fs) ∅ in
  let r := process_file name_max_dev "out" "in" "malware" 1 1 long_name fr in
  r.2 = inr tt /\
  ~ (is_rejected name_max_dev "in" "malware" long_name fr r.1 \/
     is_duplicate name_max_dev "in" "malware" long_name fr r.1 \/
     is_accepted name_max_dev "out" "in" "malware" long_name fr r.1).
Proof.
  split; [vm_compute; reflexivity|].
  intros [(H & _) | [((h & _ & _ & H) & _) | (_ & H & _)]].
  - revert H. vm_compute. intros H. discriminate H.
  - simpl in H. set_solver.
  - revert H. vm_compute. intros H. discriminate H.
Qed.

(** ** Content as the program can read it *)

Lemma content_hash (dev : device) (fs0 : gmap string directory) (p : path) (c : list byte) :
  content dev fs0 p = Some c -> get_file_hash dev fs0 p = inr (SHA256.hexdigest c).
Proof.
  rewrite get_file_hash_spec. unfold content.
  destruct (open_rd_err dev p); [done|]. destruct (lookup_file fs0 p) as [f|]; [|done].
  destruct (read_err dev p) as [k|]; [destruct (k <? length (f_data f))%nat|];
    intros; by simplify_eq.
Qed.

Lemma content_valid (dev : device) (fs0 : gmap string directory) (p : path) (c : list byte) :
  content dev fs0 p = Some c -> valid_pe dev fs0 p = bool_decide (take 2 c = MZ).
Proof.
  unfold content, valid_pe.
  destruct (open_rd_err dev p); [done|]. destruct (lookup_file fs0 p) as [f|]; [|done].
  destruct (read_err dev p) as [k|]; [|by intros [= <-]].
  destruct (k <? length (f_data f))%nat eqn:Hk; [done|]. intros [= <-].
  apply Nat.ltb_ge in Hk.
  assert (Hlt : (k <? length (take 2 (f_data f)))%nat = false).
  { apply Nat.ltb_ge. rewrite length_take. lia. }
  by rewrite Hlt.
Qed.

Lemma content_file (dev : device) (fs0 : gmap string directory) (p : path) (c : list byte) :
  content dev fs0 p = Some c -> exists f, lookup_file fs0 p = Some f /\ f_data f = c.
Proof.
  unfold content.
  destruct (open_rd_err dev p); [done|]. destruct (lookup_file fs0 p) as [f|]; [|done].
  destruct (read_err dev p) as [k|]; [destruct (k <? length (f_data f))%nat|];
    intros; simplify_eq; eauto.
Qed.

Lemma hashed_of_content (dev : device) (source_dir : string) (fs0 : gmap string directory)
    (name : string) (c : list byte) :
  content dev fs0 (source_dir, name) = Some c -> take 2 c = MZ ->
  hashed dev source_dir fs0 name = Some (SHA256.hexdigest c).
Proof.
  intros Hc Hmz. unfold hashed.
  rewrite (content_valid _ _ _ _ Hc), (content_hash _ _ _ _ Hc).
  by rewrite bool_decide_eq_true_2.
Qed.

Lemma content_of_hashed (dev : device) (source_dir : string) (fs0 : gmap string directory)
    (name h : string) :
  hashed dev source_dir fs0 name = Some h ->
  exists c, content dev fs0 (source_dir, name) = Some c /\ h = SHA256.hexdigest c.
Proof.
  unfold hashed, content.
  destruct (valid_pe dev fs0 (source_dir, name)); [|done].
  rewrite get_file_hash_spec.
  destruct (open_rd_err dev (source_dir, name)); [done|].
  destruct (lookup_file fs0 (source_dir, name)) as [f|]; [|done].
  destruct (read_err dev (source_dir, name)) as [k|];
    [destruct (k <? length (f_data f))%nat|]; intros; simplify_eq; eauto.
Qed.

(** ** One call of [organize_samples] *)

(** An iteration leaves the file system alone or writes one file, the
    copy (whole or partial) of a validated candidate whose digest is new. *)
Lemma step_fs (dev : device) (base_dir source_dir sample_type : string)
    (total idx : nat) (name : string) (fr : frame) :
  let fr' := step dev base_dir source_dir sample_type total idx name fr in
  fs (world fr') = fs (world fr) \/
  exists h f',
    valid_pe dev (fs (world fr)) (source_dir, name) = true /\
    get_file_hash dev (fs (world fr)) (source_dir, name) = inr h /\
    (h ∉ seen_hashes fr) /\
    fs (world fr') = store_file (fs (world fr)) (dest_file base_dir sample_type h name) f'.
Proof.
  cbv zeta. unfold step.
  destruct (valid_pe dev (fs (world fr)) (source_dir, name)); cbn [negb world];
    [|left; by rewrite fs_count].
  destruct (get_file_hash dev (fs (world fr)) (source_dir, name)) as [e|h];
    [left; cbn [world]; by rewrite fs_count|].
  destruct (decide (h ∈ seen_hashes fr)) as [Hin|Hnin].
  { rewrite bool_decide_eq_true_2 by done. left. cbn [world]. by rewrite fs_count. }
  rewrite bool_decide_eq_false_2 by done.
  pose proof (copy2_fs dev (source_dir, name) (dest_file base_dir sample_type h name) (world fr))
    as Hfs.
  destruct (copy2 dev (source_dir, name) (dest_file base_dir sample_type h name) (world fr))
    as [w' [e|[]]]; cbn [world fst] in *; rewrite fs_count; cbn [fs say];
    (destruct Hfs as [->|(f' & ->)]; [by left | right; by exists h, f']).
Qed.

Section Call.
Variable dev : device.
Variables base_dir source_dir sample_type : string.
Variable s : state.
Hypothesis label : sample_type = "malware" \/ sample_type = "benign".
Hypothesis counters : has_counters sample_type s.
Hypothesis apart : source_dir <> dest_path base_dir sample_type.
Hypothesis quiet : prints_ok dev.

Local Abbreviation exe := (exe_files_of s source_dir).
Local Abbreviation before := (frame_before dev base_dir source_dir sample_type s).
Local Abbreviation hashed' := (hashed dev source_dir (fs s)).

Lemma before_beyond (k : nat) :
  (length exe <= k)%nat -> before k = before (length exe).
Proof.
  intros Hk. unfold frame_before. by rewrite !take_ge by lia.
Qed.


Lemma before_stable (i : nat) : stable base_dir source_dir sample_type (fs s) (before i).
Proof. rewrite frame_before_steps by done. by apply steps_stable. Qed.

Lemma before_seen (i : nat) :
  seen_hashes (before i) = list_to_set (omap hashed' (take i exe)).
Proof.
  rewrite frame_before_steps by done.
  rewrite (steps_seen dev base_dir source_dir sample_type _ (fs s)) by done.
  simpl. set_solver.
Qed.

Lemma seen_before_iff (i : nat) (h : string) :
  h ∈ seen_hashes (before i) <->
  exists j n, (j < i)%nat /\ exe !! j = Some n /\ hashed' n = Some h.
Proof.
  rewrite before_seen, elem_of_list_to_set, list_elem_of_omap. split.
  - intros (n & Hn & Hh). apply list_elem_of_lookup in Hn as (j & Hj).
    apply lookup_take_Some in Hj as (Hj & Hlt). eauto.
  - intros (j & n & Hlt & Hj & Hh). exists n. split; [|done].
    apply list_elem_of_lookup. exists j. by apply lookup_take_Some.
Qed.

(** The destination entry of a candidate whose digest is new is as it
    was when the call began: the files written so far are those of
    candidates whose digest is in the seen set. *)
Lemma before_untouched (i : nat) (n h : string) :
  hashed' n = Some h -> (h ∉ seen_hashes (before i)) ->
  lookup_file (fs (world (before i))) (dest_file base_dir sample_type h n)
  = lookup_file (fs s) (dest_file base_dir sample_type h n).
Proof.
  intros Hh. induction i as [|k IH]; intros Hnew.
  { unfold frame_before. by rewrite take_0. }
  assert (Hk : h ∉ seen_hashes (before k)).
  { intros (j & m & Hlt & Hj & Hm)%seen_before_iff. apply Hnew, seen_before_iff.
    exists j, m. split; [lia | done]. }
  destruct (exe !! k) as [n'|] eqn:Hn'.
  2: { apply lookup_ge_None in Hn'. rewrite before_beyond by lia.
       rewrite <- (before_beyond k) by lia. by apply IH. }
  rewrite (frame_before_S_step _ _ _ _ _ counters quiet _ _ Hn').
  destruct (step_fs dev base_dir source_dir sample_type (length exe) (S k) n' (before k))
    as [->|(h' & f' & Hv & Hh' & _ & ->)]; [by apply IH|].
  pose proof (before_stable k) as (Hsrc & _ & _).
  rewrite (valid_pe_ext dev _ (fs s)) in Hv by done.
  rewrite (get_file_hash_ext dev _ (fs s)) in Hh' by done.
  assert (Hhashed : hashed' n' = Some h').
  { unfold hashed. by rewrite Hv, Hh'. }
  rewrite lookup_store_file_ne; [by apply IH|].
  intros Heq. apply Hnew.
  destruct (content_of_hashed _ _ _ _ _ Hhashed) as (c' & _ & Hc').
  destruct (content_of_hashed _ _ _ _ _ Hh) as (c & _ & Hc).
  assert (n = n') as <-.
  { apply (new_name_inj sample_type n n' c c'). rewrite <- Hc, <- Hc'. by injection Heq. }
  apply seen_before_iff. exists k, n. split; [lia | done].
Qed.

Lemma before_copy_clean (i : nat) (n h : string) :
  hashed' n = Some h -> (h ∉ seen_hashes (before i)) ->
  copy_clean dev (fs (world (before i))) (source_dir, n) (dest_file base_dir sample_type h n)
  = copy_clean dev (fs s) (source_dir, n) (dest_file base_dir sample_type h n).
Proof.
  intros Hh Hnew. destruct (before_stable i) as (Hsrc & Hdst & _).
  apply copy_clean_ext; [done | done | by apply before_untouched].
Qed.

Lemma before_outcome_of (i : nat) (name : string) :
  outcome_of dev base_dir source_dir sample_type (fs (world (before i)))
    (seen_hashes (before i)) name
  = outcome_of dev base_dir source_dir sample_type (fs s) (seen_hashes (before i)) name.
Proof.
  destruct (before_stable i) as (Hsrc & Hdst & _). unfold outcome_of, hashed.
  rewrite (valid_pe_ext dev (fs (world (before i))) (fs s)) by done.
  rewrite (get_file_hash_ext dev (fs (world (before i))) (fs s)) by done.
  destruct (valid_pe dev (fs s) (source_dir, name)) eqn:Hv; [|done].
  destruct (get_file_hash dev (fs s) (source_dir, name)) as [|h] eqn:Hh; [done|].
  destruct (bool_decide (h ∈ seen_hashes (before i))) eqn:Hin; [done|].
  apply bool_decide_eq_false in Hin.
  rewrite before_copy_clean; [done | | done].
  unfold hashed. by rewrite Hv, Hh.
Qed.

(** The outcome of the candidate of rank [i], read off the initial file
    system and the digests seen so far. *)
Lemma before_outcome (i : nat) (name : string) :
  exe !! i = Some name ->
  holds dev base_dir source_dir sample_type
    (outcome_of dev base_dir source_dir sample_type (fs s) (seen_hashes (before i)) name)
    name (before i) (before (S i)).
Proof.
  intros Hi. rewrite (frame_before_S_step _ _ _ _ _ counters quiet _ _ Hi).
  destruct (step_outcome dev base_dir source_dir sample_type label (length exe) (S i) name
              (before i)) as (o & Ho & ->).
  { apply before_stable. }
  by rewrite before_outcome_of in Ho.
Qed.

(** The first candidate hashed to [h] is accepted if its copy is clean and
    fails otherwise; all later ones are duplicates. *)
Lemma first_hashed (h : string) :
  (exists n, n ∈ exe /\ hashed' n = Some h) ->
  exists i n, exe !! i = Some n /\ hashed' n = Some h /\
              forall j n', exe !! j = Some n' -> hashed' n' = Some h -> (i <= j)%nat.
Proof.
  intros (n & Hn & Hh).
  destruct (list_find_elem_of (fun n => hashed' n = Some h) exe n Hn Hh) as [[i n'] Hfind].
  apply list_find_Some in Hfind as (Hi & Hh' & Hfirst).
  exists i, n'. split; [done|]. split; [done|].
  intros j m Hj Hm. destruct (decide (i <= j)%nat) as [|Hlt]; [done|].
  exfalso. apply (Hfirst j m Hj); [lia | done].
Qed.

Lemma later_duplicate (i j : nat) (n n' h : string) :
  exe !! i = Some n -> hashed' n = Some h -> (i < j)%nat ->
  exe !! j = Some n' -> hashed' n' = Some h ->
  is_duplicate dev source_dir sample_type n' (before j) (before (S j)).
Proof.
  intros Hi Hh Hlt Hj Hh'.
  pose proof (before_outcome j n' Hj) as Ho.
  unfold outcome_of in Ho. rewrite Hh' in Ho.
  rewrite bool_decide_eq_true_2 in Ho; [done|].
  apply seen_before_iff. eauto.
Qed.

Lemma first_accepted (i : nat) (n h : string) :
  exe !! i = Some n -> hashed' n = Some h ->
  (forall j n', exe !! j = Some n' -> hashed' n' = Some h -> (i <= j)%nat) ->
  copy_clean dev (fs s) (source_dir, n) (dest_file base_dir sample_type h n) = true ->
  is_accepted dev base_dir source_dir sample_type n (before i) (before (S i)).
Proof.
  intros Hi Hh Hfirst Hclean.
  pose proof (before_outcome i n Hi) as Ho.
  unfold outcome_of in Ho. rewrite Hh, Hclean in Ho.
  rewrite bool_decide_eq_false_2 in Ho; [done|].
  intros (j & m & Hlt & Hj & Hm)%seen_before_iff.
  specialize (Hfirst j m Hj Hm). lia.
Qed.


End Call.

(** ** Identical content within one call *)

Lemma group_accepted_once (dev : device)
    (base_dir source_dir sample_type : string) (s : state) (c : list byte) :
  sample_type = "malware" \/ sample_type = "benign" ->
  has_counters sample_type s ->
  source_dir <> dest_path base_dir sample_type ->
  prints_ok dev ->
  take 2 c = MZ ->
  (exists n, n ∈ exe_files_of s source_dir /\ carries dev s source_dir c n) ->
  (forall n, n ∈ exe_files_of s source_dir -> carries dev s source_dir c n ->
     copy_clean dev (fs s) (source_dir, n)
       (dest_file base_dir sample_type (SHA256.hexdigest c) n) = true) ->
  (forall n c', n ∈ exe_files_of s source_dir -> carries dev s source_dir c' n ->
     SHA256.hexdigest c' = SHA256.hexdigest c -> c' = c) ->
  accepted_once dev base_dir source_dir sample_type s c.
Proof.
  intros Hl Hc Hapart Hq Hmz (n0 & Hn0 & Hcar0) Hclean Hcoll.
  destruct (first_hashed dev source_dir s (SHA256.hexdigest c)) as (i & n & Hi & Hh & Hfirst).
  { exists n0. split; [done|]. by apply hashed_of_content. }
  assert (Hcar : carries dev s source_dir c n).
  { destruct (content_of_hashed _ _ _ _ _ Hh) as (c' & Hc' & Heq).
    unfold carries. rewrite Hc'. f_equal.
    apply (Hcoll n c'); [by apply list_elem_of_lookup_2 in Hi | done | done]. }
  exists i, n. split; [done|]. split; [done|]. split.
  - apply (first_accepted dev base_dir source_dir sample_type s Hl Hc Hapart Hq i n
             (SHA256.hexdigest c)); try done.
    apply Hclean; [by apply list_elem_of_lookup_2 in Hi | done].
  - intros j n' Hj Hcar' Hne.
    assert (Hh' : hashed dev source_dir (fs s) n' = Some (SHA256.hexdigest c))
      by by apply hashed_of_content.
    pose proof (Hfirst j n' Hj Hh') as Hle.
    apply (later_duplicate dev base_dir source_dir sample_type s Hl Hc Hapart Hq i j n n'
             (SHA256.hexdigest c)); try done. lia.
Qed.






(** ** A failed copy keeps its digest *)


Lemma c10_exe : exe_files_of (fresh c10_fs) "in" = [long_name; "b.exe"; "c.exe"].
Proof. vm_compute. reflexivity. Qed.



(** ** What a call changes *)

Lemma count_other (key k : string) (s : state) :
  k <> key -> stats (count key s) !! k = stats s !! k.
Proof.
  intros Hne. unfold count. destruct (stats s !! key); [|done]. simpl.
  by rewrite lookup_insert_ne.
Qed.

Lemma delta_trans (k : string) (fr fr1 fr2 : frame) :
  delta k fr fr2 = delta k fr fr1 + delta k fr1 fr2.
Proof. unfold delta. lia. Qed.

Lemma count_keeps_key (key k : string) (s : state) :
  is_Some (stats s !! k) -> is_Some (stats (count key s) !! k).
Proof.
  unfold count. destruct (stats s !! key) as [n|] eqn:Hk; [|done]. simpl.
  rewrite lookup_insert. case_decide; [by eexists | done].
Qed.

(** A property of the organizer state is preserved by an iteration and by
    a call, on any device and whether or not they return normally, when it
    is preserved by printing a line, by counting an error or a duplicate,
    by copying into the destination directory, and by counting under the
    label after a copy that returned normally. *)
Section Invariant.
Variable dev : device.
Variables base_dir source_dir sample_type : string.
Variable Q : state -> Prop.
Hypothesis Q_say : forall l w, Q w -> Q (say l w).
Hypothesis Q_count : forall k w, k = "errors" \/ k = "duplicates" -> Q w -> Q (count k w).
Hypothesis Q_copy : forall src n w,
  Q w -> Q (copy2 dev src (dest_path base_dir sample_type, n) w).1.
Hypothesis Q_accept : forall src n w l,
  Q w -> (copy2 dev src (dest_path base_dir sample_type, n) w).2 = inr tt ->
  Q (count sample_type (say l (copy2 dev src (dest_path base_dir sample_type, n) w).1)).

Lemma print_inv (l : line) (w : state) : Q w -> Q (print dev l w).1.
Proof.
  intros HQ. unfold print. destruct (print_err dev l); [done|]. by apply (Q_say l).
Qed.

Lemma report_inv (l : line) (key : string) (fr0 : frame) :
  Q (count key (say l (world fr0))) ->
  Q (world fr0) -> Q (world ((in_world (print dev l) ;;; in_world (stats_incr key)) fr0).1).
Proof.
  intros H HQ. unfold bind, in_world, print, stats_incr.
  destruct (print_err dev l); [done|]. cbn [world stats fs out seen_hashes].
  unfold count, say in H. cbn [stats fs out] in H.
  destruct (stats (world fr0) !! key); [exact H | by apply (Q_say l)].
Qed.

Lemma process_body_inv (total idx : nat) (name : string) (fr : frame) :
  Q (world fr) ->
  Q (world (process_body dev base_dir source_dir sample_type total idx name fr).1).
Proof.
  intros HQ. unfold process_body. cbv zeta. unfold bind at 1, eval at 1.
  rewrite is_pe_file_spec.
  destruct (valid_pe dev (fs (world fr)) (source_dir, name)); cbn [negb];
    [|apply report_inv; auto].
  unfold bind at 1, eval at 1.
  destruct (get_file_hash dev (fs (world fr)) (source_dir, name)) as [e|h]; [done|].
  unfold bind at 1, eval at 1.
  destruct (bool_decide (h ∈ seen_hashes fr)); [apply report_inv; auto|].
  unfold bind at 1, modify. unfold bind at 1. unfold in_world at 1. cbn [world seen_hashes].
  pose proof (Q_copy (source_dir, name) (new_name sample_type h name) _ HQ) as Hc.
  pose proof (fun l => Q_accept (source_dir, name) (new_name sample_type h name) _ l HQ)
    as Ha.
  destruct (copy2 dev (source_dir, name)
              (dest_path base_dir sample_type, new_name sample_type h name) (world fr))
    as [w1 [e|[]]]; [done|].
  apply report_inv; [by apply Ha | done].
Qed.

Lemma process_file_inv (total idx : nat) (name : string) (fr : frame) :
  Q (world fr) ->
  Q (world (process_file dev base_dir source_dir sample_type total idx name fr).1).
Proof.
  intros HQ. unfold process_file, try_except.
  pose proof (process_body_inv total idx name fr HQ) as Hb.
  destruct (process_body dev base_dir source_dir sample_type total idx name fr)
    as [fr1 [e|[]]]; [|done].
  destruct (is_Exception e); [apply report_inv; auto | done].
Qed.

Lemma process_all_inv (names : list string) (fr : frame) :
  Q (world fr) ->
  Q (world (process_all dev base_dir source_dir sample_type names fr).1).
Proof.
  unfold process_all. generalize (length names). generalize 1%nat. intros idx total.
  revert idx fr. induction names as [|n names IH]; intros idx fr HQ; [done|].
  simpl. unfold bind.
  pose proof (process_file_inv total idx n fr HQ) as Hn.
  destruct (process_file dev base_dir source_dir sample_type total idx n fr)
    as [fr1 [e|[]]]; [done|]. by apply IH.
Qed.

Lemma organize_samples_inv (s : state) :
  Q s -> Q (organize_samples dev base_dir source_dir sample_type s).1.
Proof.
  intros HQ. unfold organize_samples. unfold bind at 1, eval at 1.
  destruct (path_exists dev (fs s) source_dir) as [e|[]]; cbn [negb];
    [done | | by apply print_inv].
  unfold bind at 1.
  pose proof (print_inv (P_organizing sample_type source_dir) s HQ) as H1.
  destruct (print dev (P_organizing sample_type source_dir) s) as [s1 [e|[]]]; [done|].
  unfold bind, eval. cbn [fst] in H1.
  destruct (exe_files_of s1 source_dir) as [|n names]; [by apply print_inv|].
  pose proof (process_all_inv (n :: names) (Frame s1 ∅) H1) as H2.
  by destruct (process_all dev base_dir source_dir sample_type (n :: names) (Frame s1 ∅)).
Qed.

End Invariant.

Section Effects.
Variable dev : device.
Variables base_dir source_dir sample_type : string.

Lemma step_keeps_key (total idx : nat) (name k : string) (fr : frame) :
  is_Some (stats (world fr) !! k) ->
  is_Some (stats (world (step dev base_dir source_dir sample_type total idx name fr)) !! k).
Proof.
  intros Hk. unfold step.
  repeat match goal with
         | |- context [if ?b then _ else _] => destruct b
         | |- context [match get_file_hash ?a ?b ?c with _ => _ end] =>
             destruct (get_file_hash a b c)
         end; simpl; try (by apply count_keeps_key).
  all: pose proof (copy2_stats dev (source_dir, name)
                     (dest_file base_dir sample_type s name) (world fr)) as [Hst _].
  all: destruct (copy2 dev (source_dir, name) (dest_file base_dir sample_type s name)
                   (world fr)) as [w' [e|[]]].
  all: simpl in *; apply count_keeps_key; simpl; by rewrite Hst.
Qed.

(** Any property of the file system and the counters that printing
    leaves alone and that counting and copying into the destination
    preserve is preserved by the call. *)
Lemma organize_samples_preserves (P : gmap string directory -> gmap string Z -> Prop)
    (s : state) :
  (forall k w, k = "errors" \/ k = "duplicates" \/ k = sample_type ->
     P (fs w) (stats w) -> P (fs (count k w)) (stats (count k w))) ->
  (forall src n w, P (fs w) (stats w) ->
     P (fs (copy2 dev src (dest_path base_dir sample_type, n) w).1) (stats w)) ->
  P (fs s) (stats s) ->
  P (fs (organize_samples dev base_dir source_dir sample_type s).1)
    (stats (organize_samples dev base_dir source_dir sample_type s).1).
Proof.
  intros Hcount Hcopy.
  assert (Hcopy' : forall src n w, P (fs w) (stats w) ->
            P (fs (copy2 dev src (dest_path base_dir sample_type, n) w).1)
              (stats (copy2 dev src (dest_path base_dir sample_type, n) w).1)).
  { intros src n w HP.
    destruct (copy2_stats dev src (dest_path base_dir sample_type, n) w) as [-> _].
    by apply Hcopy. }
  apply (organize_samples_inv dev base_dir source_dir sample_type
           (fun w => P (fs w) (stats w))); [done | | done|].
  - intros k w Hk. apply Hcount. destruct Hk as [->| ->]; auto.
  - intros src n w l HP _. apply Hcount; [auto|]. by apply Hcopy'.
Qed.

Lemma organize_samples_fs_other (s : state) (d : string) :
  d <> dest_path base_dir sample_type ->
  fs (organize_samples dev base_dir source_dir sample_type s).1 !! d = fs s !! d.
Proof.
  intros Hd.
  apply (organize_samples_preserves (fun fs1 _ => fs1 !! d = fs s !! d)); [| |done].
  - intros k w _. by rewrite fs_count.
  - intros src n w IH.
    destruct (copy2_fs dev src (dest_path base_dir sample_type, n) w) as [->|(f' & ->)];
      [done|]. by rewrite store_file_other.
Qed.

Lemma organize_samples_is_Some (s : state) (d : string) :
  is_Some (fs (organize_samples dev base_dir source_dir sample_type s).1 !! d)
  <-> is_Some (fs s !! d).
Proof.
  apply (organize_samples_preserves
           (fun fs1 _ => is_Some (fs1 !! d) <-> is_Some (fs s !! d))); [| |done].
  - intros k w _. by rewrite fs_count.
  - intros src n w IH.
    destruct (copy2_fs dev src (dest_path base_dir sample_type, n) w) as [->|(f' & ->)];
      [done|]. by rewrite store_file_is_Some.
Qed.

Lemma organize_samples_keeps_key (s : state) (k : string) :
  is_Some (stats s !! k) ->
  is_Some (stats (organize_samples dev base_dir source_dir sample_type s).1 !! k).
Proof.
  intros Hk.
  apply (organize_samples_preserves (fun _ st => is_Some (st !! k))); [|done|done].
  intros key w _. apply count_keeps_key.
Qed.

(** A call changes no counter other than [errors], [duplicates] and the
    one of its label. *)
Lemma organize_samples_other_counter (s : state) (k : string) :
  k <> "errors" -> k <> "duplicates" -> k <> sample_type ->
  stats (organize_samples dev base_dir source_dir sample_type s).1 !! k = stats s !! k.
Proof.
  intros H1 H2 H3.
  apply (organize_samples_preserves (fun _ st => st !! k = stats s !! k)); [|done|done].
  intros key w Hkey IH. rewrite count_other; [done|]. by destruct Hkey as [->|[->| ->]].
Qed.

End Effects.

(** ** Counting the candidates *)

Lemma steps_count_each (dev : device) (base_dir source_dir sample_type : string)
    (total : nat) (names : list string) (idx : nat) (fr : frame) :
  sample_type = "malware" \/ sample_type = "benign" ->
  has_counters sample_type (world fr) ->
  let fr' := steps dev base_dir source_dir sample_type total idx names fr in
  delta "errors" fr fr' + delta "duplicates" fr fr' + delta sample_type fr fr'
  = Z.of_nat (length names) /\
  0 <= delta "errors" fr fr' /\ 0 <= delta "duplicates" fr fr' /\
  0 <= delta sample_type fr fr'.
Proof.
  intros Hl. revert idx fr. induction names as [|n names IH]; intros idx fr Hc.
  { cbv zeta. simpl. unfold delta. lia. }
  cbv zeta. change (steps dev base_dir source_dir sample_type total idx (n :: names) fr)
    with (steps dev base_dir source_dir sample_type total (S idx) names
            (step dev base_dir source_dir sample_type total idx n fr)).
  set (fr1 := step dev base_dir source_dir sample_type total idx n fr).
  assert (Hc1 : has_counters sample_type (world fr1)) by by apply step_stats_dom.
  specialize (IH (S idx) fr1 Hc1). cbv zeta in IH.
  set (fr2 := steps dev base_dir source_dir sample_type total (S idx) names fr1) in *.
  rewrite (delta_trans "errors" fr fr1 fr2), (delta_trans "duplicates" fr fr1 fr2),
    (delta_trans sample_type fr fr1 fr2).
  destruct (step_outcome dev base_dir source_dir sample_type Hl total idx n fr Hc)
    as (o & Ho & _).
  fold fr1 in Ho. clearbody fr1 fr2.
  change (length (n :: names)) with (S (length names)).
  destruct o; simpl in Ho.
  - destruct Ho as (_ & H1 & H2 & H3 & _). lia.
  - destruct Ho as (_ & H1 & H2 & H3). lia.
  - destruct Ho as (_ & H1 & H2 & H3 & _). lia.
  - destruct Ho as (_ & H1 & H2 & H3). lia.
Qed.

Lemma organize_samples_count_sum (dev : device)
    (base_dir source_dir sample_type : string) (s : state) :
  sample_type = "malware" \/ sample_type = "benign" ->
  has_counters sample_type s ->
  prints_ok dev ->
  stat_err dev source_dir = None ->
  let s' := (organize_samples dev base_dir source_dir sample_type s).1 in
  (counter "errors" s' - counter "errors" s)
  + (counter "duplicates" s' - counter "duplicates" s)
  + (counter sample_type s' - counter sample_type s)
  = Z.of_nat (length (exe_files_of s source_dir)) /\
  counter "errors" s <= counter "errors" s' /\
  counter "duplicates" s <= counter "duplicates" s' /\
  counter sample_type s <= counter sample_type s'.
Proof.
  intros Hl Hc Hq Hstat. cbv zeta.
  destruct (organize_samples_last_frame dev base_dir source_dir sample_type s Hc Hq Hstat)
    as (_ & _ & Hst).
  rewrite (frame_before_steps dev base_dir source_dir sample_type s Hc Hq), firstn_all in Hst.
  pose proof (steps_count_each dev base_dir source_dir sample_type
                (length (exe_files_of s source_dir)) (exe_files_of s source_dir) 1%nat
                (first_frame source_dir sample_type s) Hl Hc) as Hcount.
  cbv zeta in Hcount. unfold delta, counter in Hcount. rewrite <- Hst in Hcount.
  unfold counter. unfold first_frame, say in Hcount. simpl in Hcount.
  repeat split; lia.
Qed.

(** ** Per-file failures do not stop the run *)




(** ** Accepted files stay in the destination *)

Section Persist.
Variable dev : device.
Variables base_dir source_dir sample_type : string.
Variable s : state.
Hypothesis label : sample_type = "malware" \/ sample_type = "benign".
Hypothesis counters : has_counters sample_type s.
Hypothesis apart : source_dir <> dest_path base_dir sample_type.
Hypothesis quiet : prints_ok dev.

Local Abbreviation exe := (exe_files_of s source_dir).
Local Abbreviation before := (frame_before dev base_dir source_dir sample_type s).

(** A file written for a candidate whose digest is in the seen set is
    not overwritten by a later iteration. *)
Lemma written_file_persists (i k : nat) (n : string) (c : list byte) (f : file) :
  exe !! i = Some n ->
  hashed dev source_dir (fs s) n = Some (SHA256.hexdigest c) ->
  lookup_file (fs (world (before (S i))))
    (dest_file base_dir sample_type (SHA256.hexdigest c) n) = Some f ->
  (S i <= k)%nat ->
  lookup_file (fs (world (before k)))
    (dest_file base_dir sample_type (SHA256.hexdigest c) n) = Some f.
Proof.
  intros Hi Hh Hf Hk. induction Hk as [|k Hk IH]; [done|].
  destruct (exe !! k) as [n'|] eqn:Hn'.
  2: { apply lookup_ge_None in Hn'. rewrite before_beyond by lia.
       by rewrite <- (before_beyond dev base_dir source_dir sample_type s k). }
  rewrite (frame_before_S_step _ _ _ _ _ counters quiet _ _ Hn').
  destruct (step_fs dev base_dir source_dir sample_type (length exe) (S k) n' (before k))
    as [->|(h' & f' & Hv & Hh' & Hnew & ->)]; [done|].
  pose proof (before_stable dev base_dir source_dir sample_type s counters apart quiet k)
    as (Hsrc & _ & _).
  rewrite (valid_pe_ext dev _ (fs s)) in Hv by done.
  rewrite (get_file_hash_ext dev _ (fs s)) in Hh' by done.
  assert (Hhashed : hashed dev source_dir (fs s) n' = Some h').
  { unfold hashed. by rewrite Hv, Hh'. }
  destruct (content_of_hashed _ _ _ _ _ Hhashed) as (c' & _ & ->).
  rewrite lookup_store_file_ne; [done|].
  intros Heq. apply Hnew.
  assert (n = n') as <-.
  { apply (new_name_inj sample_type n n' c c'). by injection Heq. }
  assert (SHA256.hexdigest c' = SHA256.hexdigest c) as -> by congruence.
  apply (seen_before_iff dev base_dir source_dir sample_type s label counters apart quiet).
  exists i, n. split; [lia | done].
Qed.

(** The accepted candidate of content [c] is in the destination when the
    call returns. *)
Lemma accepted_in_result (i : nat) (n : string) (c : list byte) :
  stat_err dev source_dir = None ->
  exe !! i = Some n ->
  carries dev s source_dir c n ->
  take 2 c = MZ ->
  is_accepted dev base_dir source_dir sample_type n (before i) (before (S i)) ->
  exists f,
    lookup_file (fs (organize_samples dev base_dir source_dir sample_type s).1)
      (dest_file base_dir sample_type (SHA256.hexdigest c) n) = Some f /\
    f_data f = c.
Proof.
  intros Hstat Hi Hcar Hmz ((h & f & _ & Hh & _ & Hf & Hdst) & _).
  pose proof (before_stable dev base_dir source_dir sample_type s counters apart quiet i)
    as (Hsrc & _ & _).
  rewrite (get_file_hash_ext dev _ (fs s)) in Hh by done.
  rewrite (content_hash _ _ _ _ Hcar) in Hh. injection Hh as <-.
  rewrite (lookup_file_ext _ (fs s)) in Hf by done.
  destruct (content_file _ _ _ _ Hcar) as (f0 & Hf0 & Hdata).
  assert (f0 = f) as -> by congruence.
  exists (File (f_data f) (f_stat f)). split; [|done].
  destruct (organize_samples_last_frame dev base_dir source_dir sample_type s counters quiet
              Hstat) as (_ & -> & _).
  apply (written_file_persists i (length exe) n c); try done.
  - by apply hashed_of_content.
  - apply lookup_lt_Some in Hi. lia.
Qed.

End Persist.

(** ** Deduplication is scoped to the label *)

Lemma content_ext (dev : device) (fs1 fs2 : gmap string directory) (p : path) :
  fs1 !! p.1 = fs2 !! p.1 -> content dev fs1 p = content dev fs2 p.
Proof. intros H. unfold content. by rewrite (lookup_file_ext _ _ _ H). Qed.

Lemma dest_path_labels (base_dir : string) :
  dest_path base_dir "malware" <> dest_path base_dir "benign".
Proof.
  unfold dest_path. intros H. apply (inj (String.app base_dir)) in H. discriminate H.
Qed.

(** C6, as amended: [seen_hashes] starts empty in every call.  Run the
    malware call and then the benign call, as [main] does, on source
    directories that [exists()] can stat and that are not destinations: the
    malware source is not the malware destination, and the benign source is
    neither the benign nor the malware destination.  For a content [c]
    starting with [MZ] that a candidate of each directory reads as,
    provided copying the candidates that carry it raises no exception, the
    standard output accepts every line (and no candidate of another content
    has its digest), [c] is accepted exactly once in each call, and when
    both calls have returned the destination holds two distinct files of
    content [c], one under each label. *)
Theorem C6_label_scoped_dedup (dev : device) (base_dir malware_dir benign_dir : string)
    (s : state) (c : list byte) :
  has_counters "malware" s -> has_counters "benign" s ->
  malware_dir <> dest_path base_dir "malware" ->
  benign_dir <> dest_path base_dir "benign" ->
  benign_dir <> dest_path base_dir "malware" ->
  prints_ok dev ->
  stat_err dev malware_dir = None -> stat_err dev benign_dir = None ->
  take 2 c = MZ ->
  (exists n, n ∈ exe_files_of s malware_dir /\ carries dev s malware_dir c n) ->
  (exists n, n ∈ exe_files_of s benign_dir /\ carries dev s benign_dir c n) ->
  (forall n, n ∈ exe_files_of s malware_dir -> carries dev s malware_dir c n ->
     copy_clean dev (fs s) (malware_dir, n)
       (dest_file base_dir "malware" (SHA256.hexdigest c) n) = true) ->
  (forall n, n ∈ exe_files_of s benign_dir -> carries dev s benign_dir c n ->
     copy_clean dev (fs s) (benign_dir, n)
       (dest_file base_dir "benign" (SHA256.hexdigest c) n) = true) ->
  (forall d n c', d = malware_dir \/ d = benign_dir -> n ∈ exe_files_of s d ->
     carries dev s d c' n -> SHA256.hexdigest c' = SHA256.hexdigest c -> c' = c) ->
  let s1 := (organize_samples dev base_dir malware_dir "malware" s).1 in
  let s2 := (organize_samples dev base_dir benign_dir "benign" s1).1 in
  seen_hashes (frame_before dev base_dir malware_dir "malware" s 0) = ∅ /\
  seen_hashes (frame_before dev base_dir benign_dir "benign" s1 0) = ∅ /\
  accepted_once dev base_dir malware_dir "malware" s c /\
  accepted_once dev base_dir benign_dir "benign" s1 c /\
  exists nm nb fm fb,
    lookup_file (fs s2) (dest_file base_dir "malware" (SHA256.hexdigest c) nm) = Some fm /\
    f_data fm = c /\
    lookup_file (fs s2) (dest_file base_dir "benign" (SHA256.hexdigest c) nb) = Some fb /\
    f_data fb = c /\
    dest_file base_dir "malware" (SHA256.hexdigest c) nm
    <> dest_file base_dir "benign" (SHA256.hexdigest c) nb.
Proof.
  intros Hcm Hcb Hapm Hapb Hapbm Hq Hstm Hstb Hmz Hgm Hgb Hclm Hclb Hcoll s1 s2.
  assert (Hfsb : fs s1 !! benign_dir = fs s !! benign_dir).
  { by apply organize_samples_fs_other. }
  assert (Hexe : exe_files_of s1 benign_dir = exe_files_of s benign_dir).
  { unfold exe_files_of. by rewrite Hfsb. }
  assert (Hcar : forall c' n, carries dev s1 benign_dir c' n <-> carries dev s benign_dir c' n).
  { intros c' n. unfold carries. by rewrite (content_ext dev (fs s1) (fs s)). }
  assert (Hcb1 : has_counters "benign" s1).
  { destruct Hcb as (He & Hd & Hb).
    repeat split; by apply organize_samples_keeps_key. }
  assert (Hm : accepted_once dev base_dir malware_dir "malware" s c).
  { apply group_accepted_once; try done; [by left|]. intros n c'. apply Hcoll. by left. }
  assert (Hb : accepted_once dev base_dir benign_dir "benign" s1 c).
  { apply group_accepted_once; try done.
    - by right.
    - destruct Hgb as (n & Hn & Hc). exists n. by rewrite Hexe, Hcar.
    - intros n Hn Hc. rewrite Hexe in Hn. apply Hcar in Hc.
      rewrite (copy_clean_ext dev (fs s1) (fs s)); [by apply Hclb | done | |].
      + by apply organize_samples_is_Some.
      + apply lookup_file_ext. apply organize_samples_fs_other.
        intros Heq. symmetry in Heq. by apply dest_path_labels in Heq.
    - intros n c' Hn Hc. rewrite Hexe in Hn. apply Hcar in Hc.
      apply (Hcoll benign_dir n c'); [by right | done | done]. }
  split; [done|]. split; [done|]. split; [exact Hm|]. split; [exact Hb|].
  destruct Hm as (i & nm & Hi & Hcarm & Haccm & _).
  destruct Hb as (j & nb & Hj & Hcarb & Haccb & _).
  destruct (accepted_in_result dev base_dir malware_dir "malware" s (or_introl eq_refl)
              Hcm Hapm Hq i nm c Hstm Hi Hcarm Hmz Haccm) as (fm & Hfm & Hdm).
  destruct (accepted_in_result dev base_dir benign_dir "benign" s1 (or_intror eq_refl)
              Hcb1 Hapb Hq j nb c Hstb Hj Hcarb Hmz Haccb) as (fb & Hfb & Hdb).
  exists nm, nb, fm, fb. split; [|split; [done|split; [done|split; [done|]]]].
  - subst s2. rewrite (lookup_file_ext _ (fs s1)); [done|].
    apply organize_samples_fs_other. apply dest_path_labels.
  - unfold dest_file. intros Heq. injection Heq as Heq _. by apply dest_path_labels in Heq.
Qed.

Lemma c6_exe_mal : exe_files_of (fresh c6_fs) "mal" = ["a.exe"; "c.exe"].
Proof. vm_compute. reflexivity. Qed.

Lemma c6_exe_ben : exe_files_of (fresh c6_fs) "ben" = ["x.exe"; "y.exe"].
Proof. vm_compute. reflexivity. Qed.

Lemma C6_witness :
  let s := fresh c6_fs in
  let c := bytes_of "MZ-payload" in
  let s1 := (organize_samples no_faults "out" "mal" "malware" s).1 in
  let s2 := (organize_samples no_faults "out" "ben" "benign" s1).1 in
  accepted_once no_faults "out" "mal" "malware" s c /\
  accepted_once no_faults "out" "ben" "benign" s1 c /\
  (exists nm nb fm fb,
    lookup_file (fs s2) (dest_file "out" "malware" (SHA256.hexdigest c) nm) = Some fm /\
    f_data fm = c /\
    lookup_file (fs s2) (dest_file "out" "benign" (SHA256.hexdigest c) nb) = Some fb /\
    f_data fb = c /\
    dest_file "out" "malware" (SHA256.hexdigest c) nm
    <> dest_file "out" "benign" (SHA256.hexdigest c) nb) /\
  stats s2 = <["malware" := 1]> (<["benign" := 1]> (<["duplicates" := 1]>
               (<["errors" := 1]> init_stats))).
Proof.
  cbv zeta.
  destruct (C6_label_scoped_dedup no_faults "out" "mal" "ben" (fresh c6_fs)
              (bytes_of "MZ-payload"))
    as (_ & _ & Hm & Hb & Hfiles).
  - repeat split; by eexists.
  - repeat split; by eexists.
  - vm_compute. intros H. discriminate H.
  - vm_compute. intros H. discriminate H.
  - vm_compute. intros H. discriminate H.
  - intros l. reflexivity.
  - reflexivity.
  - reflexivity.
  - reflexivity.
  - exists "a.exe". split; [rewrite c6_exe_mal; set_solver | vm_compute; reflexivity].
  - exists "x.exe". split; [rewrite c6_exe_ben; set_solver | vm_compute; reflexivity].
  - intros n Hn _. rewrite c6_exe_mal in Hn.
    repeat (apply elem_of_cons in Hn as [->|Hn]); [vm_compute; reflexivity ..|].
    exfalso. exact (proj1 (elem_of_nil _) Hn).
  - intros n Hn _. rewrite c6_exe_ben in Hn.
    repeat (apply elem_of_cons in Hn as [->|Hn]); [vm_compute; reflexivity ..|].
    exfalso. exact (proj1 (elem_of_nil _) Hn).
  - intros d n c' [-> | ->] Hn Hc' Hh.
    + rewrite c6_exe_mal in Hn.
      repeat (apply elem_of_cons in Hn as [->|Hn]);
        [| |exfalso; exact (proj1 (elem_of_nil _) Hn)];
        revert Hc'; vm_compute; intros [= <-]; [reflexivity|].
      exfalso. revert Hh. vm_compute. intros Hh. discriminate Hh.
    + rewrite c6_exe_ben in Hn.
      repeat (apply elem_of_cons in Hn as [->|Hn]);
        [| |exfalso; exact (proj1 (elem_of_nil _) Hn)];
        revert Hc'; vm_compute; intros [= <-]; reflexivity.
  - split; [exact Hm|]. split; [exact Hb|]. split; [exact Hfiles|].
    vm_compute. reflexivity.
Defined.

Lemma C6_counterexample :
  let c := bytes_of "MZ-payload" in
  let s := (setup_directories name_max_dev "out" (fresh c6x_fs)).1 in
  let r := main name_max_dev "2024-01-01T00:00:00" c6x_args (State c6x_fs ∅ []) in
  take 2 c = MZ /\
  carries name_max_dev s "mal" c long_name /\ carries name_max_dev s "ben" c "b.exe" /\
  r.2 = inr tt /\
  stats r.1 = <["benign" := 1]> (<["errors" := 1]> init_stats) /\
  fs r.1 !! "out/original/malware" = Some [] /\
  ~ accepted_once name_max_dev "out" "mal" "malware" s c.
Proof.
  split; [reflexivity|]. split; [vm_compute; reflexivity|]. split; [vm_compute; reflexivity|].
  split; [vm_compute; reflexivity|]. split; [vm_compute; reflexivity|].
  split; [vm_compute; reflexivity|].
  intros (i & n & Hi & _ & (_ & Hd & _) & _).
  assert (Hexe : exe_files_of (setup_directories name_max_dev "out" (fresh c6x_fs)).1 "mal"
                 = [long_name]) by (vm_compute; reflexivity).
  rewrite Hexe in Hi.
  destruct i as [|i]; simpl in Hi; [|discriminate Hi].
  clear Hi. revert Hd. vm_compute. intros Hd. discriminate Hd.
Qed.

(** ** Runs over the same files in another order *)

Lemma assoc_Some_elem {A : Type} (n : string) (v : A) (l : list (string * A)) :
  assoc n l = Some v -> (n, v) ∈ l.
Proof.
  induction l as [|[k w] l IH]; simpl; [done|].
  destruct (String.eqb_spec k n) as [->|Hne].
  - intros [= ->]. apply list_elem_of_here.
  - intros H. apply list_elem_of_further. by apply IH.
Qed.

Lemma assoc_NoDup {A : Type} (n : string) (v : A) (l : list (string * A)) :
  NoDup (fst <$> l) -> (n, v) ∈ l -> assoc n l = Some v.
Proof.
  induction l as [|[k w] l IH]; simpl; intros Hnd Hin.
  - by apply elem_of_nil in Hin.
  - apply NoDup_cons in Hnd as [Hk Hnd].
    apply elem_of_cons in Hin as [[= -> ->]|Hin].
    + by rewrite String.eqb_refl.
    + destruct (String.eqb_spec k n) as [->|Hne]; [|by apply IH].
      exfalso. apply Hk. by apply (list_elem_of_fmap_2' fst _ (n, v)).
Qed.

Lemma assoc_Permutation {A : Type} (n : string) (l l' : list (string * A)) :
  NoDup (fst <$> l) -> l ≡ₚ l' -> assoc n l = assoc n l'.
Proof.
  intros Hnd Hperm.
  assert (Hnd' : NoDup (fst <$> l')) by by rewrite <- Hperm.
  destruct (assoc n l) as [v|] eqn:H1.
  - symmetry. apply assoc_NoDup; [done|]. rewrite <- Hperm. by apply assoc_Some_elem.
  - destruct (assoc n l') as [v|] eqn:H2; [|done].
    apply assoc_Some_elem in H2. rewrite <- Hperm in H2.
    apply assoc_NoDup in H2; [congruence | done].
Qed.

Lemma put_entry_fresh {A : Type} (n : string) (v : A) (l : list (string * A)) :
  assoc n l = None -> put_entry n v l = l ++ [(n, v)].
Proof.
  induction l as [|[k w] l IH]; simpl; [done|].
  destruct (String.eqb k n); [done|]. intros H. by rewrite IH.
Qed.

Section Tally.
Variable dev : device.
Variables base_dir source_dir sample_type : string.
Variable total : nat.
Variable fs0 : gmap string directory.
Hypothesis label : sample_type = "malware" \/ sample_type = "benign".
Hypothesis apart : source_dir <> dest_path base_dir sample_type.
Hypothesis dest_empty : fs0 !! dest_path base_dir sample_type = Some [].

Local Abbreviation hashed' := (hashed dev source_dir fs0).
Local Abbreviation step' := (step dev base_dir source_dir sample_type total).
Local Abbreviation steps' := (steps dev base_dir source_dir sample_type total).

Lemma tally_step (idx : nat) (name : string) (fr : frame) :
  stable base_dir source_dir sample_type fs0 fr ->
  dest_tracks_seen dev base_dir source_dir sample_type fs0 fr ->
  (forall h, hashed' name = Some h -> (h ∉ seen_hashes fr) ->
     copy_clean dev fs0 (source_dir, name) (dest_file base_dir sample_type h name) = true) ->
  tally dev base_dir source_dir sample_type fs0 fr (step' idx name fr) [name].
Proof.
  intros Hst Hdest Hclean.
  pose proof (label_not_errors sample_type label) as Hle.
  pose proof (label_not_duplicates sample_type label) as Hld.
  pose proof (step_stable dev base_dir source_dir sample_type total fs0 apart idx name fr Hst)
    as Hst'.
  pose proof Hst as (Hsrc & Hdst & He & Hd & Hl).
  assert (dest_exists : is_Some (fs0 !! dest_path base_dir sample_type)) by by eexists.
  unfold tally. cbv zeta. simpl omap.
  destruct (hashed' name) as [h|] eqn:Hh.
  - destruct (decide (h ∈ seen_hashes fr)) as [Hin|Hnin].
    + rewrite (step_duplicate dev base_dir source_dir sample_type total fs0 idx name h)
        in * by done.
      rewrite !(delta_count _ _ _ fr) by done. cbn [seen_hashes world length].
      repeat case_decide; try done.
      split; [set_solver|]. split; [lia|]. split; [lia|]. split; [lia|].
      split; [|split; [done|]].
      * intros k ? ? ?. by rewrite count_other.
      * destruct Hdest as [Hdig Hnames]. split.
        -- unfold dest_digests, dest_entries in *. cbn [world seen_hashes].
           by rewrite fs_count.
        -- unfold dest_entries in *. cbn [world]. by rewrite fs_count.
    + destruct (hashed_content _ _ _ _ _ Hh) as (f & Hf & Heq).
      destruct Hdest as [Hdig Hnames].
      destruct (proj2 Hdst dest_exists) as [entries Hentries].
      assert (Hfresh : assoc (new_name sample_type h name) entries = None).
      { destruct (assoc (new_name sample_type h name) entries) as [f1|] eqn:Ha; [|done].
        exfalso. apply Hnin. apply assoc_Some_elem in Ha.
        destruct (Hnames (new_name sample_type h name) f1) as (n1 & Hn1 & Hh1).
        { unfold dest_entries. by rewrite Hentries. }
        rewrite Heq in Hn1. apply new_name_inj in Hn1 as <-.
        rewrite <- Hdig. unfold dest_digests, dest_entries. rewrite Hentries.
        apply elem_of_list_to_set, list_elem_of_fmap.
        exists (new_name sample_type h name, f1). split; [simpl; congruence | done]. }
      assert (Hcl : copy_clean dev (fs (world fr)) (source_dir, name)
                      (dest_file base_dir sample_type h name) = true).
      { rewrite (copy_clean_ext dev (fs (world fr)) fs0); [by apply Hclean | done | done|].
        unfold lookup_file, dest_file. cbn [fst snd]. by rewrite Hentries, dest_empty. }
      rewrite (step_accepted dev base_dir source_dir sample_type total fs0 idx name h f)
        in * by done.
      rewrite !(delta_count _ _ _ fr) by done. cbn [seen_hashes world length].
      repeat case_decide; try done.
      assert (Hsize : size ({[h]} ∪ seen_hashes fr) = S (size (seen_hashes fr))).
      { rewrite size_union by set_solver. by rewrite size_singleton. }
      rewrite Hsize.
      split; [set_solver|]. split; [lia|]. split; [lia|]. split; [lia|].
      split; [|split; [done|]].
      * intros k ? ? ?. by rewrite count_other.
      * assert (Hnew : dest_entries base_dir sample_type
                         (count sample_type
                            (say (P_copied idx total (new_name sample_type h name))
                               (State (store_file (fs (world fr))
                                         (dest_file base_dir sample_type h name)
                                         (File (f_data f) (f_stat f)))
                                      (stats (world fr)) (out (world fr)))))
                       = entries ++ [(new_name sample_type h name,
                                      File (f_data f) (f_stat f))]).
        { unfold dest_entries. rewrite fs_count. cbn [fs say]. unfold store_file, dest_file.
          cbn [fst snd]. rewrite Hentries, lookup_insert_eq. simpl.
          by apply put_entry_fresh. }
        split.
        -- unfold dest_digests. cbn [world seen_hashes]. rewrite Hnew.
           rewrite fmap_app, list_to_set_app_L. simpl.
           unfold dest_digests, dest_entries in Hdig. rewrite Hentries in Hdig.
           simpl in Hdig. rewrite Hdig, <- Heq. set_solver.
        -- cbn [world]. rewrite Hnew. intros k f1 Hin.
           apply elem_of_app in Hin as [Hin|Hin].
           ++ apply Hnames. unfold dest_entries. by rewrite Hentries.
           ++ apply list_elem_of_singleton in Hin as [= -> ->]. exists name.
              cbn [f_data]. by rewrite <- Heq.
  - destruct (step_unhashed dev base_dir source_dir sample_type total fs0 idx name fr Hst Hh)
      as (l & Heq).
    rewrite Heq in *.
    rewrite !(delta_count _ _ _ fr) by done. cbn [seen_hashes world length].
    repeat case_decide; try done.
    split; [set_solver|]. split; [lia|]. split; [lia|]. split; [lia|].
    split; [|split; [done|]].
    + intros k ? ? ?. by rewrite count_other.
    + destruct Hdest as [Hdig Hnames]. split.
      * unfold dest_digests, dest_entries in *. cbn [world seen_hashes].
        by rewrite fs_count.
      * unfold dest_entries in *. cbn [world]. by rewrite fs_count.
Qed.

End Tally.

Lemma valid_pe_same_file (dev : device) (fs1 fs2 : gmap string directory) (p : path) :
  lookup_file fs1 p = lookup_file fs2 p -> valid_pe dev fs1 p = valid_pe dev fs2 p.
Proof. intros H. unfold valid_pe. by rewrite H. Qed.

Lemma get_file_hash_same_file (dev : device) (fs1 fs2 : gmap string directory) (p : path) :
  lookup_file fs1 p = lookup_file fs2 p -> get_file_hash dev fs1 p = get_file_hash dev fs2 p.
Proof. intros H. rewrite !get_file_hash_spec. by rewrite H. Qed.

Lemma hashed_same_file (dev : device) (source_dir : string)
    (fs1 fs2 : gmap string directory) (name : string) :
  lookup_file fs1 (source_dir, name) = lookup_file fs2 (source_dir, name) ->
  hashed dev source_dir fs1 name = hashed dev source_dir fs2 name.
Proof.
  intros H. unfold hashed.
  by rewrite (valid_pe_same_file dev fs1 fs2), (get_file_hash_same_file dev fs1 fs2).
Qed.

Section TallyRun.
Variable dev : device.
Variables base_dir source_dir sample_type : string.
Variable total : nat.
Variable fs0 : gmap string directory.
Hypothesis label : sample_type = "malware" \/ sample_type = "benign".
Hypothesis apart : source_dir <> dest_path base_dir sample_type.
Hypothesis dest_empty : fs0 !! dest_path base_dir sample_type = Some [].

Local Abbreviation tally' := (tally dev base_dir source_dir sample_type fs0).
Local Abbreviation reaching' := (reaching_clean dev base_dir source_dir sample_type fs0).

Lemma tally_steps (idx : nat) (names : list string) (fr : frame) :
  stable base_dir source_dir sample_type fs0 fr ->
  dest_tracks_seen dev base_dir source_dir sample_type fs0 fr ->
  reaching' (seen_hashes fr) names ->
  tally' fr (steps dev base_dir source_dir sample_type total idx names fr) names.
Proof.
  revert idx fr. induction names as [|n names IH]; intros idx fr Hst Hdest Hclean.
  - unfold tally, delta. cbv zeta. simpl omap. simpl length. simpl steps.
    split; [set_solver|]. split; [lia|]. split; [lia|]. split; [lia|].
    split; [done|]. split; done.
  - assert (H1 : tally' fr (step dev base_dir source_dir sample_type total idx n fr) [n]).
    { apply tally_step; [exact label | exact apart | exact dest_empty | exact Hst
                        | exact Hdest |].
      intros h Hh Hnew. apply (Hclean 0%nat n h); [done | done | done|].
      intros j n' Hj. lia. }
    pose proof H1 as (Hs1 & He1 & Hd1 & Hl1 & Hk1 & Hst1 & Hdest1).
    assert (H2 : tally' (step dev base_dir source_dir sample_type total idx n fr)
                   (steps dev base_dir source_dir sample_type total (S idx) names
                      (step dev base_dir source_dir sample_type total idx n fr)) names).
    { apply IH; [exact Hst1 | exact Hdest1 |].
      intros i m h Hi Hh Hnew Hfirst.
      apply (Hclean (S i) m h); [done | done | |].
      - intros Hin. apply Hnew. rewrite Hs1. set_solver.
      - intros [|j] n' Hlt Hj.
        + injection Hj as <-. intros Hn. apply Hnew. rewrite Hs1. simpl omap.
          rewrite Hn. set_solver.
        + apply (Hfirst j n'); [lia | done]. }
    destruct H2 as (Hs2 & He2 & Hd2 & Hl2 & Hk2 & Hst2 & Hdest2).
    simpl steps. unfold tally. cbv zeta.
    set (fr1 := step dev base_dir source_dir sample_type total idx n fr) in *.
    set (fr2 := steps dev base_dir source_dir sample_type total (S idx) names fr1) in *.
    rewrite (delta_trans "errors" fr fr1 fr2), (delta_trans "duplicates" fr fr1 fr2),
      (delta_trans sample_type fr fr1 fr2).
    rewrite He1, He2, Hd1, Hd2, Hl1, Hl2.
    change (n :: names) with ([n] ++ names). rewrite omap_app, !length_app.
    split; [rewrite Hs2, Hs1; clear; set_solver|].
    split; [simpl length; lia|]. split; [simpl length; lia|]. split; [lia|].
    split; [|split; [exact Hst2 | exact Hdest2]].
    intros k ? ? ?. rewrite Hk2, Hk1 by assumption. reflexivity.
Qed.

End TallyRun.

(** C9, as amended: two fresh runs (counters as [__init__] leaves them,
    empty destination) over the same files of a source directory that
    [exists()] can stat and that is not the destination, enumerated in any
    two orders, return normally with identical counters and the same set
    of digests in the destination, provided that in each run no candidate
    that reaches the copy fails to be copied and that the standard output
    accepts every line.  Candidates that are duplicates in both orders
    never reach the copy and need not be copyable. *)
Theorem C9_order_independent (dev : device) (base_dir source_dir sample_type : string)
    (s1 s2 : state) (entries1 entries2 : directory) :
  sample_type = "malware" \/ sample_type = "benign" ->
  source_dir <> dest_path base_dir sample_type ->
  prints_ok dev ->
  stat_err dev source_dir = None ->
  stats s1 = init_stats -> stats s2 = init_stats ->
  fs s1 !! dest_path base_dir sample_type = Some [] ->
  fs s2 !! dest_path base_dir sample_type = Some [] ->
  fs s1 !! source_dir = Some entries1 ->
  fs s2 !! source_dir = Some entries2 ->
  entries1 ≡ₚ entries2 ->
  NoDup (fst <$> entries1) ->
  reaching_clean dev base_dir source_dir sample_type (fs s1) ∅ (exe_files_of s1 source_dir) ->
  reaching_clean dev base_dir source_dir sample_type (fs s2) ∅ (exe_files_of s2 source_dir) ->
  let r1 := organize_samples dev base_dir source_dir sample_type s1 in
  let r2 := organize_samples dev base_dir source_dir sample_type s2 in
  r1.2 = inr tt /\ r2.2 = inr tt /\
  stats r1.1 = stats r2.1 /\
  dest_digests base_dir sample_type r1.1 = dest_digests base_dir sample_type r2.1.
Proof.
  intros Hl Hapart Hq Hstat Hst1 Hst2 Hd1 Hd2 Hsrc1 Hsrc2 Hperm Hnd Hclean Hclean2 r1 r2.
  assert (Hc : has_counters sample_type (State ∅ init_stats [])).
  { destruct Hl as [-> | ->]; repeat split; by eexists. }
  assert (Hc1 : has_counters sample_type s1) by (unfold has_counters; by rewrite Hst1).
  assert (Hc2 : has_counters sample_type s2) by (unfold has_counters; by rewrite Hst2).
  assert (Hfile : forall n, lookup_file (fs s1) (source_dir, n)
                            = lookup_file (fs s2) (source_dir, n)).
  { intros n. unfold lookup_file. simpl. rewrite Hsrc1, Hsrc2. by apply assoc_Permutation. }
  assert (Hexe : exe_files_of s1 source_dir ≡ₚ exe_files_of s2 source_dir).
  { unfold exe_files_of, glob_exe. rewrite Hsrc1, Hsrc2. by rewrite Hperm. }
  assert (Hhashed : forall n, hashed dev source_dir (fs s1) n = hashed dev source_dir (fs s2) n).
  { intros n. by apply hashed_same_file. }
  destruct (organize_samples_frames dev base_dir source_dir sample_type s1 Hc1 Hq entries1 Hstat
              Hsrc1)
    as (Hr1 & Hfs1 & Hstats1).
  destruct (organize_samples_frames dev base_dir source_dir sample_type s2 Hc2 Hq entries2 Hstat
              Hsrc2)
    as (Hr2 & Hfs2 & Hstats2).
  fold r1 in Hr1, Hfs1, Hstats1. fold r2 in Hr2, Hfs2, Hstats2.
  rewrite frame_before_steps, firstn_all in Hfs1, Hstats1 by done.
  rewrite frame_before_steps, firstn_all in Hfs2, Hstats2 by done.
  pose proof (tally_steps dev base_dir source_dir sample_type
                (length (exe_files_of s1 source_dir)) (fs s1) Hl Hapart
                Hd1 1%nat (exe_files_of s1 source_dir)
                (first_frame source_dir sample_type s1)) as T1.
  pose proof (tally_steps dev base_dir source_dir sample_type
                (length (exe_files_of s2 source_dir)) (fs s2) Hl Hapart
                Hd2 1%nat (exe_files_of s2 source_dir)
                (first_frame source_dir sample_type s2)) as T2.
  destruct T1 as (Hs1 & He1 & Hdup1 & Hlab1 & Hk1 & (_ & _ & Hcf1) & (Hdig1 & _)).
  { done. }
  { split; [|intros k f Hin]; unfold dest_digests, dest_entries in *; simpl in *;
      rewrite Hd1 in *; [done | by apply elem_of_nil in Hin]. }
  { done. }
  destruct T2 as (Hs2 & He2 & Hdup2 & Hlab2 & Hk2 & (_ & _ & Hcf2) & (Hdig2 & _)).
  { done. }
  { split; [|intros k f Hin]; unfold dest_digests, dest_entries in *; simpl in *;
      rewrite Hd2 in *; [done | by apply elem_of_nil in Hin]. }
  { done. }
  set (f1 := steps dev base_dir source_dir sample_type (length (exe_files_of s1 source_dir))
               1 (exe_files_of s1 source_dir) (first_frame source_dir sample_type s1)) in *.
  set (f2 := steps dev base_dir source_dir sample_type (length (exe_files_of s2 source_dir))
               1 (exe_files_of s2 source_dir) (first_frame source_dir sample_type s2)) in *.
  assert (Hhs : omap (hashed dev source_dir (fs s1)) (exe_files_of s1 source_dir)
                ≡ₚ omap (hashed dev source_dir (fs s2)) (exe_files_of s2 source_dir)).
  { rewrite <- Hexe.
    assert (Heq : forall l : list string,
              omap (hashed dev source_dir (fs s1)) l = omap (hashed dev source_dir (fs s2)) l).
    { induction l as [|n l IH]; [done|]. csimpl. by rewrite Hhashed, IH. }
    by rewrite Heq. }
  assert (Hseen : seen_hashes f1 = seen_hashes f2).
  { rewrite Hs1, Hs2. simpl. by rewrite Hhs. }
  assert (Hlen : length (exe_files_of s1 source_dir) = length (exe_files_of s2 source_dir))
    by by rewrite Hexe.
  assert (Hlenh : length (omap (hashed dev source_dir (fs s1)) (exe_files_of s1 source_dir))
                  = length (omap (hashed dev source_dir (fs s2)) (exe_files_of s2 source_dir)))
    by by rewrite Hhs.
  assert (Hcount : forall k, counter k (world f1) = counter k (world f2) ->
                             is_Some (stats (world f1) !! k) ->
                             is_Some (stats (world f2) !! k) ->
                             stats (world f1) !! k = stats (world f2) !! k).
  { intros k Heq [v1 Hv1] [v2 Hv2]. unfold counter in Heq. rewrite Hv1, Hv2 in *.
    simpl in Heq. by subst. }
  assert (Hinit : forall k, counter k (world (first_frame source_dir sample_type s1))
                            = counter k (world (first_frame source_dir sample_type s2))).
  { intros k. unfold counter. simpl. by rewrite Hst1, Hst2. }
  split; [done|]. split; [done|]. split.
  - rewrite Hstats1, Hstats2. apply map_eq. intros k.
    destruct Hcf1 as (Hce1 & Hcd1 & Hcl1). destruct Hcf2 as (Hce2 & Hcd2 & Hcl2).
    unfold delta in *. clearbody f1 f2.
    change (seen_hashes (first_frame source_dir sample_type s1)) with (∅ : gset string) in *.
    change (seen_hashes (first_frame source_dir sample_type s2)) with (∅ : gset string) in *.
    destruct (decide (k = "errors")) as [->|Hne].
    { apply Hcount; [|done|done]. specialize (Hinit "errors"). lia. }
    destruct (decide (k = "duplicates")) as [->|Hnd'].
    { apply Hcount; [|done|done]. specialize (Hinit "duplicates"). rewrite Hseen in *. lia. }
    destruct (decide (k = sample_type)) as [->|Hnl].
    { apply Hcount; [|done|done]. specialize (Hinit sample_type). rewrite Hseen in *. lia. }
    rewrite Hk1, Hk2 by done. simpl. by rewrite Hst1, Hst2.
  - unfold dest_digests, dest_entries in *. rewrite Hfs1, Hfs2. by rewrite Hdig1, Hdig2.
Qed.

Lemma c9_exe_1 :
  exe_files_of (fresh (c9_fs [c9_a; c9x_long; c9_c; c9_b])) "in"
  = ["a.exe"; long_name; "c.exe"; "b.exe"].
Proof. vm_compute. reflexivity. Qed.

Lemma c9_exe_2 :
  exe_files_of (fresh (c9_fs [c9_b; c9_c; c9x_long; c9_a])) "in"
  = ["b.exe"; "c.exe"; long_name; "a.exe"].
Proof. vm_compute. reflexivity. Qed.

(** The long-named file cannot be copied, but it is a duplicate in both
    orders and never reaches the copy. *)
Lemma C9_witness :
  let r1 := organize_samples name_max_dev "out" "in" "malware"
              (fresh (c9_fs [c9_a; c9x_long; c9_c; c9_b])) in
  let r2 := organize_samples name_max_dev "out" "in" "malware"
              (fresh (c9_fs [c9_b; c9_c; c9x_long; c9_a])) in
  r1.2 = inr tt /\ r2.2 = inr tt /\
  stats r1.1 = stats r2.1 /\
  dest_digests "out" "malware" r1.1 = dest_digests "out" "malware" r2.1.
Proof.
  apply (C9_order_independent name_max_dev "out" "in" "malware"
           (fresh (c9_fs [c9_a; c9x_long; c9_c; c9_b]))
           (fresh (c9_fs [c9_b; c9_c; c9x_long; c9_a]))
           [c9_a; c9x_long; c9_c; c9_b] [c9_b; c9_c; c9x_long; c9_a]).
  - left. reflexivity.
  - vm_compute. intros H. discriminate H.
  - intros l. reflexivity.
  - reflexivity.
  - reflexivity.
  - reflexivity.
  - vm_compute. reflexivity.
  - vm_compute. reflexivity.
  - vm_compute. reflexivity.
  - vm_compute. reflexivity.
  - etrans; [apply perm_swap|]. etrans; [apply perm_skip, perm_swap|].
    etrans; [apply perm_skip, perm_skip, perm_swap|].
    etrans; [apply perm_swap|]. etrans; [apply perm_skip, perm_swap|]. apply perm_swap.
  - apply (bool_decide_unpack (NoDup (fst <$> [c9_a; c9x_long; c9_c; c9_b]))).
    vm_compute. exact I.
  - unfold reaching_clean. rewrite c9_exe_1. intros i n h Hi Hh _ Hfirst.
    destruct i as [|[|[|[|i]]]]; simpl in Hi; [| | | |discriminate Hi]; injection Hi as <-.
    + revert Hh. vm_compute. intros Hh. injection Hh as <-. vm_compute. reflexivity.
    + exfalso. apply (Hfirst 0%nat "a.exe"); [lia | reflexivity|].
      rewrite <- Hh. vm_compute. reflexivity.
    + exfalso. revert Hh. vm_compute. intros Hh. discriminate Hh.
    + exfalso. apply (Hfirst 0%nat "a.exe"); [lia | reflexivity|].
      rewrite <- Hh. vm_compute. reflexivity.
  - unfold reaching_clean. rewrite c9_exe_2. intros i n h Hi Hh _ Hfirst.
    destruct i as [|[|[|[|i]]]]; simpl in Hi; [| | | |discriminate Hi]; injection Hi as <-.
    + revert Hh. vm_compute. intros Hh. injection Hh as <-. vm_compute. reflexivity.
    + exfalso. revert Hh. vm_compute. intros Hh. discriminate Hh.
    + exfalso. apply (Hfirst 0%nat "b.exe"); [lia | reflexivity|].
      rewrite <- Hh. vm_compute. reflexivity.
    + exfalso. apply (Hfirst 0%nat "b.exe"); [lia | reflexivity|].
      rewrite <- Hh. vm_compute. reflexivity.
Defined.

Lemma C9_counterexample :
  let s1 := fresh (c9_fs [c9x_long; c9_b]) in
  let s2 := fresh (c9_fs [c9_b; c9x_long]) in
  let r1 := organize_samples name_max_dev "out" "in" "malware" s1 in
  let r2 := organize_samples name_max_dev "out" "in" "malware" s2 in
  [c9x_long; c9_b] ≡ₚ [c9_b; c9x_long] /\
  NoDup (fst <$> [c9x_long; c9_b]) /\
  stats s1 = init_stats /\ stats s2 = init_stats /\
  fs s1 !! "out/original/malware" = Some [] /\ fs s2 !! "out/original/malware" = Some [] /\
  r1.2 = inr tt /\ r2.2 = inr tt /\
  stats r1.1 = <["errors" := 1]> (<["duplicates" := 1]> init_stats) /\
  stats r2.1 = <["malware" := 1]> (<["duplicates" := 1]> init_stats) /\
  stats r1.1 <> stats r2.1 /\
  dest_digests "out" "malware" r1.1 <> dest_digests "out" "malware" r2.1.
Proof.
  cbv zeta.
  split; [apply perm_swap|].
  split; [apply (bool_decide_unpack (NoDup (fst <$> [c9x_long; c9_b]))); vm_compute; exact I|].
  split; [reflexivity|]. split; [reflexivity|].
  split; [vm_compute; reflexivity|]. split; [vm_compute; reflexivity|].
  split; [vm_compute; reflexivity|]. split; [vm_compute; reflexivity|].
  assert (H1 : stats (organize_samples name_max_dev "out" "in" "malware"
                        (fresh (c9_fs [c9x_long; c9_b]))).1
               = <["errors" := 1]> (<["duplicates" := 1]> init_stats))
    by (vm_compute; reflexivity).
  assert (H2 : stats (organize_samples name_max_dev "out" "in" "malware"
                        (fresh (c9_fs [c9_b; c9x_long]))).1
               = <["malware" := 1]> (<["duplicates" := 1]> init_stats))
    by (vm_compute; reflexivity).
  split; [exact H1|]. split; [exact H2|]. split.
  - rewrite H1, H2. intros H.
    apply (f_equal (fun m : gmap string Z => m !! "malware")) in H.
    revert H. vm_compute. intros H. discriminate H.
  - assert (D1 : dest_digests "out" "malware"
                   (organize_samples name_max_dev "out" "in" "malware"
                      (fresh (c9_fs [c9x_long; c9_b]))).1 = ∅)
      by (vm_compute; reflexivity).
    rewrite D1. intros H.
    assert (Hin : SHA256.hexdigest (bytes_of "MZ-payload")
                  ∈ dest_digests "out" "malware"
                      (organize_samples name_max_dev "out" "in" "malware"
                         (fresh (c9_fs [c9_b; c9x_long]))).1).
    { unfold dest_digests.
      assert (E : dest_entries "out" "malware"
                    (organize_samples name_max_dev "out" "in" "malware"
                       (fresh (c9_fs [c9_b; c9x_long]))).1
                  = [("malware_f84b4a46a8f782c5_b.exe", mkfile "MZ-payload")])
        by (vm_compute; reflexivity).
      rewrite E. simpl. apply elem_of_union_l, elem_of_singleton. reflexivity. }
    rewrite <- H in Hin. by apply not_elem_of_empty in Hin.
Qed.

(** ** The metadata record is written in place *)

(** C8, as amended: [generate_metadata] overwrites the record in place
    and the write is not atomic.  When the record cannot be built (an
    [exists()] raises) nothing is written.  Otherwise: when the file cannot
    be opened for writing, the state is left as it was -- the prior record
    remains -- and the exception propagates; when the write fails partway,
    the exception propagates and the file holds a strict prefix of the new
    record -- a torn record, the prior one being lost; when the write
    completes, the file is the whole new record, and the metadata is
    returned unless the line that reports it cannot be printed. *)
Theorem C8_metadata_written_in_place (dev : device) (base_dir now : string) (s : state) :
  let r := generate_metadata dev base_dir now s in
  let mf := metadata_file base_dir in
  match metadata dev base_dir now s with
  | inl e => r = (s, inl e)
  | inr md =>
      let record := bytes_of (json_dumps 0 md) in
      (forall e, open_w dev (fs s) mf = Some e -> r = (s, inl (OSError e))) /\
      (forall k, open_w dev (fs s) mf = None -> write_err dev mf = Some k ->
                 (k < length record)%nat ->
                 r.2 = inl (OSError ENOSPC) /\
                 lookup_file (fs r.1) mf
                 = Some (File (take k record) (created_stat dev (fs s) mf)) /\
                 take k record <> record) /\
      (open_w dev (fs s) mf = None ->
       (forall k, write_err dev mf = Some k -> (length record <= k)%nat) ->
       lookup_file (fs r.1) mf = Some (File record (created_stat dev (fs s) mf)) /\
       match print_err dev (P_metadata_saved mf) with
       | None => r.2 = inr md
       | Some e => r.2 = inl e
       end)
  end.
Proof.
  cbv zeta. unfold generate_metadata, bind, eval.
  destruct (metadata dev base_dir now s) as [e|md]; [done|].
  unfold write_text.
  assert (Hlook : forall f, open_w dev (fs s) (metadata_file base_dir) = None ->
            lookup_file (store_file (fs s) (metadata_file base_dir) f) (metadata_file base_dir)
            = Some f).
  { intros f Ho. apply lookup_store_file. by apply (open_w_dir dev). }
  split; [intros e He; by rewrite He|]. split.
  - intros k Ho Hw Hk. rewrite Ho, Hw.
    apply Nat.ltb_lt in Hk as Hk'. rewrite Hk'. cbn [fst snd fs].
    split; [done|]. split; [by apply Hlook|].
    intros H. apply (f_equal length) in H. rewrite length_take in H. lia.
  - intros Ho Hw. rewrite Ho.
    assert (Hdone : match write_err dev (metadata_file base_dir) with
                    | Some k => (k <? length (bytes_of (json_dumps 0 md)))%nat = false
                    | None => True
                    end).
    { destruct (write_err dev (metadata_file base_dir)) as [k|]; [|done].
      apply Nat.ltb_ge. by apply Hw. }
    destruct (write_err dev (metadata_file base_dir)) as [k|]; [rewrite Hdone|];
      unfold print; destruct (print_err dev (P_metadata_saved (metadata_file base_dir)));
      cbn [fst snd fs]; (split; [by apply Hlook | done]).
Qed.

Lemma C8_witness :
  let s := fresh c8_fs in
  let r := generate_metadata no_faults "out" c8_now s in
  exists md,
    metadata no_faults "out" c8_now s = inr md /\
    r.2 = inr md /\
    lookup_file (fs r.1) (metadata_file "out") = Some (File (bytes_of (json_dumps 0 md)) 420).
Proof.
  cbv zeta.
  pose proof (C8_metadata_written_in_place no_faults "out" c8_now (fresh c8_fs)) as H.
  cbv zeta in H.
  destruct (metadata no_faults "out" c8_now (fresh c8_fs)) as [e|md] eqn:Hm.
  { exfalso. revert Hm. vm_compute. intros Hm. discriminate Hm. }
  exists md. split; [reflexivity|].
  destruct H as (_ & _ & H). destruct H as [Hfile Hret].
  - vm_compute. reflexivity.
  - intros k Hk. discriminate Hk.
  - split; [exact Hret | exact Hfile].
Defined.

(** After the failed write the file is neither the prior record nor the
    new one. *)
Lemma C8_counterexample :
  let s := fresh c8_fs in
  let r := generate_metadata c8_dev "out" c8_now s in
  exists md,
    metadata c8_dev "out" c8_now s = inr md /\
    lookup_file (fs s) (metadata_file "out") = Some (File c8_old_record 420) /\
    r.2 = inl (OSError ENOSPC) /\
    lookup_file (fs r.1) (metadata_file "out")
    = Some (File (take 20 (bytes_of (json_dumps 0 md))) 420) /\
    take 20 (bytes_of (json_dumps 0 md)) <> bytes_of (json_dumps 0 md) /\
    take 20 (bytes_of (json_dumps 0 md)) <> c8_old_record.
Proof.
  cbv zeta. eexists. split; [vm_compute; reflexivity|].
  split; [vm_compute; reflexivity|]. split; [vm_compute; reflexivity|].
  split; [vm_compute; reflexivity|].
  split; intros H; apply (f_equal length) in H; revert H; vm_compute; intros H;
    discriminate H.
Qed.

(** * Further properties of the code *)

(** ** [get_file_hash] and [is_pe_file] on readable files *)

(** X1: [get_file_hash] returns the SHA-256 hex digest (64 characters) of
    the whole content of a file that opens and reads to its end, whatever
    its length relative to the 4096-byte chunk; for any other file it
    raises an [OSError]. *)
Theorem get_file_hash_whole_content (dev : device) (fs0 : gmap string directory) (p : path) :
  match content dev fs0 p with
  | Some c =>
      get_file_hash dev fs0 p = inr (SHA256.hexdigest c) /\
      String.length (SHA256.hexdigest c) = 64%nat
  | None => exists errno, get_file_hash dev fs0 p = inl (OSError errno)
  end.
Proof.
  rewrite get_file_hash_spec. unfold content.
  destruct (open_rd_err dev p) as [e|]; [by eexists|].
  destruct (lookup_file fs0 p) as [f|]; [|by eexists].
  destruct (read_err dev p) as [k|].
  - destruct (k <? length (f_data f))%nat; [by eexists|].
    split; [done | apply hexdigest_length].
  - split; [done | apply hexdigest_length].
Qed.

Example get_file_hash_two_chunks :
  get_file_hash no_faults x_big_fs ("in", "big.exe")
  = inr "c526c6222044dab5674de9c4ac7f4566ebb5e4d8bf9d8ea34c9cc8a7cc3c869c".
Proof. vm_compute. reflexivity. Qed.

(** X2: on a file that opens and reads to its end, [is_pe_file] returns
    whether the content starts with the two bytes [MZ]; a file of fewer than
    two bytes (an empty file in particular) is not valid. *)
Theorem is_pe_file_magic (dev : device) (fs0 : gmap string directory) (p : path)
    (c : list byte) :
  content dev fs0 p = Some c ->
  is_pe_file dev fs0 p = inr (bool_decide (take 2 c = MZ)) /\
  ((length c < 2)%nat -> is_pe_file dev fs0 p = inr false).
Proof.
  intros Hc. rewrite is_pe_file_spec, (content_valid _ _ _ _ Hc). split; [done|].
  intros Hlen. f_equal. apply bool_decide_eq_false_2. intros Hmz.
  apply (f_equal length) in Hmz. rewrite length_take in Hmz.
  change (length MZ) with 2%nat in Hmz. lia.
Qed.

Lemma is_pe_file_magic_witness :
  is_pe_file no_faults x_short_fs ("in", "empty.exe") = inr false /\
  is_pe_file no_faults x_short_fs ("in", "m.exe") = inr false /\
  is_pe_file no_faults x_short_fs ("in", "mz.exe") = inr true.
Proof.
  split; [|split].
  - apply (is_pe_file_magic no_faults x_short_fs ("in", "empty.exe") []); [reflexivity|].
    simpl. lia.
  - apply (is_pe_file_magic no_faults x_short_fs ("in", "m.exe") (bytes_of "M"));
      [reflexivity|]. simpl. lia.
  - apply (is_pe_file_magic no_faults x_short_fs ("in", "mz.exe") (bytes_of "MZ")).
    reflexivity.
Defined.

(** ** Destination names *)

Lemma string_app_assoc (a b c : string) : (a +:+ b) +:+ c = a +:+ (b +:+ c).
Proof.
  induction a as [|x a IH]; [done|].
  change (String x ((a +:+ b) +:+ c) = String x (a +:+ (b +:+ c))). by rewrite IH.
Qed.

Lemma ends_with_app (suffix a b : string) :
  ends_with suffix b = true -> ends_with suffix (a +:+ b) = true.
Proof.
  unfold ends_with. intros H. apply andb_prop in H as [Hle Heq].
  apply Nat.leb_le in Hle. rewrite string_app_length.
  apply andb_true_intro. split; [apply Nat.leb_le; lia|].
  replace (String.length a + String.length b - String.length suffix)%nat
    with (String.length a + (String.length b - String.length suffix))%nat by lia.
  by rewrite substring_app_skip.
Qed.

(** X3: the destination name determines the candidate: two candidates
    of one label get the same destination name only if they have the same
    original name and the same sixteen-character digest prefix; and the
    destination name of a [.exe] candidate still ends in [.exe]. *)
Theorem new_name_determines_candidate (sample_type name name' : string) (c c' : list byte) :
  (new_name sample_type (SHA256.hexdigest c) name
   = new_name sample_type (SHA256.hexdigest c') name' ->
   name = name' /\
   String.substring 0 16 (SHA256.hexdigest c) = String.substring 0 16 (SHA256.hexdigest c')) /\
  (ends_with ".exe" name = true ->
   ends_with ".exe" (new_name sample_type (SHA256.hexdigest c) name) = true).
Proof.
  split.
  - unfold new_name. intros H. apply (inj (String.app sample_type)) in H.
    apply (inj (String.app "_")) in H.
    apply string_app_inj_len in H as [H1 H2]; [|by rewrite !digest16_length].
    split; [|done]. by apply (inj (String.app "_")) in H2.
  - intros H. unfold new_name. do 4 apply ends_with_app. exact H.
Qed.

Lemma new_name_determines_candidate_witness :
  ends_with ".exe" (new_name "malware" (SHA256.hexdigest (bytes_of "MZ-payload")) "a.exe")
  = true.
Proof.
  apply (proj2 (new_name_determines_candidate "malware" "a.exe" "a.exe"
                  (bytes_of "MZ-payload") (bytes_of "MZ-payload"))).
  reflexivity.
Defined.

(** ** Nothing to organize *)

(** X4: when the source directory is missing or holds no [.exe] entry,
    [organize_samples] leaves the file system and every counter as they
    were, whatever the label and whatever [exists()] and [print] do; and
    when [exists()] answers and the standard output accepts every line, it
    returns normally after printing its notice: that the source directory
    was not found, or that it holds no [.exe] file. *)
Theorem organize_samples_nothing_to_do (dev : device)
    (base_dir source_dir sample_type : string) (s : state) :
  exe_files_of s source_dir = [] ->
  let r := organize_samples dev base_dir source_dir sample_type s in
  fs r.1 = fs s /\ stats r.1 = stats s /\
  (forall present, path_exists dev (fs s) source_dir = inr present -> prints_ok dev ->
     r.2 = inr tt /\
     out r.1 = out s ++
       if present then [P_organizing sample_type source_dir; P_no_exe_files source_dir]
       else [P_source_not_found source_dir]).
Proof.
  intros H. cbv zeta. split; [|split].
  - unfold organize_samples, bind, eval, print.
    destruct (path_exists dev (fs s) source_dir) as [e|[]]; cbn [negb]; [done| |].
    + destruct (print_err dev (P_organizing sample_type source_dir)); [done|].
      unfold exe_files_of in *. cbn [fs]. rewrite H.
      by destruct (print_err dev (P_no_exe_files source_dir)).
    + by destruct (print_err dev (P_source_not_found source_dir)).
  - unfold organize_samples, bind, eval, print.
    destruct (path_exists dev (fs s) source_dir) as [e|[]]; cbn [negb]; [done| |].
    + destruct (print_err dev (P_organizing sample_type source_dir)); [done|].
      unfold exe_files_of in *. cbn [fs]. rewrite H.
      by destruct (print_err dev (P_no_exe_files source_dir)).
    + by destruct (print_err dev (P_source_not_found source_dir)).
  - intros present Hp Hq.
    rewrite (organize_samples_no_candidates dev base_dir source_dir sample_type s Hq
               present H Hp).
    destruct present; [|done]. cbn [fst snd out say]. by rewrite <- app_assoc.
Qed.

Lemma organize_samples_nothing_to_do_witness :
  let r := organize_samples no_faults "out" "nowhere" "malware" (fresh c1_fs) in
  r.2 = inr tt /\ fs r.1 = c1_fs /\ stats r.1 = init_stats /\
  out r.1 = [P_source_not_found "nowhere"].
Proof.
  destruct (organize_samples_nothing_to_do no_faults "out" "nowhere" "malware" (fresh c1_fs))
    as (Hfs & Hst & Hret).
  - reflexivity.
  - destruct (Hret false) as [Hr Hout]; [vm_compute; reflexivity | intros l; reflexivity|].
    split; [exact Hr|]. split; [exact Hfs|]. split; [exact Hst | exact Hout].
Defined.

(** ** A label without a counter *)

(** X5: with a label the organizer has no counter for, a valid new
    candidate is still copied to the destination and reported as copied;
    the [KeyError] of the counter update is then caught, reported, and
    counted as an error, and the iteration returns normally -- provided
    the standard output accepts the two lines. *)
Theorem unknown_label_copied_then_error (dev : device)
    (base_dir source_dir sample_type : string) (total idx : nat) (name h : string)
    (f : file) (fr : frame) :
  stats (world fr) !! sample_type = None ->
  is_Some (stats (world fr) !! "errors") ->
  is_pe_file dev (fs (world fr)) (source_dir, name) = inr true ->
  get_file_hash dev (fs (world fr)) (source_dir, name) = inr h ->
  h ∉ seen_hashes fr ->
  lookup_file (fs (world fr)) (source_dir, name) = Some f ->
  copy_clean dev (fs (world fr)) (source_dir, name) (dest_file base_dir sample_type h name)
  = true ->
  print_err dev (P_copied idx total (new_name sample_type h name)) = None ->
  print_err dev (P_error idx total name (KeyError sample_type)) = None ->
  let r := process_file dev base_dir source_dir sample_type total idx name fr in
  r.2 = inr tt /\
  lookup_file (fs (world r.1)) (dest_file base_dir sample_type h name)
  = Some (File (f_data f) (f_stat f)) /\
  counter "errors" (world r.1) = counter "errors" (world fr) + 1 /\
  stats (world r.1) !! sample_type = None /\
  out (world r.1) = out (world fr) ++
    [P_copied idx total (new_name sample_type h name);
     P_error idx total name (KeyError sample_type)] /\
  seen_hashes r.1 = {[h]} ∪ seen_hashes fr.
Proof.
  intros Hl [n Hn] Hv Hh Hnew Hf Hclean Hp1 Hp2.
  assert (Hne : "errors" <> sample_type) by (intros <-; congruence).
  unfold process_file, try_except, process_body, bind, eval, modify, in_world.
  rewrite Hv. simpl. rewrite Hh. simpl. rewrite bool_decide_eq_false_2 by exact Hnew. simpl.
  fold (dest_file base_dir sample_type h name).
  rewrite (copy2_clean dev _ _ _ f Hclean Hf). simpl.
  unfold print. rewrite Hp1. simpl.
  unfold stats_incr. simpl. rewrite Hl. simpl. rewrite Hp2. simpl. rewrite Hn. simpl.
  split; [done|]. split.
  { apply (lookup_store_file _ (dest_file base_dir sample_type h name)).
    by apply (copy_clean_dir dev _ (source_dir, name)). }
  unfold counter. simpl. rewrite lookup_insert_eq, Hn, lookup_insert_ne, Hl by done.
  simpl. rewrite <- app_assoc. done.
Qed.

Lemma unknown_label_copied_then_error_witness :
  let r := process_file no_faults "out" "in" "other" 1 1 "a.exe"
             (Frame (fresh x_label_fs) ∅) in
  r.2 = inr tt /\
  lookup_file (fs (world r.1)) ("out/original/other", "other_f84b4a46a8f782c5_a.exe")
  = Some (mkfile "MZ-payload") /\
  stats (world r.1) = <["errors" := 1]> init_stats /\
  out (world r.1) = [P_copied 1 1 "other_f84b4a46a8f782c5_a.exe";
                     P_error 1 1 "a.exe" (KeyError "other")].
Proof.
  destruct (unknown_label_copied_then_error no_faults "out" "in" "other" 1 1 "a.exe"
              "f84b4a46a8f782c5e79761e1963e2800692e8d9ebbe67d071accff41c3c73782"
              (mkfile "MZ-payload") (Frame (fresh x_label_fs) ∅)) as (Hr & _).
  - reflexivity.
  - by eexists.
  - reflexivity.
  - vm_compute. reflexivity.
  - set_solver.
  - reflexivity.
  - vm_compute. reflexivity.
  - reflexivity.
  - reflexivity.
  - split; [exact Hr|]. split; [vm_compute; reflexivity|].
    split; vm_compute; reflexivity.
Defined.

(** ** [generate_metadata] touches the record only *)

(** X6: whether or not it returns normally, [generate_metadata] leaves
    the counters unchanged, creates or removes no directory, and changes no
    file other than the metadata record. *)
Theorem generate_metadata_touches_record_only (dev : device) (base_dir now : string)
    (s : state) :
  let r := generate_metadata dev base_dir now s in
  stats r.1 = stats s /\
  (forall d, is_Some (fs r.1 !! d) <-> is_Some (fs s !! d)) /\
  (forall p, p <> metadata_file base_dir -> lookup_file (fs r.1) p = lookup_file (fs s) p).
Proof.
  cbv zeta. unfold generate_metadata, bind, eval, write_text, print, ret.
  destruct (metadata dev base_dir now s) as [e|md]; [done|].
  destruct (open_w dev (fs s) (metadata_file base_dir)); [done|]. cbv zeta.
  destruct (print_err dev (P_metadata_saved (metadata_file base_dir)));
    (destruct (write_err dev (metadata_file base_dir)) as [k|];
     [destruct (k <? _)%nat|]); cbn [fst snd fs stats];
    (split; [done|]; split;
       [intros d; apply store_file_is_Some | intros p Hp; by apply lookup_store_file_ne]).
Qed.

(** ** [setup_directories] *)

Lemma adds_empty_dirs_refl (fs0 : gmap string directory) : adds_empty_dirs fs0 fs0.
Proof. split; intros d e H; [done | by left]. Qed.

Lemma adds_empty_dirs_trans (fs0 fs1 fs2 : gmap string directory) :
  adds_empty_dirs fs0 fs1 -> adds_empty_dirs fs1 fs2 -> adds_empty_dirs fs0 fs2.
Proof.
  intros [H1 H2] [H3 H4]. split.
  - intros d e H. by apply H3, H1.
  - intros d e H. destruct (H4 d e H) as [H'| ->]; [by apply H2 | by right].
Qed.

Lemma mkdir_mkdir_like (dev : device) (d : string) : mkdir_like (mkdir dev d).
Proof.
  intros s. unfold mkdir. destruct (mkdir_err dev d) as [e|]; simpl.
  { repeat split; try done; try apply adds_empty_dirs_refl.
    intros e' [= <-]. by eexists. }
  destruct (fs s !! d) eqn:Hd; simpl.
  { repeat split; try done; apply adds_empty_dirs_refl. }
  split; [done|]. split; [done|]. split; [|done]. split.
  - intros d' e H. rewrite lookup_insert_ne; [done|]. intros <-. congruence.
  - intros d' e. destruct (decide (d = d')) as [<-|Hne].
    + rewrite lookup_insert_eq. intros [= <-]. by right.
    + rewrite lookup_insert_ne by done. by left.
Qed.

Lemma bind_mkdir_like (m k : M state unit) :
  mkdir_like m -> mkdir_like k -> mkdir_like (m ;;; k).
Proof.
  intros Hm Hk s. unfold bind. destruct (Hm s) as (H1 & H2 & H3 & H4).
  destruct (m s) as [s1 [e|[]]]; simpl in *; [done|].
  destruct (Hk s1) as (K1 & K2 & K3 & K4).
  split; [congruence|]. split; [congruence|]. split; [|done].
  by eapply adds_empty_dirs_trans.
Qed.

Lemma mkdir_parents_mkdir_like (dev : device) (components : list string) (d : string) :
  mkdir_like (mkdir_parents dev d components).
Proof.
  revert d. induction components as [|c cs IH]; intros d; simpl.
  - apply mkdir_mkdir_like.
  - apply bind_mkdir_like; [apply mkdir_mkdir_like | apply IH].
Qed.

Lemma for_each_mkdir_like (dev : device) (base_dir : string) (l : list (list string)) :
  mkdir_like (for_each (mkdir_parents dev base_dir) l).
Proof.
  induction l as [|x l IH]; simpl.
  - intros s. repeat split; try done; apply adds_empty_dirs_refl.
  - apply bind_mkdir_like; [apply mkdir_parents_mkdir_like | apply IH].
Qed.

Lemma setup_directories_eq (dev : device) (base_dir : string) (s : state) :
  print_err dev P_creating_dirs = None -> print_err dev P_dirs_created = None ->
  setup_directories dev base_dir s =
  match for_each (mkdir_parents dev base_dir) dataset_dirs (say P_creating_dirs s) with
  | (s1, inl e) => (s1, inl e)
  | (s1, inr _) => (say P_dirs_created s1, inr tt)
  end.
Proof.
  intros H1 H2. unfold setup_directories, bind.
  rewrite (print_say dev P_creating_dirs s H1).
  destruct (for_each (mkdir_parents dev base_dir) dataset_dirs (say P_creating_dirs s))
    as [s1 [e|[]]]; [done|].
  by rewrite (print_say dev P_dirs_created s1 H2).
Qed.

(** X7: whatever [mkdir] faults occur and whatever the standard output
    accepts, [setup_directories] keeps every directory that exists with
    its entries, adds only empty directories, leaves the counters unchanged
    and raises nothing but an [OSError] of [mkdir] or the exception of a
    [print] of one of its two lines. *)
Theorem setup_directories_only_adds_empty_dirs (dev : device) (base_dir : string)
    (s : state) :
  let r := setup_directories dev base_dir s in
  stats r.1 = stats s /\
  (forall d entries, fs s !! d = Some entries -> fs r.1 !! d = Some entries) /\
  (forall d entries, fs r.1 !! d = Some entries -> fs s !! d = Some entries \/ entries = []) /\
  (forall e, r.2 = inl e ->
     (exists errno, e = OSError errno) \/
     print_err dev P_creating_dirs = Some e \/ print_err dev P_dirs_created = Some e).
Proof.
  cbv zeta. unfold setup_directories, bind, print.
  destruct (print_err dev P_creating_dirs) as [e0|] eqn:Hp1.
  { cbn [fst snd]. split; [done|]. split; [done|]. split; [intros d entries H; by left|].
    intros e [= <-]. right. by left. }
  destruct (for_each_mkdir_like dev base_dir dataset_dirs (say P_creating_dirs s))
    as (H1 & H2 & [H3 H3'] & H4).
  fold (say P_creating_dirs s).
  destruct (for_each (mkdir_parents dev base_dir) dataset_dirs (say P_creating_dirs s))
    as [s1 [e|[]]]; cbn [fst snd] in *.
  { split; [done|]. split; [done|]. split; [done|]. intros e' He'. left. by apply H4. }
  destruct (print_err dev P_dirs_created) as [e0|] eqn:Hp2; cbn [fst snd fs stats say].
  - split; [done|]. split; [done|]. split; [done|]. intros e [= <-]. right. by right.
  - split; [done|]. split; [done|]. split; done.
Qed.

Lemma join_path_cons (d c : string) (cs : list string) :
  join_path d (c :: cs) = join_path (d +:+ "/" +:+ c) cs.
Proof. done. Qed.

(** Without faults [mkdir_parents] returns normally and the directory
    and its ancestors below [d] exist. *)
Lemma mkdir_parents_creates (dev : device) (components : list string) (d : string)
    (s : state) :
  (forall d', mkdir_err dev d' = None) ->
  (mkdir_parents dev d components s).2 = inr tt /\
  forall k, is_Some (fs (mkdir_parents dev d components s).1 !! join_path d (take k components)).
Proof.
  intros Hdev. revert d s. induction components as [|c cs IH]; intros d s.
  - simpl. unfold mkdir. rewrite Hdev.
    destruct (fs s !! d) eqn:Hd; simpl; (split; [done|]); intros k; rewrite take_nil; simpl.
    + by rewrite Hd.
    + by rewrite lookup_insert_eq.
  - change (mkdir_parents dev d (c :: cs))
      with (mkdir dev d ;;; mkdir_parents dev (d +:+ "/" +:+ c) cs).
    unfold bind.
    assert (Hm : (mkdir dev d s).2 = inr tt /\ is_Some (fs (mkdir dev d s).1 !! d)).
    { unfold mkdir. rewrite Hdev. destruct (fs s !! d) eqn:Hd; simpl.
      - by rewrite Hd.
      - by rewrite lookup_insert_eq. }
    destruct Hm as [Hm1 Hm2]. destruct (mkdir dev d s) as [s1 [e|[]]]; simpl in *; [done|].
    destruct (IH (d +:+ "/" +:+ c) s1) as [I1 I2]. split; [done|].
    intros [|k]; simpl.
    + destruct Hm2 as [e He].
      destruct (mkdir_parents_mkdir_like dev cs (d +:+ "/" +:+ c) s1) as (_ & _ & [Hk _] & _).
      rewrite (Hk _ _ He). by eexists.
    + apply I2.
Qed.

Lemma for_each_creates (dev : device) (base_dir : string) (l : list (list string))
    (s : state) :
  (forall d', mkdir_err dev d' = None) ->
  (for_each (mkdir_parents dev base_dir) l s).2 = inr tt /\
  forall components k, components ∈ l ->
    is_Some (fs (for_each (mkdir_parents dev base_dir) l s).1
             !! join_path base_dir (take k components)).
Proof.
  intros Hdev. revert s. induction l as [|x l IH]; intros s.
  - simpl. split; [done|]. intros c k Hc. by apply elem_of_nil in Hc.
  - change (for_each (mkdir_parents dev base_dir) (x :: l))
      with (mkdir_parents dev base_dir x ;;; for_each (mkdir_parents dev base_dir) l).
    unfold bind.
    destruct (mkdir_parents_creates dev x base_dir s Hdev) as [H1 H2].
    destruct (mkdir_parents dev base_dir x s) as [s1 [e|[]]]; simpl in *; [done|].
    destruct (IH s1) as [I1 I2]. split; [done|].
    intros c k Hc. apply elem_of_cons in Hc as [->|Hc]; [|by apply I2].
    destruct (H2 k) as [e He].
    destruct (for_each_mkdir_like dev base_dir l s1) as (_ & _ & [Hk _] & _).
    rewrite (Hk _ _ He). by eexists.
Qed.

(** X8: when no [mkdir] fails and the standard output accepts the two
    lines, [setup_directories] returns normally and afterwards each of the
    ten dataset directories exists, together with its ancestors below the
    base directory; in particular the two destination directories and the
    directory of the metadata record. *)
Theorem setup_directories_creates (dev : device) (base_dir : string) (s : state) :
  (forall d, mkdir_err dev d = None) ->
  print_err dev P_creating_dirs = None -> print_err dev P_dirs_created = None ->
  let r := setup_directories dev base_dir s in
  r.2 = inr tt /\
  (forall components k, components ∈ dataset_dirs ->
     is_Some (fs r.1 !! join_path base_dir (take k components))) /\
  is_Some (fs r.1 !! dest_path base_dir "malware") /\
  is_Some (fs r.1 !! dest_path base_dir "benign") /\
  is_Some (fs r.1 !! (metadata_file base_dir).1) /\
  out r.1 = out s ++ [P_creating_dirs; P_dirs_created].
Proof.
  intros Hdev Hp1 Hp2. cbv zeta. rewrite setup_directories_eq by done.
  destruct (for_each_creates dev base_dir dataset_dirs (say P_creating_dirs s) Hdev)
    as [H1 H2].
  destruct (for_each_mkdir_like dev base_dir dataset_dirs (say P_creating_dirs s))
    as (_ & Hout & _).
  destruct (for_each (mkdir_parents dev base_dir) dataset_dirs (say P_creating_dirs s))
    as [s1 [e|[]]]; simpl in *; [done|].
  split; [done|]. split; [exact H2|].
  assert (Hj : forall cs, cs ∈ dataset_dirs -> is_Some (fs s1 !! join_path base_dir cs)).
  { intros cs Hcs. specialize (H2 cs (length cs) Hcs). by rewrite firstn_all in H2. }
  split.
  { replace (dest_path base_dir "malware") with (join_path base_dir ["original"; "malware"]).
    - apply Hj. unfold dataset_dirs. set_solver.
    - unfold join_path, dest_path. simpl. by rewrite !string_app_assoc. }
  split.
  { replace (dest_path base_dir "benign") with (join_path base_dir ["original"; "benign"]).
    - apply Hj. unfold dataset_dirs. set_solver.
    - unfold join_path, dest_path. simpl. by rewrite !string_app_assoc. }
  split.
  { apply (Hj ["metadata"]). unfold dataset_dirs. set_solver. }
  rewrite Hout. unfold say. simpl. by rewrite <- app_assoc.
Qed.

Lemma setup_directories_creates_witness :
  let r := setup_directories no_faults "out" (fresh ∅) in
  r.2 = inr tt /\
  fs r.1 !! "out/packed/upx_ultra/benign" = Some [] /\
  fs r.1 !! "out/packed" = Some [] /\
  is_Some (fs r.1 !! dest_path "out" "malware").
Proof.
  destruct (setup_directories_creates no_faults "out" (fresh ∅)) as (H1 & H2 & H3 & _).
  - reflexivity.
  - reflexivity.
  - reflexivity.
  - split; [exact H1|]. split; [vm_compute; reflexivity|].
    split; [vm_compute; reflexivity | exact H3].
Defined.

Lemma mkdir_parents_exists (dev : device) (components : list string) (d : string)
    (s : state) :
  (forall d', mkdir_err dev d' = None) ->
  (forall k, is_Some (fs s !! join_path d (take k components))) ->
  mkdir_parents dev d components s = (s, inr tt).
Proof.
  intros Hdev. revert d. induction components as [|c cs IH]; intros d H.
  - simpl. unfold mkdir. rewrite Hdev. destruct (H 0%nat) as [e He]. simpl in He.
    by rewrite He.
  - change (mkdir_parents dev d (c :: cs))
      with (mkdir dev d ;;; mkdir_parents dev (d +:+ "/" +:+ c) cs).
    unfold bind, mkdir at 1. rewrite Hdev. destruct (H 0%nat) as [e He]. simpl in He.
    rewrite He. apply IH. intros k. apply (H (S k)).
Qed.

Lemma for_each_exists (dev : device) (base_dir : string) (l : list (list string))
    (s : state) :
  (forall d', mkdir_err dev d' = None) ->
  (forall components k, components ∈ l ->
     is_Some (fs s !! join_path base_dir (take k components))) ->
  for_each (mkdir_parents dev base_dir) l s = (s, inr tt).
Proof.
  intros Hdev. induction l as [|x l IH]; intros H; [done|].
  change (for_each (mkdir_parents dev base_dir) (x :: l))
    with (mkdir_parents dev base_dir x ;;; for_each (mkdir_parents dev base_dir) l).
  unfold bind. rewrite mkdir_parents_exists; [|done|].
  - apply IH. intros c k Hc. apply H. by apply elem_of_cons; right.
  - intros k. apply H. by apply elem_of_cons; left.
Qed.

(** X9: [setup_directories] is idempotent on the file system: when no
    [mkdir] fails and the standard output accepts the two lines, running
    it a second time changes no directory ([exist_ok=True]). *)
Theorem setup_directories_idempotent (dev : device) (base_dir : string) (s : state) :
  (forall d, mkdir_err dev d = None) ->
  print_err dev P_creating_dirs = None -> print_err dev P_dirs_created = None ->
  let s1 := (setup_directories dev base_dir s).1 in
  let r := setup_directories dev base_dir s1 in
  r.2 = inr tt /\ fs r.1 = fs s1 /\ stats r.1 = stats s.
Proof.
  intros Hdev Hp1 Hp2. cbv zeta.
  assert (Hex : forall components k, components ∈ dataset_dirs ->
            is_Some (fs (setup_directories dev base_dir s).1
                     !! join_path base_dir (take k components))).
  { rewrite setup_directories_eq by done.
    destruct (for_each_creates dev base_dir dataset_dirs (say P_creating_dirs s) Hdev)
      as [H1 H2].
    destruct (for_each (mkdir_parents dev base_dir) dataset_dirs (say P_creating_dirs s))
      as [s1 [e|[]]]; simpl in *; [done|]. exact H2. }
  assert (Hst : stats (setup_directories dev base_dir s).1 = stats s).
  { rewrite setup_directories_eq by done.
    destruct (for_each_mkdir_like dev base_dir dataset_dirs (say P_creating_dirs s))
      as (H1 & _).
    destruct (for_each (mkdir_parents dev base_dir) dataset_dirs (say P_creating_dirs s))
      as [s1 [e|[]]]; simpl in *; done. }
  revert Hex Hst. generalize (setup_directories dev base_dir s).1. intros s1 Hex Hst.
  rewrite setup_directories_eq by done.
  rewrite for_each_exists; [done|done|exact Hex].
Qed.

Lemma setup_directories_idempotent_witness :
  let s1 := (setup_directories no_faults "out" (fresh c1_fs)).1 in
  let r := setup_directories no_faults "out" s1 in
  r.2 = inr tt /\ fs r.1 = fs s1 /\ stats r.1 = init_stats.
Proof.
  apply (setup_directories_idempotent no_faults "out" (fresh c1_fs)); reflexivity.
Defined.

(** ** Counting in [organize_samples] *)

(** X10: a call of [organize_samples] changes no counter other than
    [errors], [duplicates] and the one of its label, on any device; and
    when [exists()] can stat the source directory and the standard output
    accepts every line, it counts every [.exe] candidate of the source
    directory exactly once: the three counters never decrease and their
    increases add up to the number of candidates. *)
Theorem organize_samples_counts_each_candidate (dev : device)
    (base_dir source_dir sample_type : string) (s : state) :
  sample_type = "malware" \/ sample_type = "benign" ->
  has_counters sample_type s ->
  let s' := (organize_samples dev base_dir source_dir sample_type s).1 in
  (forall k, k <> "errors" -> k <> "duplicates" -> k <> sample_type ->
             stats s' !! k = stats s !! k) /\
  (prints_ok dev -> stat_err dev source_dir = None ->
   (counter "errors" s' - counter "errors" s)
   + (counter "duplicates" s' - counter "duplicates" s)
   + (counter sample_type s' - counter sample_type s)
   = Z.of_nat (length (exe_files_of s source_dir)) /\
   counter "errors" s <= counter "errors" s' /\
   counter "duplicates" s <= counter "duplicates" s' /\
   counter sample_type s <= counter sample_type s').
Proof.
  intros Hl Hc. cbv zeta. split.
  - intros k. apply organize_samples_other_counter.
  - intros Hq Hstat. by apply organize_samples_count_sum.
Qed.

Lemma organize_samples_counts_each_candidate_witness :
  let s' := (organize_samples c5_dev "out" "in" "malware" (fresh c5_fs)).1 in
  (counter "errors" s' - 0) + (counter "duplicates" s' - 0) + (counter "malware" s' - 0)
  = 3.
Proof.
  destruct (organize_samples_counts_each_candidate c5_dev "out" "in" "malware" (fresh c5_fs))
    as (_ & H).
  - by left.
  - apply init_has_counters. by left.
  - destruct H as (H & _); [intros l; reflexivity | reflexivity|]. exact H.
Defined.

(** ** What [organize_samples] writes *)







(** ** The whole run *)

Lemma organize_samples_returns (dev : device) (base_dir source_dir sample_type : string)
    (s : state) :
  has_counters sample_type s -> prints_ok dev -> stat_err dev source_dir = None ->
  (organize_samples dev base_dir source_dir sample_type s).2 = inr tt.
Proof.
  intros Hc Hq Hstat.
  by destruct (organize_samples_last_frame dev base_dir source_dir sample_type s Hc Hq Hstat).
Qed.

Lemma all_counters_init (files : gmap string directory) (lines : list line) :
  all_counters (State files init_stats lines).
Proof. split; apply init_has_counters; [by left | by right]. Qed.

(** The optional call of [main] for one label. *)
Lemma optional_organize_samples (dev : device) (base_dir sample_type : string)
    (o : option string) (s : state) :
  sample_type = "malware" \/ sample_type = "benign" ->
  all_counters s -> prints_ok dev -> (forall d, stat_err dev d = None) ->
  let r := optional_call dev base_dir sample_type o s in
  r.2 = inr tt /\ all_counters r.1 /\
  (forall d, is_Some (fs r.1 !! d) <-> is_Some (fs s !! d)) /\
  (forall d, d <> dest_path base_dir sample_type -> fs r.1 !! d = fs s !! d).
Proof.
  intros Hl [Hm Hb] Hq Hstat. cbv zeta.
  assert (Hc : has_counters sample_type s) by by destruct Hl as [-> | ->].
  destruct o as [d|]; [|done]. unfold optional_call.
  split; [by apply organize_samples_returns|]. split; [|split].
  - destruct Hm as (H1 & H2 & H3). destruct Hb as (_ & _ & H4).
    repeat split; by apply organize_samples_keeps_key.
  - intros d'. by apply organize_samples_is_Some.
  - intros d' Hd'. by apply organize_samples_fs_other.
Qed.

Lemma metadata_dir_not_dest (base_dir sample_type : string) :
  dest_path base_dir sample_type <> (metadata_file base_dir).1.
Proof.
  unfold dest_path, metadata_file. simpl. intros H.
  apply (inj (String.app base_dir)) in H. discriminate H.
Qed.

(** The dataset directories include the two destinations and the
    directory of the record. *)
Lemma dataset_dirs_dests (base_dir : string) (fs1 : gmap string directory) :
  (forall components k, components ∈ dataset_dirs ->
     is_Some (fs1 !! join_path base_dir (take k components))) ->
  is_Some (fs1 !! dest_path base_dir "malware") /\
  is_Some (fs1 !! dest_path base_dir "benign") /\
  is_Some (fs1 !! (metadata_file base_dir).1).
Proof.
  intros H2.
  assert (Hj : forall cs, cs ∈ dataset_dirs -> is_Some (fs1 !! join_path base_dir cs)).
  { intros cs Hcs. specialize (H2 cs (length cs) Hcs). by rewrite firstn_all in H2. }
  split; [|split].
  - replace (dest_path base_dir "malware") with (join_path base_dir ["original"; "malware"]).
    + apply Hj. unfold dataset_dirs. set_solver.
    + unfold join_path, dest_path. simpl. by rewrite !string_app_assoc.
  - replace (dest_path base_dir "benign") with (join_path base_dir ["original"; "benign"]).
    + apply Hj. unfold dataset_dirs. set_solver.
    + unfold join_path, dest_path. simpl. by rewrite !string_app_assoc.
  - apply (Hj ["metadata"]). unfold dataset_dirs. set_solver.
Qed.

Lemma adds_empty_dirs_lookup_file (fs0 fs1 : gmap string directory) (p : path) :
  adds_empty_dirs fs0 fs1 -> lookup_file fs1 p = lookup_file fs0 p.
Proof.
  intros [H1 H2]. unfold lookup_file.
  destruct (fs0 !! p.1) as [e|] eqn:Hd; [by rewrite (H1 _ _ Hd)|].
  destruct (fs1 !! p.1) as [e1|] eqn:Hd1; [|done].
  destruct (H2 _ _ Hd1) as [H | ->]; [congruence | done].
Qed.

(** A file that is absent, or that its owner may write, in a directory
    that exists, opens for writing. *)
Lemma open_w_writable (dev : device) (fs0 : gmap string directory) (p : path) :
  open_wr_err dev p = None -> is_Some (fs0 !! p.1) ->
  (forall g, lookup_file fs0 p = Some g -> privileged dev || owner_writable (f_stat g) = true) ->
  open_w dev fs0 p = None.
Proof.
  intros Ho Hd Hg. unfold open_w. rewrite Ho, bool_decide_eq_true_2 by done.
  destruct (lookup_file fs0 p) as [g|]; [|done]. by rewrite (Hg g).
Qed.

(** With both destinations in place and an [exists()] that answers, the
    record is determined by the counters and the two destinations. *)
Lemma metadata_ext (dev : device) (base_dir now : string) (s s' : state) :
  (forall d, stat_err dev d = None) ->
  stats s' = stats s ->
  fs s' !! dest_path base_dir "malware" = fs s !! dest_path base_dir "malware" ->
  fs s' !! dest_path base_dir "benign" = fs s !! dest_path base_dir "benign" ->
  is_Some (fs s !! dest_path base_dir "malware") ->
  is_Some (fs s !! dest_path base_dir "benign") ->
  metadata dev base_dir now s' = metadata dev base_dir now s /\
  exists md, metadata dev base_dir now s = inr md.
Proof.
  intros Hstat Hst Hm Hb Hsm Hsb.
  unfold metadata, count_item, path_exists, exe_files_of. rewrite !Hstat, Hst, Hm, Hb.
  rewrite !bool_decide_eq_true_2 by done. cbn [orb]. split; [done | by eexists].
Qed.

Lemma generate_metadata_completes (dev : device) (base_dir now : string) (s : state) :
  (forall d, stat_err dev d = None) ->
  print_err dev (P_metadata_saved (metadata_file base_dir)) = None ->
  open_w dev (fs s) (metadata_file base_dir) = None ->
  write_err dev (metadata_file base_dir) = None ->
  is_Some (fs s !! dest_path base_dir "malware") ->
  is_Some (fs s !! dest_path base_dir "benign") ->
  let r := generate_metadata dev base_dir now s in
  exists md,
    metadata dev base_dir now s = inr md /\
    r.2 = inr md /\
    stats r.1 = stats s /\
    out r.1 = out s ++ [P_metadata_saved (metadata_file base_dir)] /\
    metadata dev base_dir now r.1 = inr md /\
    lookup_file (fs r.1) (metadata_file base_dir)
    = Some (File (bytes_of (json_dumps 0 md)) (created_stat dev (fs s) (metadata_file base_dir))).
Proof.
  intros Hstat Hp Ho Hw Hsm Hsb. cbv zeta.
  destruct (metadata_ext dev base_dir now s s Hstat) as (_ & md & Hmd); try done.
  exists md. split; [exact Hmd|].
  unfold generate_metadata, bind, eval, write_text, print, ret.
  rewrite Hmd, Ho, Hw. cbv zeta. rewrite Hp. cbn [fst snd fs stats out].
  split; [done|]. split; [done|]. split; [done|]. split.
  - rewrite <- Hmd.
    apply (metadata_ext dev base_dir now s); try done; cbn [fs stats];
      by rewrite store_file_other by apply metadata_dir_not_dest.
  - apply lookup_store_file. by apply (open_w_dir dev).
Qed.

Lemma print_summary_completes (dev : device) (base_dir : string) (s : state) :
  all_counters s -> prints_ok dev ->
  exists verdict,
    print_summary dev base_dir s =
    (say (P_location base_dir)
       (say (P_summary (counter "malware" s) (counter "benign" s) (counter "duplicates" s)
               (counter "errors" s) verdict) s), inr tt).
Proof.
  intros [(He & Hd & Hm) (_ & _ & Hb)] Hq.
  destruct He as [e He], Hd as [d Hd], Hm as [m Hm], Hb as [b Hb].
  unfold print_summary, bind, stats_get, eval, counter. rewrite Hm, Hb, Hd, He.
  cbn [default]. rewrite print_say by apply Hq. rewrite print_say by apply Hq.
  by eexists.
Qed.

Lemma main_main_body (dev : device) (now : string) (a : args) (s : state) :
  given (a_malware a) <> None \/ given (a_benign a) <> None ->
  main dev now a s
  = main_body dev now (a_output a) (given (a_malware a)) (given (a_benign a)) s.
Proof.
  intros Hgiven. unfold main, main_body, optional_call.
  destruct (given (a_malware a)) as [dm|]; [done|].
  destruct (given (a_benign a)) as [db|]; [done|]. by destruct Hgiven.
Qed.

(** The state in which [generate_metadata] is called. *)
Lemma main_body_before_metadata (dev : device) (now base_dir : string)
    (m b : option string) (s : state) :
  (forall d, mkdir_err dev d = None) ->
  (forall d, stat_err dev d = None) ->
  prints_ok dev ->
  exists s1 s3,
    adds_empty_dirs (fs s) (fs s1) /\ stats s1 = init_stats /\
    s3 = (optional_call dev base_dir "benign" b
            (optional_call dev base_dir "malware" m s1).1).1 /\
    all_counters s1 /\ all_counters (optional_call dev base_dir "malware" m s1).1 /\
    all_counters s3 /\
    is_Some (fs s3 !! dest_path base_dir "malware") /\
    is_Some (fs s3 !! dest_path base_dir "benign") /\
    is_Some (fs s3 !! (metadata_file base_dir).1) /\
    fs s3 !! (metadata_file base_dir).1 = fs s1 !! (metadata_file base_dir).1 /\
    main_body dev now base_dir m b s
    = (generate_metadata dev base_dir now ;;; print_summary dev base_dir) s3.
Proof.
  intros Hdev Hstat Hq. unfold main_body. unfold bind at 1, modify at 1.
  set (s0 := State (fs s) init_stats (out s)).
  unfold bind at 1. rewrite setup_directories_eq by apply Hq.
  destruct (for_each_creates dev base_dir dataset_dirs (say P_creating_dirs s0) Hdev)
    as [H1 H2].
  destruct (for_each_mkdir_like dev base_dir dataset_dirs (say P_creating_dirs s0))
    as (Hst & _ & Hfs & _).
  apply dataset_dirs_dests in H2 as (Hdm & Hdb & Hmd).
  destruct (for_each (mkdir_parents dev base_dir) dataset_dirs (say P_creating_dirs s0))
    as [s1 [e|[]]]; [done|]. cbn [fst snd] in *.
  assert (Hc1 : all_counters (say P_dirs_created s1)).
  { unfold all_counters, has_counters, say. cbn [stats]. rewrite Hst.
    exact (all_counters_init ∅ []). }
  exists (say P_dirs_created s1).
  destruct (optional_organize_samples dev base_dir "malware" m (say P_dirs_created s1)
              ltac:(by left) Hc1 Hq Hstat) as (R2 & Hc2 & D2 & O2).
  destruct (optional_organize_samples dev base_dir "benign" b
              (optional_call dev base_dir "malware" m (say P_dirs_created s1)).1
              ltac:(by right) Hc2 Hq Hstat) as (R3 & Hc3 & D3 & O3).
  eexists. split; [exact Hfs|]. split; [exact Hst|]. split; [reflexivity|].
  split; [exact Hc1|]. split; [exact Hc2|]. split; [exact Hc3|].
  split; [by apply D3, D2|]. split; [by apply D3, D2|]. split; [by apply D3, D2|].
  split.
  { rewrite O3, O2; [done | |]; intros Heq; symmetry in Heq;
      by apply metadata_dir_not_dest in Heq. }
  unfold bind at 1.
  destruct (optional_call dev base_dir "malware" m (say P_dirs_created s1))
    as [s2 [e|[]]]; [done|]. cbn [fst snd] in *.
  unfold bind at 1.
  by destruct (optional_call dev base_dir "benign" b s2) as [s3 [e|[]]].
Qed.

Lemma main_body_completes (dev : device) (now base_dir : string) (m b : option string)
    (s : state) :
  (forall d, mkdir_err dev d = None) ->
  (forall d, stat_err dev d = None) ->
  prints_ok dev ->
  open_wr_err dev (metadata_file base_dir) = None ->
  write_err dev (metadata_file base_dir) = None ->
  (forall g, lookup_file (fs s) (metadata_file base_dir) = Some g ->
             privileged dev || owner_writable (f_stat g) = true) ->
  let r := main_body dev now base_dir m b s in
  r.2 = inr tt /\
  (exists md st,
     metadata dev base_dir now r.1 = inr md /\
     lookup_file (fs r.1) (metadata_file base_dir)
     = Some (File (bytes_of (json_dumps 0 md)) st)) /\
  exists lines verdict,
    out r.1 = lines ++
      [P_summary (counter "malware" r.1) (counter "benign" r.1)
         (counter "duplicates" r.1) (counter "errors" r.1) verdict;
       P_location base_dir].
Proof.
  intros Hdev Hstat Hq Ho Hw Hrw. cbv zeta.
  destruct (main_body_before_metadata dev now base_dir m b s Hdev Hstat Hq)
    as (s1 & s3 & Hfs & Hst & _ & _ & _ & Hc3 & Hdm & Hdb & Hmd & Heq & ->).
  assert (Hopen : open_w dev (fs s3) (metadata_file base_dir) = None).
  { apply open_w_writable; [done | done|]. intros g Hg. apply Hrw.
    rewrite <- (adds_empty_dirs_lookup_file (fs s) (fs s1)) by done.
    by rewrite <- (lookup_file_ext (fs s3) (fs s1)). }
  destruct (generate_metadata_completes dev base_dir now s3 Hstat (Hq _) Hopen Hw Hdm Hdb)
    as (md & _ & G1 & G2 & G3 & G4 & G5).
  unfold bind.
  destruct (generate_metadata dev base_dir now s3) as [s4 [e|md']]; [done|].
  cbn [fst snd] in *.
  destruct (print_summary_completes dev base_dir s4) as [v ->]; [|done|].
  { unfold all_counters, has_counters. rewrite G2. exact Hc3. }
  cbn [fst snd]. split; [done|]. split.
  - exists md, (created_stat dev (fs s3) (metadata_file base_dir)). split; [|exact G5].
    rewrite <- G4. unfold metadata, count_item, path_exists, exe_files_of. done.
  - exists (out s4), v. unfold say. cbn [out]. by rewrite <- app_assoc.
Qed.

(** X13: a run of [main] with at least one source directory, on a device
    where creating the directories, [exists()], printing and writing the
    record do not fail (the record, if there is one, being writable),
    returns normally whatever happens to the individual candidates; the
    record on disk is then the metadata of the final state, and the last
    lines printed are the summary of the final counters and the location
    of the dataset. *)
Theorem main_completes (dev : device) (now : string) (a : args) (s : state) :
  given (a_malware a) <> None \/ given (a_benign a) <> None ->
  (forall d, mkdir_err dev d = None) ->
  (forall d, stat_err dev d = None) ->
  prints_ok dev ->
  open_wr_err dev (metadata_file (a_output a)) = None ->
  write_err dev (metadata_file (a_output a)) = None ->
  (forall g, lookup_file (fs s) (metadata_file (a_output a)) = Some g ->
             privileged dev || owner_writable (f_stat g) = true) ->
  let r := main dev now a s in
  r.2 = inr tt /\
  (exists md st,
     metadata dev (a_output a) now r.1 = inr md /\
     lookup_file (fs r.1) (metadata_file (a_output a))
     = Some (File (bytes_of (json_dumps 0 md)) st)) /\
  exists lines verdict,
    out r.1 = lines ++
      [P_summary (counter "malware" r.1) (counter "benign" r.1)
         (counter "duplicates" r.1) (counter "errors" r.1) verdict;
       P_location (a_output a)].
Proof.
  intros Hgiven Hdev Hstat Hq Ho Hw Hrw. cbv zeta. rewrite main_main_body by done.
  by apply main_body_completes.
Qed.

Lemma main_completes_witness :
  let r := main c5_dev "2024-01-01T00:00:00" x_args (State c5_fs ∅ []) in
  r.2 = inr tt /\
  (exists md st,
     metadata c5_dev "out" "2024-01-01T00:00:00" r.1 = inr md /\
     lookup_file (fs r.1) (metadata_file "out")
     = Some (File (bytes_of (json_dumps 0 md)) st)) /\
  exists lines verdict,
    out r.1 = lines ++
      [P_summary (counter "malware" r.1) (counter "benign" r.1)
         (counter "duplicates" r.1) (counter "errors" r.1) verdict;
       P_location "out"].
Proof.
  apply (main_completes c5_dev "2024-01-01T00:00:00" x_args (State c5_fs ∅ [])).
  - left. discriminate.
  - reflexivity.
  - reflexivity.
  - intros l. reflexivity.
  - reflexivity.
  - reflexivity.
  - intros g Hg. exfalso. revert Hg. vm_compute. intros Hg. discriminate Hg.
Defined.

(** ** The counters of a run *)

Lemma exe_files_of_adds_empty_dirs (s s1 : state) (d : string) :
  adds_empty_dirs (fs s) (fs s1) -> exe_files_of s1 d = exe_files_of s d.
Proof.
  intros [H1 H2]. unfold exe_files_of.
  destruct (fs s !! d) as [e|] eqn:Hd.
  - by rewrite (H1 _ _ Hd).
  - destruct (fs s1 !! d) as [e1|] eqn:Hd1; [|done].
    destruct (H2 _ _ Hd1) as [H | ->]; [congruence | done].
Qed.

Lemma optional_call_counts (dev : device) (base_dir sample_type : string)
    (o : option string) (s : state) :
  sample_type = "malware" \/ sample_type = "benign" ->
  all_counters s -> prints_ok dev -> (forall d, stat_err dev d = None) ->
  let s' := (optional_call dev base_dir sample_type o s).1 in
  counter "errors" s' + counter "duplicates" s' + counter "malware" s' + counter "benign" s'
  = counter "errors" s + counter "duplicates" s + counter "malware" s + counter "benign" s
    + Z.of_nat (length (candidates s o)).
Proof.
  intros Hl [Hm Hb] Hq Hstat. cbv zeta. destruct o as [d|]; simpl; [|lia].
  destruct Hl as [-> | ->].
  - destruct (organize_samples_count_sum dev base_dir d "malware" s) as (H1 & _);
      [by left | done | done | done |].
    unfold counter at 4.
    rewrite (organize_samples_other_counter dev base_dir d "malware" s "benign") by done.
    fold (counter "benign" s). lia.
  - destruct (organize_samples_count_sum dev base_dir d "benign" s) as (H1 & _);
      [by right | done | done | done |].
    unfold counter at 3.
    rewrite (organize_samples_other_counter dev base_dir d "benign" s "malware") by done.
    fold (counter "malware" s). lia.
Qed.

Lemma print_summary_stats (dev : device) (base_dir : string) (s : state) :
  stats (print_summary dev base_dir s).1 = stats s.
Proof.
  unfold print_summary, bind, stats_get, eval, print.
  repeat match goal with
         | |- context [match stats s !! ?k with _ => _ end] => destruct (stats s !! k)
         | |- context [match print_err ?d ?l with _ => _ end] => destruct (print_err d l)
         end; done.
Qed.

Lemma generate_metadata_stats (dev : device) (base_dir now : string) (s : state) :
  stats (generate_metadata dev base_dir now s).1 = stats s.
Proof.
  unfold generate_metadata, bind, eval, write_text, print, ret.
  destruct (metadata dev base_dir now s) as [e|md]; [done|].
  destruct (open_w dev (fs s) (metadata_file base_dir)); [done|]. cbv zeta.
  destruct (print_err dev (P_metadata_saved (metadata_file base_dir)));
    (destruct (write_err dev (metadata_file base_dir)) as [k|];
     [destruct (k <? _)%nat|]); done.
Qed.

(** X14: the counters of a run account for every candidate: [main]
    starts from zero counters, so when no [mkdir] and no [exists()] fails
    and the standard output accepts every line, the four counters add up,
    at the end of the run, to the number of [.exe] entries of the source
    directories given (the benign source being another directory than the
    malware destination), whether or not the metadata record can be
    written. *)
Theorem main_counts_every_candidate (dev : device) (now : string) (a : args) (s : state) :
  given (a_malware a) <> None \/ given (a_benign a) <> None ->
  (forall d, mkdir_err dev d = None) ->
  (forall d, stat_err dev d = None) ->
  prints_ok dev ->
  given (a_benign a) <> Some (dest_path (a_output a) "malware") ->
  let s' := (main dev now a s).1 in
  counter "malware" s' + counter "benign" s' + counter "duplicates" s' + counter "errors" s'
  = Z.of_nat (length (candidates s (given (a_malware a)))
              + length (candidates s (given (a_benign a)))).
Proof.
  intros Hgiven Hdev Hstat Hq Hapart. cbv zeta. rewrite main_main_body by done.
  destruct (main_body_before_metadata dev now (a_output a) (given (a_malware a))
              (given (a_benign a)) s Hdev Hstat Hq)
    as (s1 & s3 & Hfs & Hst & Hs3 & Hc1 & Hc2 & _ & _ & _ & _ & _ & ->).
  assert (Hstats : stats ((generate_metadata dev (a_output a) now ;;;
                           print_summary dev (a_output a)) s3).1 = stats s3).
  { unfold bind.
    pose proof (generate_metadata_stats dev (a_output a) now s3) as G.
    destruct (generate_metadata dev (a_output a) now s3) as [s4 [e|md]]; [exact G|].
    cbn [fst snd] in *. by rewrite print_summary_stats. }
  unfold counter. rewrite Hstats, Hs3.
  pose proof (optional_call_counts dev (a_output a) "malware" (given (a_malware a)) s1
                ltac:(by left) Hc1 Hq Hstat) as C1.
  pose proof (optional_call_counts dev (a_output a) "benign" (given (a_benign a))
                (optional_call dev (a_output a) "malware" (given (a_malware a)) s1).1
                ltac:(by right) Hc2 Hq Hstat) as C2.
  cbv zeta in C1, C2. unfold counter in C1, C2.
  assert (Hm : candidates s1 (given (a_malware a)) = candidates s (given (a_malware a))).
  { unfold candidates. destruct (given (a_malware a)); [|done].
    by apply exe_files_of_adds_empty_dirs. }
  assert (Hb : candidates (optional_call dev (a_output a) "malware"
                             (given (a_malware a)) s1).1 (given (a_benign a))
               = candidates s (given (a_benign a))).
  { unfold candidates. destruct (given (a_benign a)) as [db|]; [|done].
    rewrite <- (exe_files_of_adds_empty_dirs s s1 db Hfs).
    unfold optional_call. destruct (given (a_malware a)) as [dm|]; [|done].
    unfold exe_files_of. rewrite organize_samples_fs_other; [done|congruence]. }
  rewrite Hm in C1. rewrite Hb in C2. rewrite Hst in C1.
  change (default 0 (init_stats !! "errors")) with 0 in C1.
  change (default 0 (init_stats !! "duplicates")) with 0 in C1.
  change (default 0 (init_stats !! "malware")) with 0 in C1.
  change (default 0 (init_stats !! "benign")) with 0 in C1.
  lia.
Qed.

Lemma main_counts_every_candidate_witness :
  let s' := (main c5_dev "2024-01-01T00:00:00" x_args (State c5_fs ∅ [])).1 in
  counter "malware" s' + counter "benign" s' + counter "duplicates" s' + counter "errors" s'
  = 3.
Proof.
  apply (main_counts_every_candidate c5_dev "2024-01-01T00:00:00" x_args (State c5_fs ∅ [])).
  - left. discriminate.
  - reflexivity.
  - reflexivity.
  - intros l. reflexivity.
  - discriminate.
Defined.

(** ** Read-only candidates *)



